(** * Meeting lifecycle: webhook dispatcher, transcript pipeline, voice overlay

    A shallow embedding of the four TypeScript sources

    - [src/app/api/webhook/route.ts]            (module [Webhook])
    - [src/inngest/functions.ts]                (module [Pipeline])
    - [src/modules/call/ui/components/call-active.tsx] (module [CallActive])
    - [src/app/api/ai/process-speech/route.ts]  (module [ProcessSpeech])

    Database tables are lists of rows, SQL [where] clauses are boolean
    predicates on rows, and every effect of a handler (row updates, queued
    jobs, ended calls) is threaded through an explicit world value.
    External services (signature verification, JSON decoding, HTTP fetch,
    the generative model) are parameters of the sections that use them. *)

From Stdlib Require Import String Ascii List ZArith Bool Lia.
From Stdlib Require Import DecimalString.
From Stdlib Require DecimalPos.
Import ListNotations.
Open Scope string_scope.

(* ================================================================== *)
(** ** JavaScript string helpers used by the sources *)

Module JS.

(** [s.split(c)] for a one-character separator: the pieces between the
    separators, in order; never the empty list. *)
Fixpoint split (sep : ascii) (s : string) : list string :=
  match s with
  | EmptyString => [EmptyString]
  | String c rest =>
      if Ascii.eqb c sep then EmptyString :: split sep rest
      else match split sep rest with
           | [] => [String c EmptyString]
           | piece :: pieces => String c piece :: pieces
           end
  end.

(** [xs[i]]: [None] plays the part of [undefined]. *)
Definition index {A} (xs : list A) (i : nat) : option A := nth_error xs i.

(** Truthiness of a value that is a string or [undefined]/[null]:
    [!v] holds for [undefined] and for the empty string. *)
Definition truthy (v : option string) : bool :=
  match v with
  | None => false
  | Some s => negb (String.eqb s EmptyString)
  end.

(** The string behind a value that has passed a truthiness test. *)
Definition the (v : option string) : string :=
  match v with
  | Some s => s
  | None => EmptyString
  end.

(** [a || b] on such values. *)
Definition or_else (v : option string) (d : string) : string :=
  if truthy v then match v with Some s => s | None => d end else d.

(** [hay.includes(needle)]. *)
Fixpoint includes (needle hay : string) : bool :=
  String.prefix needle hay ||
  match hay with
  | EmptyString => false
  | String _ rest => includes needle rest
  end.

(** A thrown value: an [Error] object or anything else, kept by what
    [String(e)] gives. *)
Inductive Thrown : Type :=
| Error (name message : string)
| thrown (str : string).

(** [String(e)]; for an [Error] this is [Error.prototype.toString]. *)
Definition String_ (e : Thrown) : string :=
  match e with
  | Error name message =>
      if String.eqb name EmptyString then message
      else if String.eqb message EmptyString then name
      else name ++ ": " ++ message
  | thrown str => str
  end.

(** [e instanceof Error ? e.message : String(e)]. *)
Definition message_or_String (e : Thrown) : string :=
  match e with
  | Error _ message => message
  | thrown str => str
  end.

(** What a call that may throw yields. *)
Inductive Try (A : Type) : Type :=
| Returns (a : A)
| Throws (e : Thrown).
Arguments Returns {A} a.
Arguments Throws {A} e.

(** [s.trim()].  A string is kept as the UTF-8 bytes of the JavaScript
    string, so the white space and line terminators that [trim] strips are
    the one-byte codes 9 to 13 and 32 and the encodings of U+00A0, U+1680,
    U+2000 to U+200A, U+2028, U+2029, U+202F, U+205F, U+3000 and U+FEFF. *)
Definition is_space (c : ascii) : bool :=
  let n := nat_of_ascii c in
  Nat.eqb n 32 || (Nat.leb 9 n && Nat.leb n 13).

(** The two-byte encoding of U+00A0. *)
Definition is_space2 (a b : ascii) : bool :=
  Nat.eqb (nat_of_ascii a) 194 && Nat.eqb (nat_of_ascii b) 160.

(** The three-byte encodings: U+1680; U+2000 to U+200A, U+2028, U+2029
    and U+202F; U+205F; U+3000; U+FEFF. *)
Definition is_space3 (a b c : ascii) : bool :=
  let x := nat_of_ascii a in
  let y := nat_of_ascii b in
  let z := nat_of_ascii c in
  (Nat.eqb x 225 && Nat.eqb y 154 && Nat.eqb z 128)
  || (Nat.eqb x 226 && Nat.eqb y 128
      && ((Nat.leb 128 z && Nat.leb z 138)
          || Nat.eqb z 168 || Nat.eqb z 169 || Nat.eqb z 175))
  || (Nat.eqb x 226 && Nat.eqb y 129 && Nat.eqb z 159)
  || (Nat.eqb x 227 && Nat.eqb y 128 && Nat.eqb z 128)
  || (Nat.eqb x 239 && Nat.eqb y 187 && Nat.eqb z 191).

(** Drops the white space characters at the front of the bytes; with
    [backwards] the bytes are those of a reversed string, each encoding
    read last byte first. *)
Fixpoint dropSpaces (backwards : bool) (s : string) : string :=
  match s with
  | EmptyString => EmptyString
  | String a r1 =>
      if is_space a then dropSpaces backwards r1
      else
        match r1 with
        | EmptyString => s
        | String b r2 =>
            if (if backwards then is_space2 b a else is_space2 a b)
            then dropSpaces backwards r2
            else
              match r2 with
              | EmptyString => s
              | String c r3 =>
                  if (if backwards then is_space3 c b a else is_space3 a b c)
                  then dropSpaces backwards r3
                  else s
              end
        end
  end.

Definition reverse (s : string) : string :=
  string_of_list_ascii (List.rev (list_ascii_of_string s)).

Definition trimStart (s : string) : string := dropSpaces false s.

Definition trimEnd (s : string) : string :=
  reverse (dropSpaces true (reverse s)).

Definition trim (s : string) : string := trimEnd (trimStart s).

(** The value of a decimal numeral: digits only, at least one, and no
    leading zero unless the numeral is ["0"]. *)
Definition digit (c : ascii) : option Z :=
  let n := nat_of_ascii c in
  if Nat.leb 48 n && Nat.leb n 57 then Some (Z.of_nat (n - 48)) else None.

Fixpoint read_digits (acc : Z) (s : string) : option Z :=
  match s with
  | EmptyString => Some acc
  | String c rest =>
      match digit c with
      | Some d => read_digits (10 * acc + d) rest
      | None => None
      end
  end.

Definition decimal_value (s : string) : option Z :=
  match s with
  | EmptyString => None
  | String c rest =>
      if Nat.eqb (nat_of_ascii c) 48 && negb (String.eqb rest EmptyString)
      then None
      else read_digits 0 s
  end.

(** Template-literal rendering of an integer. *)
Definition show_int (z : Z) : string := NilZero.string_of_int (Z.to_int z).

(** [Math.ceil(n / d)] for an integer [n] and a positive integer [d]
    (millisecond counts: the quotient is rounded up exactly). *)
Definition ceil_div (n d : Z) : Z := - ((- n) / d).

End JS.

(* ================================================================== *)
(** ** Database schema *)

(** Modelled from the spec: the [meetings.status] enumeration of
    [@/db/schema], which is not among the sources.  The handlers compare the
    column with the literals ["completed"], ["active"], ["cancelled"] and
    ["processing"]; [upcoming] is the status of a freshly created meeting. *)
Inductive MeetingStatus : Type :=
| upcoming | active | processing | completed | cancelled.

Definition status_eqb (a b : MeetingStatus) : bool :=
  match a, b with
  | upcoming, upcoming | active, active | processing, processing
  | completed, completed | cancelled, cancelled => true
  | _, _ => false
  end.

(** The single forward path [upcoming -> active -> processing -> completed]:
    the position of a status on it; [cancelled] is off the path. *)
Definition path_index (s : MeetingStatus) : option nat :=
  match s with
  | upcoming => Some 0%nat
  | active => Some 1%nat
  | processing => Some 2%nat
  | completed => Some 3%nat
  | cancelled => None
  end.

(** [forward s s']: a meeting in status [s] is left where it is or moved
    to a later status of the path. *)
Definition forward (s s' : MeetingStatus) : bool :=
  status_eqb s s' ||
  match path_index s, path_index s' with
  | Some i, Some j => Nat.ltb i j
  | _, _ => false
  end.

(** Modelled from the spec: the columns of the [meetings] table of
    [@/db/schema] that the handlers and the pipeline read or write. *)
Module meetings.
Record row : Type := mk {
  id : string;
  status : MeetingStatus;
  agentId : string;
  transcriptUrl : option string;
  recordingUrl : option string;
  summary : option string;
  startedAt : option Z;
  endedAt : option Z
}.
End meetings.

(** What an operation may do to a meeting row: keep its id and leave the
    status where it is or move it forward on the path. *)
Definition lifecycle_step (m m' : meetings.row) : Prop :=
  meetings.id m' = meetings.id m /\
  forward (meetings.status m) (meetings.status m') = true.

(** Modelled from the spec: the columns of the [agents] table. *)
Module agents.
Record row : Type := mk {
  id : string;
  name : string;
  instructions : string
}.
End agents.

(** Modelled from the spec: the columns of the [user] table. *)
Module user.
Record row : Type := mk {
  id : string;
  name : string
}.
End user.

(** The query builder: [select().from(t).where(p)],
    [update(t).set(f).where(p)] and its [.returning()] rows. *)
Module Db.
Section Table.
Context {R : Type}.

Definition select (where_ : R -> bool) (t : list R) : list R :=
  filter where_ t.

Definition update (set : R -> R) (where_ : R -> bool) (t : list R) : list R :=
  map (fun r => if where_ r then set r else r) t.

Definition returning (set : R -> R) (where_ : R -> bool) (t : list R) : list R :=
  map set (filter where_ t).
End Table.

(** [eq(column, value)] where the value may be [undefined]: the comparison
    is bound to NULL and selects no row. *)
Definition eq_str (col : string) (v : option string) : bool :=
  match v with
  | Some s => String.eqb col s
  | None => false
  end.
End Db.

(** The hosted model, [GoogleGenAI] of [@google/genai]: the request given
    to [genAI.models.generateContent] (temperature kept in tenths) and what
    the call does: it throws, or it resolves to a result whose [text] may
    be missing. *)
Module GenAI.
Record GenerateRequest : Type := mkGenerate {
  model : string;
  contents : string;
  temperature_tenths : Z;
  maxOutputTokens : Z
}.

Inductive Generated : Type :=
| rejects (e : JS.Thrown)
| resolves (text : option string).
End GenAI.

(** The Meeting Store: the three tables the core reads or writes. *)
Record Database : Type := mkDatabase {
  db_meetings : list meetings.row;
  db_user : list user.row;
  db_agents : list agents.row
}.

Definition with_meetings (d : Database) (t : list meetings.row) : Database :=
  mkDatabase t (db_user d) (db_agents d).

(** The job event [{ name, data: { meetingId, transcriptUrl } }] that the
    webhook sends and the pipeline consumes; [transcriptUrl] is the
    nullable column of the updated row. *)
Record JobData : Type := mkData {
  meetingId : string;
  transcriptUrl : option string
}.

Record Job : Type := mkJob {
  name : string;
  data : JobData
}.

(* ================================================================== *)
(** ** The webhook endpoint: [src/app/api/webhook/route.ts] *)

Module Webhook.
Local Open Scope Z_scope.

(** The parts of a [NextRequest] the handler reads: the two headers
    ([None] when the header is absent) and the raw body text. *)
Record NextRequest : Type := mkRequest {
  x_signature : option string;
  x_api_key : option string;
  text : string
}.

(** The JSON bodies the handler answers with. *)
Inductive Json : Type :=
| error_json (error : string)      (* { error: ... } *)
| status_ok.                       (* { status: "ok" } *)

Record NextResponse : Type := mkResponse {
  json : Json;
  status : Z
}.

(** [NextResponse.json(body)] answers 200 when no status is given. *)
Definition NextResponse_json (body : Json) (st : option Z) : NextResponse :=
  mkResponse body (match st with Some n => n | None => 200 end).

(** The decoded payload, with the fields the handler reads, typed as the
    event types of the video SDK declare them: [type] and
    [call.custom?.meetingId] may be missing, the other fields are strings. *)
Record Payload : Type := mkPayload {
  type : option string;
  call_custom_meetingId : option string;
  call_cid : string;
  call_transcription_url : string;
  call_recording_url : string
}.

(** Everything a delivery can read or change: the database, the jobs
    given to [inngest.send] and the calls ended on the video service
    (call type and call id), oldest first. *)
Record World : Type := mkWorld {
  db : Database;
  sent : list Job;
  ended : list (string * string)
}.

(** A handler either returns a response early ([inl]) or goes on with a
    value ([inr]); the world is threaded through. *)
Definition Handler (A : Type) : Type := World -> (NextResponse + A) * World.

Definition pure {A} (a : A) : Handler A := fun w => (inr a, w).

Definition bind {A B} (m : Handler A) (k : A -> Handler B) : Handler B :=
  fun w =>
    match m w with
    | (inl resp, w') => (inl resp, w')
    | (inr a, w') => k a w'
    end.

Definition return_ {A} (resp : NextResponse) : Handler A :=
  fun w => (inl resp, w).

Notation "x <- m ;; k" := (bind m (fun x => k))
  (at level 61, m at next level, right associativity).
Notation "m ;; k" := (bind m (fun _ => k))
  (at level 61, right associativity).

Definition select_meetings (where_ : meetings.row -> bool)
  : Handler (list meetings.row) :=
  fun w => (inr (Db.select where_ (db_meetings (db w))), w).

Definition select_agents (where_ : agents.row -> bool)
  : Handler (list agents.row) :=
  fun w => (inr (Db.select where_ (db_agents (db w))), w).

(** [db.update(meetings).set(..).where(..)], answering the updated rows
    (what [.returning()] yields; ignored by the callers that do not ask). *)
Definition update_meetings (set : meetings.row -> meetings.row)
    (where_ : meetings.row -> bool) : Handler (list meetings.row) :=
  fun w =>
    (inr (Db.returning set where_ (db_meetings (db w))),
     mkWorld (with_meetings (db w) (Db.update set where_ (db_meetings (db w))))
             (sent w) (ended w)).

Definition inngest_send (j : Job) : Handler unit :=
  fun w => (inr tt, mkWorld (db w) (sent w ++ [j])%list (ended w)).

(** [streamVideo.video.call(type, id).end()]. *)
Definition call_end (call_type call_id : string) : Handler unit :=
  fun w => (inr tt, mkWorld (db w) (sent w) (ended w ++ [(call_type, call_id)])%list).

(** The [set] clauses of the four updates. *)
Definition set_active (now : Z) (m : meetings.row) : meetings.row :=
  meetings.mk (meetings.id m) active (meetings.agentId m)
    (meetings.transcriptUrl m) (meetings.recordingUrl m) (meetings.summary m)
    (Some now) (meetings.endedAt m).

Definition set_processing (now : Z) (m : meetings.row) : meetings.row :=
  meetings.mk (meetings.id m) processing (meetings.agentId m)
    (meetings.transcriptUrl m) (meetings.recordingUrl m) (meetings.summary m)
    (meetings.startedAt m) (Some now).

Definition set_transcriptUrl (url : string) (m : meetings.row) : meetings.row :=
  meetings.mk (meetings.id m) (meetings.status m) (meetings.agentId m)
    (Some url) (meetings.recordingUrl m) (meetings.summary m)
    (meetings.startedAt m) (meetings.endedAt m).

Definition set_recordingUrl (url : string) (m : meetings.row) : meetings.row :=
  meetings.mk (meetings.id m) (meetings.status m) (meetings.agentId m)
    (meetings.transcriptUrl m) (Some url) (meetings.summary m)
    (meetings.startedAt m) (meetings.endedAt m).

(** The [where] clause of the [session_started] lookup. *)
Definition startable (meetingId : option string) (m : meetings.row) : bool :=
  Db.eq_str (meetings.id m) meetingId
  && negb (status_eqb (meetings.status m) completed)
  && negb (status_eqb (meetings.status m) active)
  && negb (status_eqb (meetings.status m) cancelled)
  && negb (status_eqb (meetings.status m) processing).

(** [eventType === lit]. *)
Definition type_is (payload : Payload) (lit : string) : bool :=
  match type payload with
  | Some t => String.eqb t lit
  | None => false
  end.

(** What the route answers: the response a handler returned early, or the
    final [NextResponse.json({ status: "ok" })] when it ran to its end. *)
Definition respond (r : (NextResponse + unit) * World) : NextResponse * World :=
  match r with
  | (inl resp, w) => (resp, w)
  | (inr _, w) => (NextResponse_json status_ok None, w)
  end.

Section Endpoint.
(** [streamVideo.verifyWebhook] of the video SDK. *)
Variable verifyWebhook : string -> string -> bool.
(** [JSON.parse] followed by the casts to the event types; [None] when
    it throws. *)
Variable JSON_parse : string -> option Payload.

Definition verifySignatureWithSDK (body signature : string) : bool :=
  verifyWebhook body signature.

Definition session_started (event : Payload) (now : Z) : Handler unit :=
  let meetingId := call_custom_meetingId event in
  if negb (JS.truthy meetingId) then
    return_ (NextResponse_json (error_json "Missing meetingId") (Some 400))
  else
    found <- select_meetings (startable meetingId) ;;
    match found with
    | [] =>
        return_ (NextResponse_json (error_json "Meeting not found") (Some 404))
    | existingMeeting :: _ =>
        update_meetings (set_active now)
          (fun m => String.eqb (meetings.id m) (meetings.id existingMeeting)) ;;
        agent <- select_agents
          (fun a => String.eqb (agents.id a) (meetings.agentId existingMeeting)) ;;
        match agent with
        | [] =>
            return_ (NextResponse_json (error_json "Agent not found") (Some 404))
        | existingAgent :: _ => pure tt
        end
    end.

Definition session_participant_left (event : Payload) : Handler unit :=
  let meetingId := JS.index (JS.split ":" (call_cid event)) 1%nat in
  if negb (JS.truthy meetingId) then
    return_ (NextResponse_json (error_json "Missing meetingId ") (Some 400))
  else
    call_end "default" (JS.the meetingId).

Definition session_ended (event : Payload) (now : Z) : Handler unit :=
  let meetingId := call_custom_meetingId event in
  if negb (JS.truthy meetingId) then
    return_ (NextResponse_json (error_json "Missing meetingId") (Some 400))
  else
    update_meetings (set_processing now)
      (fun m => Db.eq_str (meetings.id m) meetingId
                && status_eqb (meetings.status m) active) ;;
    pure tt.

Definition transcription_ready (event : Payload) : Handler unit :=
  let meetingId := JS.index (JS.split ":" (call_cid event)) 1%nat in
  updated <- update_meetings (set_transcriptUrl (call_transcription_url event))
               (fun m => Db.eq_str (meetings.id m) meetingId) ;;
  match updated with
  | [] =>
      return_ (NextResponse_json (error_json "Meeting not found ") (Some 400))
  | updateMeeting :: _ =>
      inngest_send
        (mkJob "meetings/processing"
           (mkData (meetings.id updateMeeting)
                   (meetings.transcriptUrl updateMeeting)))
  end.

Definition recording_ready (event : Payload) : Handler unit :=
  let meetingId := JS.index (JS.split ":" (call_cid event)) 1%nat in
  update_meetings (set_recordingUrl (call_recording_url event))
    (fun m => Db.eq_str (meetings.id m) meetingId) ;;
  pure tt.

Definition dispatch (payload : Payload) (now : Z) : Handler unit :=
  if type_is payload "call.session_started" then
    session_started payload now
  else if type_is payload "call.session_participant_left" then
    session_participant_left payload
  else if type_is payload "call.session_ended" then
    session_ended payload now
  else if type_is payload "call.transcription_ready" then
    transcription_ready payload
  else if type_is payload "call.recording_ready" then
    recording_ready payload
  else pure tt.

(** The route handler; [now] is what [new Date()] reads during the
    delivery. *)
Definition POST_handler (req : NextRequest) (now : Z) : Handler unit :=
  let signature := x_signature req in
  let apiKey := x_api_key req in
  if negb (JS.truthy signature) || negb (JS.truthy apiKey) then
    return_ (NextResponse_json (error_json "Missing signature or API key")
                               (Some 400))
  else
    let body := text req in
    if negb (verifySignatureWithSDK body (JS.the signature)) then
      return_ (NextResponse_json (error_json "Invalid signature") (Some 401))
    else
      match JSON_parse body with
      | None =>
          return_ (NextResponse_json (error_json "Invalid JSON ") (Some 400))
      | Some payload => dispatch payload now
      end.

Definition POST (req : NextRequest) (now : Z) (w : World)
  : NextResponse * World :=
  respond (POST_handler req now w).

End Endpoint.

(** A delivery that passes the header and signature checks. *)
Definition authentic (verifyWebhook : string -> string -> bool)
    (req : NextRequest) : Prop :=
  JS.truthy (x_signature req) = true /\
  JS.truthy (x_api_key req) = true /\
  verifyWebhook (text req) (JS.the (x_signature req)) = true.

(** A delivery that reaches the dispatcher with the decoded [payload]. *)
Definition delivers (verifyWebhook : string -> string -> bool)
    (JSON_parse : string -> option Payload)
    (req : NextRequest) (payload : Payload) : Prop :=
  authentic verifyWebhook req /\ JSON_parse (text req) = Some payload.

(** The error responses of the endpoint other than "Agent not found". *)
Definition early_errors : list NextResponse :=
  [ mkResponse (error_json "Missing signature or API key") 400;
    mkResponse (error_json "Invalid signature") 401;
    mkResponse (error_json "Invalid JSON ") 400;
    mkResponse (error_json "Missing meetingId") 400;
    mkResponse (error_json "Missing meetingId ") 400;
    mkResponse (error_json "Meeting not found") 404;
    mkResponse (error_json "Meeting not found ") 400 ].

Definition agent_not_found : NextResponse :=
  mkResponse (error_json "Agent not found") 404.

Definition acknowledgement : NextResponse := mkResponse status_ok 200.

End Webhook.

(* ================================================================== *)
(** ** The transcript pipeline: [src/inngest/functions.ts] *)

Module Pipeline.
Local Open Scope Z_scope.

Import JS GenAI.

Definition nl : string := String (ascii_of_nat 10) EmptyString.

Definition systemPrompt : string :=
  "You are an expert summarizer. You write readable, concise, simple content. You are given a transcript of a meeting and you need to summarize it."
  ++ nl ++ nl ++
  "Use the following markdown structure for every output:"
  ++ nl ++ nl ++
  "### Overview"
  ++ nl ++
  "Provide a detailed, engaging summary of the session's content. Focus on major features, user workflows, and any key takeaways. Write in a narrative style, using full sentences. Highlight unique or powerful aspects of the product, platform, or discussion."
  ++ nl ++ nl ++
  "### Notes"
  ++ nl ++
  "Break down key content into thematic sections with timestamp ranges. Each section should summarize key points, actions, or demos in bullet format."
  ++ nl ++ nl ++
  "Example:"
  ++ nl ++
  "#### Section Name"
  ++ nl ++
  "- Main point or demo shown here"
  ++ nl ++
  "- Another key insight or interaction"
  ++ nl ++
  "- Follow-up tool or explanation provided"
  ++ nl ++ nl ++
  "#### Next Section"
  ++ nl ++
  "- Feature X automatically does Y"
  ++ nl ++
  "- Mention of integration with Z".

(** A row of [speakers = [...userSpeakers, ...agentSpeakers]]. *)
Inductive Speaker : Type :=
| of_user (u : user.row)
| of_agent (a : agents.row).

Definition speaker_row_id (s : Speaker) : string :=
  match s with
  | of_user u => user.id u
  | of_agent a => agents.id a
  end.

Definition speaker_row_name (s : Speaker) : string :=
  match s with
  | of_user u => user.name u
  | of_agent a => agents.name a
  end.

(** [[...new Set(xs)]]: the distinct values, first occurrences kept. *)
Fixpoint new_Set (xs : list string) : list string :=
  match xs with
  | [] => []
  | x :: rest => x :: filter (fun y => negb (String.eqb y x)) (new_Set rest)
  end.

(** [inArray(column, values)]. *)
Definition inArray (col : string) (values : list string) : bool :=
  existsb (String.eqb col) values.

(** The set clause of the last step. *)
Definition set_summary (summary : string) (m : meetings.row) : meetings.row :=
  meetings.mk (meetings.id m) completed (meetings.agentId m)
    (meetings.transcriptUrl m) (meetings.recordingUrl m) (Some summary)
    (meetings.startedAt m) (meetings.endedAt m).

(** How a run of the job ends: every step done, or the named step threw
    (the job runner owns what happens next). *)
Inductive Run : Type :=
| finished
| step_failed (step : string) (e : Thrown).

Section Job.
(** Modelled from the spec: [StreamTranscriptItem] of
    [@/modules/meetings/types], which is not among the sources; an item
    is any value with a [speaker_id]. *)
Variable StreamTranscriptItem : Type.
Variable speaker_id : StreamTranscriptItem -> string.

(** [fetch(url).then(res => res.text())]. *)
Variable fetch_text : option string -> Try string.
(** [JSONL.parse]. *)
Variable JSONL_parse : string -> Try (list StreamTranscriptItem).
(** [JSON.stringify] of the annotated transcript. *)
Variable JSON_stringify : list (StreamTranscriptItem * string) -> string.
(** [genAI.models.generateContent]. *)
Variable generateContent : GenerateRequest -> Generated.

Definition summarizeWithGemini (transcript : string) : Try string :=
  let prompt :=
    systemPrompt ++ nl ++ nl ++ "Transcript to summarize:" ++ nl ++ transcript in
  match generateContent
          (mkGenerate "gemini-2.0-flash-exp" prompt 7 2048) with
  | resolves text => Returns (JS.or_else text "Summary generation failed")
  | rejects _ => Throws (Error "Error" "Failed to generate summary with Gemini")
  end.

(** The annotation of one item, [{ ...item, user: { name } }], kept as
    the item paired with the name. *)
Definition annotate (speakers : list Speaker) (item : StreamTranscriptItem)
  : StreamTranscriptItem * string :=
  match find (fun speaker => String.eqb (speaker_row_id speaker) (speaker_id item))
             speakers with
  | None => (item, "Unknown")
  | Some speaker => (item, speaker_row_name speaker)
  end.

(** The body of the step once both lookups have answered. *)
Definition with_speakers (transcript : list StreamTranscriptItem)
    (userSpeakers : list user.row) (agentSpeakers : list agents.row)
  : list (StreamTranscriptItem * string) :=
  let speakers := (map of_user userSpeakers ++ map of_agent agentSpeakers)%list in
  map (annotate speakers) transcript.

(** Step "add-speakers". *)
Definition add_speakers (transcript : list StreamTranscriptItem) (d : Database)
  : list (StreamTranscriptItem * string) :=
  let speakerIds := new_Set (map speaker_id transcript) in
  let userSpeakers :=
    Db.select (fun u => inArray (user.id u) speakerIds) (db_user d) in
  let agentSpeakers :=
    Db.select (fun a => inArray (agents.id a) speakerIds) (db_agents d) in
  with_speakers transcript userSpeakers agentSpeakers.

(** Step "save-summary". *)
Definition save_summary (event : Job) (summary : string) (d : Database)
  : Database :=
  with_meetings d
    (Db.update (set_summary summary)
       (fun m => String.eqb (meetings.id m) (meetingId (data event)))
       (db_meetings d)).

(** One run of the job on the event, steps in order; a step that throws
    ends the run there. *)
Definition meetingsProcessing (event : Job) (d : Database) : Run * Database :=
  match fetch_text (transcriptUrl (data event)) with
  | Throws e => (step_failed "fetch-transcript" e, d)
  | Returns response =>
      match JSONL_parse response with
      | Throws e => (step_failed "parse-transcript" e, d)
      | Returns transcript =>
          let transcirptWithSpeakers := add_speakers transcript d in
          match summarizeWithGemini (JSON_stringify transcirptWithSpeakers) with
          | Throws e => (step_failed "generate-summary" e, d)
          | Returns summary => (finished, save_summary event summary d)
          end
      end
  end.

End Job.

End Pipeline.

(* ================================================================== *)
(** ** The voice overlay: [src/modules/call/ui/components/call-active.tsx] *)

Module CallActive.
Local Open Scope Z_scope.

(** 3 seconds between requests. *)
Definition MIN_REQUEST_INTERVAL : Z := 3000.

(** The component state the overlay logic touches: the
    [lastRequestTime] ref and the [aiResponse] state. *)
Record State : Type := mkState {
  lastRequestTime : Z;
  aiResponse : string
}.

(** What leaves the component: the request posted to the endpoint and the
    utterance given to the speech synthesis. *)
Inductive Effect : Type :=
| fetch_post (url : string) (text : string)
| speak (utterance : string).

(** The JSON of the endpoint's answer, with the fields the overlay reads. *)
Record ResponseJson : Type := mkJson {
  error : option string;
  details : option string;
  response : string
}.

(** What the awaited [fetch] gives: a rejection, or a response with its
    status and what [response.json()] yields ([None] when it throws). *)
Inductive Fetched : Type :=
| fetch_rejects
| fetch_resolves (status : Z) (json : option ResponseJson).

(** [response.ok]. *)
Definition ok (status : Z) : bool := (200 <=? status) && (status <=? 299).

(** [errorData.error?.includes('quota')]. *)
Definition error_includes_quota (errorData : ResponseJson) : bool :=
  match error errorData with
  | Some e => JS.includes "quota" e
  | None => false
  end.

(** One entry of [event.results]: the first alternative's transcript and
    the [isFinal] flag. *)
Record SpeechResult : Type := mkResult {
  transcript : string;
  isFinal : bool
}.

Section Component.
(** The endpoint as the browser sees it, by url and posted text. *)
Variable fetch : string -> string -> Fetched.
(** ['speechSynthesis' in window]. *)
Variable speechSynthesis_in_window : bool.

(** [processWithFreeAI(text)] when [Date.now()] reads [now]: the next
    state and the effects, oldest first. *)
Definition processWithFreeAI (text : string) (now : Z) (st : State)
  : State * list Effect :=
  let timeSinceLastRequest := now - lastRequestTime st in
  if timeSinceLastRequest <? MIN_REQUEST_INTERVAL then
    let waitTime :=
      JS.ceil_div (MIN_REQUEST_INTERVAL - timeSinceLastRequest) 1000 in
    (mkState (lastRequestTime st)
             ("Please wait " ++ JS.show_int waitTime ++ " seconds..."),
     [])
  else
    let posted := fetch_post "/api/ai/process-speech" text in
    match fetch "/api/ai/process-speech" text with
    | fetch_rejects =>
        (mkState now "Error: Failed to connect to AI service", [posted])
    | fetch_resolves status None =>
        (mkState now "Error: Failed to connect to AI service", [posted])
    | fetch_resolves status (Some body) =>
        if negb (ok status) then
          if (status =? 429) || error_includes_quota body then
            (mkState now
               "Quota limit reached. Please wait a moment before trying again.",
             [posted])
          else
            (mkState now
               ("Error: " ++
                (if JS.truthy (details body)
                 then JS.the (details body)
                 else JS.or_else (error body) "Failed to get AI response")),
             [posted])
        else
          (mkState now (response body),
           if speechSynthesis_in_window
           then [posted; speak (response body)]
           else [posted])
    end.

(** The recognizer's [onresult] listener. *)
Definition onresult (results : list SpeechResult) (now : Z) (st : State)
  : State * list Effect :=
  let joined := String.concat EmptyString (map transcript results) in
  match results with
  | [] => (st, [])
  | first :: _ =>
      if isFinal first
         && (2 <? Z.of_nat (length (JS.split " " (JS.trim joined))))
      then processWithFreeAI joined now st
      else (st, [])
  end.

End Component.

End CallActive.

(* ================================================================== *)
(** ** The voice endpoint: [src/app/api/ai/process-speech/route.ts] *)

Module ProcessSpeech.
Local Open Scope Z_scope.
Import JS GenAI.

Inductive Json : Type :=
| error_json (error : string) (details : option string)
| reply_json (response : string) (success : bool).

Record NextResponse : Type := mkResponse {
  json : Json;
  status : Z
}.

Definition nl : string := String (ascii_of_nat 10) EmptyString.
Definition dquote : string := String (ascii_of_nat 34) EmptyString.

Definition systemContext : string :=
  "You are a helpful AI assistant in a video call. " ++ nl ++
  "Keep responses very brief and conversational (1-2 sentences max). " ++ nl ++
  "Be friendly and helpful. Respond naturally as if speaking to someone.".

(** The [catch] block. *)
Definition on_error (e : Thrown) : NextResponse :=
  let errorStr := String_ e in
  if includes "quota" errorStr || includes "RESOURCE_EXHAUSTED" errorStr then
    mkResponse
      (error_json
         "API quota exceeded. Please check your Gemini API key at https://aistudio.google.com/app/apikey or wait a moment and try again."
         (Some "Quota limit reached"))
      429
  else
    mkResponse
      (error_json "Failed to process with AI" (Some (message_or_String e)))
      500.

Section Endpoint.
(** [process.env.GEMINI_API_KEY]. *)
Variable GEMINI_API_KEY : option string.
(** [genAI.models.generateContent]. *)
Variable generateContent : GenerateRequest -> Generated.

Definition request_for (text : string) : GenerateRequest :=
  let prompt :=
    systemContext ++ nl ++ nl ++ "User said: " ++ dquote ++ text ++ dquote
    ++ nl ++ nl ++ "Your response:" in
  mkGenerate "gemini-2.0-flash-exp" prompt 9 150.

(** The route handler on what [req.json()] yields (the [text] field of
    the body, or the exception): the response and the requests made to
    the model. *)
Definition POST (req_json : Try (option string))
  : NextResponse * list GenerateRequest :=
  if negb (truthy GEMINI_API_KEY) then
    (mkResponse
       (error_json
          "AI service not configured. Please set GEMINI_API_KEY in environment variables."
          None)
       500, [])
  else
    match req_json with
    | Throws e => (on_error e, [])
    | Returns text =>
        if negb (truthy text) then
          (mkResponse (error_json "No text provided" None) 400, [])
        else
          let request := request_for (the text) in
          match generateContent request with
          | rejects e => (on_error e, [request])
          | resolves result_text =>
              let aiResponse :=
                or_else result_text "Sorry, I couldn't process that." in
              (mkResponse (reply_json aiResponse true) 200, [request])
          end
    end.

End Endpoint.

End ProcessSpeech.

(* ================================================================== *)
(** ** The overlay over a listening session, and in front of the endpoint *)

Module VoiceSession.
Import CallActive.
Local Open Scope Z_scope.

(** [toggleAIAssistant]: [recognition] tells whether [recognitionRef.current]
    is set; the listening flag after the click and what was called. *)
Inductive Call : Type :=
| alert (message : string)
| recognition_start
| recognition_stop.

Definition toggleAIAssistant (recognition : bool) (isAIListening : bool)
  : bool * list Call :=
  if negb recognition then
    (isAIListening, [alert "Speech recognition not supported in your browser"])
  else if isAIListening then (false, [recognition_stop])
  else (true, [recognition_start]).

(** A series of clicks on the assistant button: the flag after the last
    one and the calls made, oldest first. *)
Fixpoint clicks (n : nat) (recognition : bool) (isAIListening : bool)
  : bool * list Call :=
  match n with
  | O => (isAIListening, [])
  | S n' =>
      let (listening, calls) := toggleAIAssistant recognition isAIListening in
      let (final, later) := clicks n' recognition listening in
      (final, (calls ++ later)%list)
  end.

(** The recognizer calls of a series of clicks that starts in the given
    state of the flag. *)
Fixpoint alternating (n : nat) (isAIListening : bool) : list Call :=
  match n with
  | O => []
  | S n' =>
      (if isAIListening then recognition_stop else recognition_start)
        :: alternating n' (negb isAIListening)
  end.

Section Session.
Variable fetch : string -> string -> Fetched.
Variable speechSynthesis_in_window : bool.

(** The listener run on a series of result events, each with the time
    [Date.now()] reads when it arrives: the effects of each event, tagged
    with that time, and the final state. *)
Fixpoint listen (events : list (Z * list SpeechResult)) (st : State)
  : list (Z * list Effect) * State :=
  match events with
  | [] => ([], st)
  | (now, results) :: later =>
      let (st', effects) := onresult fetch speechSynthesis_in_window results now st in
      let (log, final) := listen later st' in
      ((now, effects) :: log, final)
  end.

End Session.

(** Whether an event posted to the endpoint. *)
Definition posts (effects : list Effect) : bool :=
  existsb (fun e => match e with fetch_post _ _ => true | speak _ => false end)
          effects.

(** The times of the events that posted. *)
Definition forwarded_times (log : list (Z * list Effect)) : list Z :=
  map fst (filter (fun entry => posts (snd entry)) log).

(** Successive times at least [MIN_REQUEST_INTERVAL] apart, the first one
    counted from [last]. *)
Fixpoint spaced (last : Z) (times : list Z) : Prop :=
  match times with
  | [] => True
  | t :: later => MIN_REQUEST_INTERVAL <= t - last /\ spaced t later
  end.

(** The endpoint as the overlay reaches it: the posted [{ text }] is what
    [req.json()] yields, and the response comes back with its status and
    JSON body. *)
Definition endpoint (GEMINI_API_KEY : option string)
    (generateContent : GenAI.GenerateRequest -> GenAI.Generated)
    (url text : string) : Fetched :=
  let resp :=
    fst (ProcessSpeech.POST GEMINI_API_KEY generateContent
           (JS.Returns (Some text))) in
  fetch_resolves (ProcessSpeech.status resp)
    (Some match ProcessSpeech.json resp with
          | ProcessSpeech.error_json e d => mkJson (Some e) d EmptyString
          | ProcessSpeech.reply_json r _ => mkJson None None r
          end).

End VoiceSession.

(** Occurrences of a character in a string. *)
Fixpoint occurrences (c : ascii) (s : string) : nat :=
  match s with
  | EmptyString => 0
  | String c' rest =>
      if Ascii.eqb c' c then S (occurrences c rest) else occurrences c rest
  end.

(* ================================================================== *)
(** ** Sample deliveries and stores *)

Module Sample.
Import Webhook.
Local Open Scope Z_scope.

Definition verifyWebhook (body signature : string) : bool :=
  String.eqb signature "signed".

Definition started_m1 : Payload :=
  mkPayload (Some "call.session_started") (Some "m1") "default:m1"
            EmptyString EmptyString.

Definition transcription_m1 : Payload :=
  mkPayload (Some "call.transcription_ready") None "default:m1"
            "https://x/t.jsonl" EmptyString.

Definition transcription_m2 : Payload :=
  mkPayload (Some "call.transcription_ready") None "default:m2"
            "https://x/t.jsonl" EmptyString.

(** The decoder on three bodies, named by what they carry; anything else
    is malformed. *)
Definition JSON_parse (body : string) : option Payload :=
  if String.eqb body "session_started m1" then Some started_m1
  else if String.eqb body "transcription_ready m1" then Some transcription_m1
  else if String.eqb body "transcription_ready m2" then Some transcription_m2
  else None.

Definition signed (body : string) : NextRequest :=
  mkRequest (Some "signed") (Some "key") body.

Definition m1 (s : MeetingStatus) : meetings.row :=
  meetings.mk "m1" s "a1" None None None None None.

Definition a1 : agents.row := agents.mk "a1" "Helper" "Be brief.".

Definition u1 : user.row := user.mk "u1" "Ada".

(** One meeting [m1] in the given status, its agent, one user. *)
Definition store (s : MeetingStatus) : Database :=
  mkDatabase [m1 s] [u1] [a1].

(** The same without the agent row. *)
Definition store_without_agent (s : MeetingStatus) : Database :=
  mkDatabase [m1 s] [u1] [].

Definition world (d : Database) : World := mkWorld d [] [].

(** A transcript item: speaker id and utterance. *)
Definition Item : Type := (string * string)%type.

Definition speaker_id (item : Item) : string := fst item.

Definition transcript : list Item :=
  [("u1", "hello"); ("a1", "hi, how can I help"); ("x9", "who is this")].

Definition fetch_text (url : option string) : JS.Try string :=
  match url with
  | Some _ => JS.Returns "three lines"
  | None => JS.Throws (JS.Error "TypeError" "Failed to parse URL")
  end.

Definition JSONL_parse (response : string) : JS.Try (list Item) :=
  JS.Returns transcript.

Definition JSON_stringify (items : list (Item * string)) : string :=
  String.concat "; " (map (fun it => snd it ++ ": " ++ snd (fst it)) items).

(** Three behaviours of the model: text, no text, a failed call. *)
Definition generate_text (request : GenAI.GenerateRequest) : GenAI.Generated :=
  GenAI.resolves (Some "### Overview").

Definition generate_nothing (request : GenAI.GenerateRequest) : GenAI.Generated :=
  GenAI.resolves None.

Definition generate_fails (request : GenAI.GenerateRequest) : GenAI.Generated :=
  GenAI.rejects (JS.Error "ApiError" "503 UNAVAILABLE").

Definition job_m1 : Job :=
  mkJob "meetings/processing" (mkData "m1" (Some "https://x/t.jsonl")).

(** The voice endpoint as the overlay sees it when all goes well. *)
Definition fetch (url text : string) : CallActive.Fetched :=
  CallActive.fetch_resolves 200
    (Some (CallActive.mkJson None None "Happy to help.")).

End Sample.

(* ================================================================== *)
(** ** What a delivery may touch *)

Module Frame.
Import Webhook.

(** The columns no delivery writes. *)
Definition same_identity (m m' : meetings.row) : Prop :=
  meetings.id m' = meetings.id m
  /\ meetings.agentId m' = meetings.agentId m
  /\ meetings.summary m' = meetings.summary m.

(** The only job the endpoint sends. *)
Definition job_ok (j : Job) : Prop :=
  name j = "meetings/processing" /\ transcriptUrl (data j) <> None.

(** [w'] is [w] with meeting rows rewritten in place, at most one job
    appended and at most one call ended. *)
Definition delivery_frame (w w' : World) : Prop :=
  db_user (db w') = db_user (db w)
  /\ db_agents (db w') = db_agents (db w)
  /\ Forall2 same_identity (db_meetings (db w)) (db_meetings (db w'))
  /\ (exists jobs,
        sent w' = (sent w ++ jobs)%list /\ (length jobs <= 1)%nat
        /\ Forall job_ok jobs)
  /\ (exists calls,
        ended w' = (ended w ++ calls)%list /\ (length calls <= 1)%nat
        /\ Forall (fun c => fst c = "default") calls).

End Frame.

(* ================================================================== *)
(** ** More sample deliveries *)

Module Fixtures.
Import Webhook.
Local Open Scope Z_scope.

Definition ended_m1 : Payload :=
  mkPayload (Some "call.session_ended") (Some "m1") "default:m1"
            EmptyString EmptyString.

Definition left_m1 : Payload :=
  mkPayload (Some "call.session_participant_left") None "default:m1"
            EmptyString EmptyString.

Definition left_nowhere : Payload :=
  mkPayload (Some "call.session_participant_left") None "default"
            EmptyString EmptyString.

Definition recording_m1 : Payload :=
  mkPayload (Some "call.recording_ready") None "default:m1"
            EmptyString "https://x/r.mp4".

Definition created_m1 : Payload :=
  mkPayload (Some "call.created") None "default:m1" EmptyString EmptyString.

(** The decoder of [Sample], extended with the bodies above. *)
Definition JSON_parse (body : string) : option Payload :=
  if String.eqb body "session_ended m1" then Some ended_m1
  else if String.eqb body "participant_left m1" then Some left_m1
  else if String.eqb body "participant_left" then Some left_nowhere
  else if String.eqb body "recording_ready m1" then Some recording_m1
  else if String.eqb body "created m1" then Some created_m1
  else Sample.JSON_parse body.

(** Two meetings, [m1] in the given status and [m2] completed. *)
Definition two_meetings (s : MeetingStatus) : Database :=
  mkDatabase
    [Sample.m1 s;
     meetings.mk "m2" completed "a1" None None (Some "notes") (Some 1) (Some 2)]
    [Sample.u1] [Sample.a1].

End Fixtures.

(* ================================================================== *)
(** * Properties *)

Lemma status_eqb_spec a b : reflect (a = b) (status_eqb a b).
Proof. destruct a, b; simpl; constructor; congruence. Qed.

(** ** The scenarios of the specification, run on the model *)

Module Scenarios.
Import Webhook.
Local Open Scope Z_scope.

(** [call.session_started] for the upcoming meeting [m1]: 200, and the row
    is active with its start time. *)
Example session_started_upcoming :
  POST Sample.verifyWebhook Sample.JSON_parse
    (Sample.signed "session_started m1") 7 (Sample.world (Sample.store upcoming))
  = (mkResponse status_ok 200,
     mkWorld
       (mkDatabase [meetings.mk "m1" active "a1" None None None (Some 7) None]
                   [Sample.u1] [Sample.a1])
       [] []).
Proof. reflexivity. Qed.

(** [call.transcription_ready] with [call_cid = "default:m1"]: the URL is
    stored and one job is sent. *)
Example transcription_ready_m1 :
  POST Sample.verifyWebhook Sample.JSON_parse
    (Sample.signed "transcription_ready m1") 7
    (Sample.world (Sample.store processing))
  = (mkResponse status_ok 200,
     mkWorld
       (mkDatabase
          [meetings.mk "m1" processing "a1" (Some "https://x/t.jsonl")
             None None None None]
          [Sample.u1] [Sample.a1])
       [mkJob "meetings/processing" (mkData "m1" (Some "https://x/t.jsonl"))]
       []).
Proof. reflexivity. Qed.

(** A body the decoder rejects, correctly signed. *)
Example malformed_body :
  POST Sample.verifyWebhook Sample.JSON_parse
    (Sample.signed "{") 7 (Sample.world (Sample.store upcoming))
  = (mkResponse (error_json "Invalid JSON ") 400,
     Sample.world (Sample.store upcoming)).
Proof. reflexivity. Qed.

(** The three speakers of the sample transcript: a user, an agent and an
    id neither table has. *)
Example speakers_named :
  map snd
    (Pipeline.add_speakers Sample.Item Sample.speaker_id Sample.transcript
       (Sample.store processing))
  = ["Ada"; "Helper"; "Unknown"].
Proof. reflexivity. Qed.

(** A full run of the job on the sample store. *)
Example pipeline_run :
  Pipeline.meetingsProcessing Sample.Item Sample.speaker_id Sample.fetch_text
    Sample.JSONL_parse Sample.JSON_stringify Sample.generate_text
    Sample.job_m1 (Sample.store processing)
  = (Pipeline.finished,
     mkDatabase
       [meetings.mk "m1" completed "a1" None None (Some "### Overview")
          None None]
       [Sample.u1] [Sample.a1]).
Proof. reflexivity. Qed.

(** A finalized five-word utterance one second after a forwarded request,
    and the same utterance four seconds after it. *)
Example utterance_too_soon :
  CallActive.onresult Sample.fetch true
    [CallActive.mkResult "tell me a short joke" true] 11000
    (CallActive.mkState 10000 "Happy to help.")
  = (CallActive.mkState 10000 "Please wait 2 seconds...", []).
Proof. reflexivity. Qed.

Example utterance_forwarded :
  CallActive.onresult Sample.fetch true
    [CallActive.mkResult "tell me a short joke" true] 14000
    (CallActive.mkState 10000 "Please wait 2 seconds...")
  = (CallActive.mkState 14000 "Happy to help.",
     [CallActive.fetch_post "/api/ai/process-speech" "tell me a short joke";
      CallActive.speak "Happy to help."]).
Proof. reflexivity. Qed.

(** The voice endpoint without its key, without text, and on a quota
    error of the model. *)
Example speech_unconfigured :
  ProcessSpeech.status
    (fst (ProcessSpeech.POST None Sample.generate_text
            (JS.Returns (Some "tell me a short joke")))) = 500.
Proof. reflexivity. Qed.

Example speech_no_text :
  ProcessSpeech.status
    (fst (ProcessSpeech.POST (Some "key") Sample.generate_text
            (JS.Returns None))) = 400.
Proof. reflexivity. Qed.

Example speech_quota :
  ProcessSpeech.status
    (fst (ProcessSpeech.POST (Some "key")
            (fun _ => GenAI.rejects (JS.Error "ApiError" "429 RESOURCE_EXHAUSTED"))
            (JS.Returns (Some "tell me a short joke")))) = 429.
Proof. reflexivity. Qed.

End Scenarios.

(** ** Tables *)

Module DbFacts.
Section Table.
Context {R : Type}.
Implicit Types (t : list R) (p : R -> bool) (f : R -> R).

Lemma update_none p f t :
    Db.select p t = [] -> Db.update f p t = t.
Proof.
    unfold Db.select, Db.update.
    induction t as [|r t IH]; simpl; [reflexivity|].
    destruct (p r); [discriminate|].
    intros H. now rewrite IH.
Qed.

Lemma select_none_iff p t :
    Db.select p t = [] <-> (forall r, In r t -> p r = false).
Proof.
    unfold Db.select. split.
    - intros H r Hr. destruct (p r) eqn:E; [|reflexivity].
      assert (Hin : In r (filter p t)) by (apply filter_In; auto).
      rewrite H in Hin. destruct Hin.
    - intros H. induction t as [|r t IH]; simpl; [reflexivity|].
      rewrite (H r (or_introl eq_refl)). apply IH.
      intros r' Hr'. apply H. now right.
Qed.

Lemma select_head p t r rest :
    Db.select p t = r :: rest -> In r t /\ p r = true.
Proof.
    unfold Db.select. intros H.
    apply filter_In. rewrite H. now left.
Qed.

Lemma returning_select p f t :
    Db.returning f p t = map f (Db.select p t).
Proof. reflexivity. Qed.

Lemma update_length p f t : length (Db.update f p t) = length t.
Proof. unfold Db.update. apply length_map. Qed.

Lemma In_update p f t r' :
    In r' (Db.update f p t) ->
    exists r, In r t /\ r' = (if p r then f r else r).
Proof.
    unfold Db.update. intros H. apply in_map_iff in H.
    destruct H as [r [E Hr]]. exists r. auto.
Qed.

Lemma update_Forall2 (rel : R -> R -> Prop) p f t :
    (forall r, In r t -> rel r (if p r then f r else r)) ->
    Forall2 rel t (Db.update f p t).
Proof.
    unfold Db.update. induction t as [|r t IH]; simpl; intros H.
    - constructor.
    - constructor; [apply H; now left|].
      apply IH. intros r' Hr'. apply H. now right.
Qed.
End Table.
End DbFacts.

(** ** The webhook endpoint *)

Module WebhookFacts.
Import Webhook.
Local Open Scope Z_scope.

(** Closes the case of an early error returned with the world untouched. *)
Ltac early_error := left; split; [simpl; auto 10 | reflexivity].

Lemma with_meetings_same d : with_meetings d (db_meetings d) = d.
Proof. now destruct d. Qed.

Lemma world_same w : mkWorld (db w) (sent w) (ended w) = w.
Proof. now destruct w. Qed.

(** An update that selects no row leaves the world as it was. *)
Lemma update_meetings_none set where_ w :
  Db.select where_ (db_meetings (db w)) = [] ->
  update_meetings set where_ w = (inr [], w).
Proof.
  intros H. unfold update_meetings.
  rewrite DbFacts.returning_select, H, (DbFacts.update_none _ _ _ H).
  now rewrite with_meetings_same, world_same.
Qed.

Section Endpoint.
Variable verifyWebhook : string -> string -> bool.
Variable JSON_parse : string -> option Payload.

Local Abbreviation POST := (POST verifyWebhook JSON_parse).

Lemma POST_missing_credentials req now w :
    JS.truthy (x_signature req) = false \/ JS.truthy (x_api_key req) = false ->
    POST req now w =
      (mkResponse (error_json "Missing signature or API key") 400, w).
Proof.
    intros H. unfold Webhook.POST, POST_handler.
    destruct H as [H|H]; rewrite H; simpl; [reflexivity|].
    now rewrite orb_true_r.
Qed.

Lemma POST_invalid_signature req now w :
    JS.truthy (x_signature req) = true ->
    JS.truthy (x_api_key req) = true ->
    verifyWebhook (text req) (JS.the (x_signature req)) = false ->
    POST req now w = (mkResponse (error_json "Invalid signature") 401, w).
Proof.
    intros Hs Hk Hv. unfold Webhook.POST, POST_handler, verifySignatureWithSDK.
    now rewrite Hs, Hk, Hv.
Qed.

Lemma POST_invalid_json req now w :
    authentic verifyWebhook req ->
    JSON_parse (text req) = None ->
    POST req now w = (mkResponse (error_json "Invalid JSON ") 400, w).
Proof.
    intros (Hs & Hk & Hv) Hp.
    unfold Webhook.POST, POST_handler, verifySignatureWithSDK.
    now rewrite Hs, Hk, Hv, Hp.
Qed.

Lemma POST_dispatch req payload now w :
    delivers verifyWebhook JSON_parse req payload ->
    POST req now w = respond (dispatch payload now w).
Proof.
    intros [(Hs & Hk & Hv) Hp].
    unfold Webhook.POST, POST_handler, verifySignatureWithSDK, respond.
    now rewrite Hs, Hk, Hv, Hp.
Qed.

(** Every request is rejected in front of the dispatcher or reaches it. *)
Lemma POST_cases req now w :
    POST req now w = (mkResponse (error_json "Missing signature or API key") 400, w)
    \/ POST req now w = (mkResponse (error_json "Invalid signature") 401, w)
    \/ POST req now w = (mkResponse (error_json "Invalid JSON ") 400, w)
    \/ exists payload, delivers verifyWebhook JSON_parse req payload.
Proof.
    destruct (JS.truthy (x_signature req)) eqn:Hs;
      [|left; apply POST_missing_credentials; now left].
    destruct (JS.truthy (x_api_key req)) eqn:Hk;
      [|left; apply POST_missing_credentials; now right].
    destruct (verifyWebhook (text req) (JS.the (x_signature req))) eqn:Hv;
      [|right; left; now apply POST_invalid_signature].
    destruct (JSON_parse (text req)) as [payload|] eqn:Hp.
    - right; right; right. exists payload. repeat split; assumption.
    - right; right; left. apply POST_invalid_json; [repeat split|]; assumption.
Qed.

(** *** The dispatcher, branch by branch *)

Lemma dispatch_session_started payload now :
type payload = Some "call.session_started" ->
dispatch payload now = session_started payload now.
Proof. intros H. unfold dispatch, type_is. now rewrite H. Qed.

Lemma dispatch_participant_left payload now :
type payload = Some "call.session_participant_left" ->
dispatch payload now = session_participant_left payload.
Proof. intros H. unfold dispatch, type_is. now rewrite H. Qed.

Lemma dispatch_session_ended payload now :
type payload = Some "call.session_ended" ->
dispatch payload now = session_ended payload now.
Proof. intros H. unfold dispatch, type_is. now rewrite H. Qed.

Lemma dispatch_transcription_ready payload now :
type payload = Some "call.transcription_ready" ->
dispatch payload now = transcription_ready payload.
Proof. intros H. unfold dispatch, type_is. now rewrite H. Qed.

Lemma dispatch_recording_ready payload now :
type payload = Some "call.recording_ready" ->
dispatch payload now = recording_ready payload.
Proof. intros H. unfold dispatch, type_is. now rewrite H. Qed.

Lemma dispatch_cases payload now :
dispatch payload now = session_started payload now
\/ dispatch payload now = session_participant_left payload
\/ dispatch payload now = session_ended payload now
\/ dispatch payload now = transcription_ready payload
\/ dispatch payload now = recording_ready payload
\/ dispatch payload now = pure tt.
Proof.
  unfold dispatch.
  repeat match goal with
         | |- context [if ?b then _ else _] => destruct b; [tauto|]
         end.
  tauto.
Qed.

(** *** [call.transcription_ready] *)

Lemma transcription_ready_no_row payload w :
Db.select (fun m => Db.eq_str (meetings.id m)
                      (JS.index (JS.split ":" (call_cid payload)) 1))
          (db_meetings (db w)) = [] ->
transcription_ready payload w =
  (inl (mkResponse (error_json "Meeting not found ") 400), w).
Proof.
  intros H. unfold transcription_ready, bind.
  now rewrite (update_meetings_none _ _ _ H).
Qed.

Lemma transcription_ready_row payload w m rest :
Db.select (fun m => Db.eq_str (meetings.id m)
                      (JS.index (JS.split ":" (call_cid payload)) 1))
          (db_meetings (db w)) = m :: rest ->
transcription_ready payload w =
  (inr tt,
   mkWorld
     (with_meetings (db w)
        (Db.update (set_transcriptUrl (call_transcription_url payload))
           (fun m => Db.eq_str (meetings.id m)
                       (JS.index (JS.split ":" (call_cid payload)) 1))
           (db_meetings (db w))))
     (sent w ++ [mkJob "meetings/processing"
                   (mkData (meetings.id m)
                           (Some (call_transcription_url payload)))])
     (ended w)).
Proof.
  intros H. unfold transcription_ready, bind, update_meetings.
  rewrite DbFacts.returning_select, H. reflexivity.
Qed.

(** *** [call.session_started] *)

Lemma startable_inv mid m :
startable (Some mid) m = true ->
meetings.id m = mid /\ meetings.status m = upcoming.
Proof.
  unfold startable, Db.eq_str. intros H.
  repeat (apply andb_prop in H; destruct H as [H ?]).
  apply String.eqb_eq in H. split; [assumption|].
  destruct (meetings.status m); simpl in *; congruence.
Qed.

Lemma session_started_missing_id payload now w :
JS.truthy (call_custom_meetingId payload) = false ->
session_started payload now w =
  (inl (mkResponse (error_json "Missing meetingId") 400), w).
Proof. intros Ht. unfold session_started. now rewrite Ht. Qed.

Lemma session_started_no_row payload now w :
JS.truthy (call_custom_meetingId payload) = true ->
Db.select (startable (call_custom_meetingId payload)) (db_meetings (db w)) = [] ->
session_started payload now w =
  (inl (mkResponse (error_json "Meeting not found") 404), w).
Proof.
  intros Ht H. unfold session_started, bind, select_meetings.
  cbv beta zeta. rewrite Ht. cbn [negb]. cbv beta iota. now rewrite H.
Qed.

Lemma session_started_row payload now w existingMeeting rest :
JS.truthy (call_custom_meetingId payload) = true ->
Db.select (startable (call_custom_meetingId payload)) (db_meetings (db w))
  = existingMeeting :: rest ->
session_started payload now w =
  (match Db.select
           (fun a => String.eqb (agents.id a) (meetings.agentId existingMeeting))
           (db_agents (db w)) with
   | [] => inl agent_not_found
   | _ :: _ => inr tt
   end,
   mkWorld
     (with_meetings (db w)
        (Db.update (set_active now)
           (fun m => String.eqb (meetings.id m) (meetings.id existingMeeting))
           (db_meetings (db w))))
     (sent w) (ended w)).
Proof.
  intros Ht H. unfold session_started, bind, select_meetings.
  cbv beta zeta. rewrite Ht. cbn [negb]. cbv beta iota. rewrite H.
  unfold update_meetings, select_agents, agent_not_found. cbv beta iota zeta.
  cbn [db db_agents with_meetings].
  destruct (Db.select _ (db_agents (db w))); reflexivity.
Qed.

(** Once a delivery has gone through, no row of that meeting id passes the
    guard again. *)
Lemma started_not_startable mid now t :
Db.select (startable (Some mid))
  (Db.update (set_active now) (fun m => String.eqb (meetings.id m) mid) t) = [].
Proof.
  apply DbFacts.select_none_iff. intros r' Hr'.
  apply DbFacts.In_update in Hr'. destruct Hr' as [r [_ ->]].
  destruct (String.eqb (meetings.id r) mid) eqn:E.
  - unfold startable. simpl. now rewrite !andb_false_r.
  - unfold startable, Db.eq_str. now rewrite E.
Qed.

(** *** The other three branches *)

Lemma session_participant_left_cases payload w :
session_participant_left payload w =
  (inl (mkResponse (error_json "Missing meetingId ") 400), w)
\/ exists meetingId,
     session_participant_left payload w =
       (inr tt, mkWorld (db w) (sent w) (ended w ++ [("default", meetingId)])).
Proof.
  unfold session_participant_left.
  destruct (JS.truthy _); simpl; [|now left].
  right. now eexists.
Qed.

Lemma session_ended_cases payload now w :
session_ended payload now w =
  (inl (mkResponse (error_json "Missing meetingId") 400), w)
\/ session_ended payload now w =
     (inr tt,
      mkWorld
        (with_meetings (db w)
           (Db.update (set_processing now)
              (fun m => Db.eq_str (meetings.id m) (call_custom_meetingId payload)
                        && status_eqb (meetings.status m) active)
              (db_meetings (db w))))
        (sent w) (ended w)).
Proof.
  unfold session_ended.
  destruct (JS.truthy (call_custom_meetingId payload)); simpl; [|now left].
  now right.
Qed.

Lemma recording_ready_run payload w :
recording_ready payload w =
  (inr tt,
   mkWorld
     (with_meetings (db w)
        (Db.update (set_recordingUrl (call_recording_url payload))
           (fun m => Db.eq_str (meetings.id m)
                       (JS.index (JS.split ":" (call_cid payload)) 1))
           (db_meetings (db w))))
     (sent w) (ended w)).
Proof. reflexivity. Qed.

(** *** Every branch, by its response and what it did to the world *)

Lemma dispatch_classified payload now w :
(In (fst (respond (dispatch payload now w))) early_errors
 /\ snd (respond (dispatch payload now w)) = w)
\/ (fst (respond (dispatch payload now w)) = agent_not_found
    /\ exists existingMeeting,
         In existingMeeting (db_meetings (db w))
         /\ meetings.status existingMeeting = upcoming
         /\ (forall a, In a (db_agents (db w)) ->
                       agents.id a <> meetings.agentId existingMeeting)
         /\ snd (respond (dispatch payload now w)) =
              mkWorld
                (with_meetings (db w)
                   (Db.update (set_active now)
                      (fun m => String.eqb (meetings.id m)
                                           (meetings.id existingMeeting))
                      (db_meetings (db w))))
                (sent w) (ended w))
\/ fst (respond (dispatch payload now w)) = acknowledgement.
Proof.
  destruct (dispatch_cases payload now)
    as [E|[E|[E|[E|[E|E]]]]]; rewrite E; clear E.
  - (* session_started *)
    destruct (JS.truthy (call_custom_meetingId payload)) eqn:Ht.
    + destruct (Db.select (startable (call_custom_meetingId payload))
                          (db_meetings (db w))) as [|m rest] eqn:Hsel.
      * rewrite (session_started_no_row _ _ _ Ht Hsel).
        early_error.
      * rewrite (session_started_row _ _ _ _ _ Ht Hsel).
        destruct (Db.select _ (db_agents (db w))) as [|a l] eqn:Hag.
        -- right; left. split; [reflexivity|]. exists m.
           pose proof (DbFacts.select_head _ _ _ _ Hsel) as [Hin Hs].
           destruct (call_custom_meetingId payload) as [mid|];
             [|discriminate].
           apply startable_inv in Hs. destruct Hs as [_ Hs].
           repeat split; try assumption.
           intros a Ha Heq.
           apply DbFacts.select_none_iff with (r := a) in Hag; [|assumption].
           rewrite Heq, String.eqb_refl in Hag. discriminate.
        -- right; right. reflexivity.
    + rewrite (session_started_missing_id _ _ _ Ht). early_error.
  - (* session_participant_left *)
    destruct (session_participant_left_cases payload w) as [E|[mid E]];
      rewrite E; [early_error | right; right; reflexivity].
  - (* session_ended *)
    destruct (session_ended_cases payload now w) as [E|E];
      rewrite E; [early_error | right; right; reflexivity].
  - (* transcription_ready *)
    destruct (Db.select (fun m => Db.eq_str (meetings.id m)
                          (JS.index (JS.split ":" (call_cid payload)) 1))
                        (db_meetings (db w))) as [|m rest] eqn:Hsel.
    + rewrite (transcription_ready_no_row _ _ Hsel). early_error.
    + rewrite (transcription_ready_row _ _ _ _ Hsel). right; right. reflexivity.
  - (* recording_ready *)
    right; right. reflexivity.
  - right; right. reflexivity.
Qed.

End Endpoint.
End WebhookFacts.

(** ** Claims on the webhook endpoint *)

Module WebhookSpec.
Import Webhook WebhookFacts.
Local Open Scope Z_scope.

(** C6. A delivery whose signature or API-key header is absent is answered
    400, one whose signature fails verification is answered 401; either
    way the world is returned as it was (no row changed, no job sent, no
    call ended), and the answer is the same whatever the decoder would
    have made of the body: the handler returns in front of it. *)
Theorem unauthenticated_delivery_short_circuits
  (verifyWebhook : string -> string -> bool)
  (JSON_parse JSON_parse' : string -> option Payload)
  (req : NextRequest) (now : Z) (w : World) :
  (x_signature req = None \/ x_api_key req = None ->
     POST verifyWebhook JSON_parse req now w =
       (mkResponse (error_json "Missing signature or API key") 400, w))
  /\ (forall signature,
        x_signature req = Some signature -> signature <> EmptyString ->
        JS.truthy (x_api_key req) = true ->
        verifyWebhook (text req) signature = false ->
        POST verifyWebhook JSON_parse req now w =
          (mkResponse (error_json "Invalid signature") 401, w))
  /\ (~ authentic verifyWebhook req ->
        POST verifyWebhook JSON_parse' req now w =
        POST verifyWebhook JSON_parse req now w).
Proof.
  split; [|split].
  - intros [H|H]; apply POST_missing_credentials; rewrite H; auto.
  - intros signature Hs Hne Hk Hv.
    assert (Ht : JS.truthy (x_signature req) = true).
    { rewrite Hs. simpl. apply negb_true_iff. now apply String.eqb_neq. }
    apply POST_invalid_signature; try assumption.
    rewrite Hs. assumption.
  - intros Hna.
    destruct (JS.truthy (x_signature req)) eqn:Hs;
      [|rewrite !POST_missing_credentials; auto].
    destruct (JS.truthy (x_api_key req)) eqn:Hk;
      [|rewrite !POST_missing_credentials; auto].
    destruct (verifyWebhook (text req) (JS.the (x_signature req)))
      eqn:Hv; [exfalso; apply Hna; repeat split; assumption|].
    rewrite !POST_invalid_signature; auto.
Qed.

(** The two rejections on the sample store: a delivery without signature
    header and one with a forged signature. *)
Lemma unauthenticated_delivery_witness :
  (x_signature (mkRequest None (Some "key") "session_started m1") = None
   /\ POST Sample.verifyWebhook Sample.JSON_parse
        (mkRequest None (Some "key") "session_started m1") 7
        (Sample.world (Sample.store upcoming))
      = (mkResponse (error_json "Missing signature or API key") 400,
         Sample.world (Sample.store upcoming)))
  /\ (Sample.verifyWebhook "session_started m1" "forged" = false
      /\ POST Sample.verifyWebhook Sample.JSON_parse
           (mkRequest (Some "forged") (Some "key") "session_started m1") 7
           (Sample.world (Sample.store upcoming))
         = (mkResponse (error_json "Invalid signature") 401,
            Sample.world (Sample.store upcoming))).
Proof.
  split; split; [reflexivity | | reflexivity | ].
  - apply (proj1 (unauthenticated_delivery_short_circuits
                    Sample.verifyWebhook Sample.JSON_parse Sample.JSON_parse
                    (mkRequest None (Some "key") "session_started m1") 7
                    (Sample.world (Sample.store upcoming)))).
    left. reflexivity.
  - apply (proj1 (proj2 (unauthenticated_delivery_short_circuits
                    Sample.verifyWebhook Sample.JSON_parse Sample.JSON_parse
                    (mkRequest (Some "forged") (Some "key") "session_started m1") 7
                    (Sample.world (Sample.store upcoming)))) "forged");
      [reflexivity | discriminate | reflexivity | reflexivity].
Defined.

(** C1. A [call.transcription_ready] delivery whose meeting id (the part
    of [call_cid] after the colon) is the id of a row stores the
    transcript URL on the rows of that id and appends exactly one job,
    named "meetings/processing", carrying that id and the stored URL; a
    delivery whose meeting id is the id of no row sends no job (and
    leaves the world as it was). *)
Theorem transcription_ready_enqueues_one_job
  (verifyWebhook : string -> string -> bool)
  (JSON_parse : string -> option Payload)
  (req : NextRequest) (payload : Payload) (now : Z) (w : World) :
  delivers verifyWebhook JSON_parse req payload ->
  type payload = Some "call.transcription_ready" ->
  let meetingId := JS.index (JS.split ":" (call_cid payload)) 1 in
  let url := call_transcription_url payload in
  let w' := snd (POST verifyWebhook JSON_parse req now w) in
  (forall id,
      meetingId = Some id ->
      (exists m, In m (db_meetings (db w)) /\ meetings.id m = id) ->
      sent w' = (sent w ++ [mkJob "meetings/processing" (mkData id (Some url))])%list
      /\ db_meetings (db w') =
           Db.update (set_transcriptUrl url)
             (fun m => String.eqb (meetings.id m) id) (db_meetings (db w))
      /\ (forall m', In m' (db_meetings (db w')) -> meetings.id m' = id ->
                     meetings.transcriptUrl m' = Some url)
      /\ (exists m', In m' (db_meetings (db w')) /\ meetings.id m' = id))
  /\ ((forall m, In m (db_meetings (db w)) -> Some (meetings.id m) <> meetingId) ->
      sent w' = sent w /\ w' = w).
Proof.
  intros Hd Ht meetingId url w'.
  assert (Hrun : w' = snd (respond (transcription_ready payload w))).
  { unfold w'. rewrite (POST_dispatch _ _ _ _ _ _ Hd).
    now rewrite (dispatch_transcription_ready _ _ Ht). }
  split.
  - intros id Hid [m [Hin Hm]].
    destruct (Db.select (fun m => Db.eq_str (meetings.id m) meetingId)
                        (db_meetings (db w))) as [|r rest] eqn:Hsel.
    { exfalso. apply DbFacts.select_none_iff with (r := m) in Hsel; [|assumption].
      rewrite Hid in Hsel. simpl in Hsel. rewrite Hm, String.eqb_refl in Hsel.
      discriminate. }
    pose proof (DbFacts.select_head _ _ _ _ Hsel) as [_ Hr].
    rewrite Hid in Hr. simpl in Hr. apply String.eqb_eq in Hr.
    rewrite (transcription_ready_row _ _ _ _ Hsel) in Hrun.
    unfold respond in Hrun. cbn [snd] in Hrun.
    rewrite Hrun. cbn [sent db db_meetings with_meetings].
    fold meetingId url. rewrite Hr, Hid.
    split; [reflexivity|]. split; [reflexivity|]. split.
    + intros m' Hm' Hidm'.
      apply DbFacts.In_update in Hm'. destruct Hm' as [r0 [_ ->]].
      simpl. simpl in Hidm'.
      destruct (String.eqb (meetings.id r0) id) eqn:E; [reflexivity|].
      apply String.eqb_neq in E. contradiction.
    + exists (set_transcriptUrl url m). split; [|assumption].
      unfold Db.update. apply in_map_iff. exists m. split; [|assumption].
      simpl. now rewrite Hm, String.eqb_refl.
  - intros Hnone.
    assert (Hsel : Db.select (fun m => Db.eq_str (meetings.id m) meetingId)
                             (db_meetings (db w)) = []).
    { apply DbFacts.select_none_iff. intros r Hr. specialize (Hnone r Hr).
      unfold Db.eq_str. destruct meetingId as [id|]; [|reflexivity].
      apply String.eqb_neq. congruence. }
    rewrite (transcription_ready_no_row _ _ Hsel) in Hrun. simpl in Hrun.
    now rewrite Hrun.
Qed.

(** The sample delivery for [m1]: one job with its id and the stored URL. *)
Lemma transcription_ready_witness :
  (delivers Sample.verifyWebhook Sample.JSON_parse
     (Sample.signed "transcription_ready m1") Sample.transcription_m1
   /\ type Sample.transcription_m1 = Some "call.transcription_ready"
   /\ JS.index (JS.split ":" (call_cid Sample.transcription_m1)) 1 = Some "m1"
   /\ (exists m, In m (db_meetings (Sample.store processing))
                 /\ meetings.id m = "m1"))
  /\ sent (snd (POST Sample.verifyWebhook Sample.JSON_parse
                  (Sample.signed "transcription_ready m1") 7
                  (Sample.world (Sample.store processing))))
     = [mkJob "meetings/processing" (mkData "m1" (Some "https://x/t.jsonl"))].
Proof.
  assert (Hd : delivers Sample.verifyWebhook Sample.JSON_parse
                 (Sample.signed "transcription_ready m1") Sample.transcription_m1)
    by (repeat split; reflexivity).
  assert (Hm : exists m, In m (db_meetings (Sample.store processing))
                         /\ meetings.id m = "m1")
    by (exists (Sample.m1 processing); split; [left|]; reflexivity).
  split; [repeat split; try reflexivity; exact Hm|].
  exact (proj1 (proj1 (transcription_ready_enqueues_one_job
                  Sample.verifyWebhook Sample.JSON_parse
                  (Sample.signed "transcription_ready m1")
                  Sample.transcription_m1 7
                  (Sample.world (Sample.store processing))
                  Hd eq_refl) "m1" eq_refl Hm)).
Defined.

(** C3. A [call.session_started] delivery changes the store only when a
    row of the meeting id exists whose status is none of completed,
    active, cancelled, processing, and then sets the rows of that id to
    active; a second delivery for the same id right after the first is
    answered 404 "Meeting not found" by the guard and changes nothing, so
    the status is set to active at most once. *)
Theorem session_started_twice
  (verifyWebhook : string -> string -> bool)
  (JSON_parse : string -> option Payload)
  (req1 req2 : NextRequest) (p1 p2 : Payload) (id : string)
  (t1 t2 : Z) (w : World) :
  delivers verifyWebhook JSON_parse req1 p1 ->
  delivers verifyWebhook JSON_parse req2 p2 ->
  type p1 = Some "call.session_started" ->
  type p2 = Some "call.session_started" ->
  call_custom_meetingId p1 = Some id ->
  call_custom_meetingId p2 = Some id ->
  id <> EmptyString ->
  let guard m :=
    In m (db_meetings (db w)) /\ meetings.id m = id /\
    ~ In (meetings.status m) [completed; active; cancelled; processing] in
  let w1 := snd (POST verifyWebhook JSON_parse req1 t1 w) in
  (w1 <> w -> exists m, guard m)
  /\ ((exists m, guard m) ->
        db_meetings (db w1) =
          Db.update (set_active t1) (fun m => String.eqb (meetings.id m) id)
            (db_meetings (db w)))
  /\ POST verifyWebhook JSON_parse req2 t2 w1 =
       (mkResponse (error_json "Meeting not found") 404, w1).
Proof.
  intros Hd1 Hd2 Ht1 Ht2 Hid1 Hid2 Hne guard w1.
  assert (Htruthy : JS.truthy (Some id) = true).
  { simpl. apply negb_true_iff. now apply String.eqb_neq. }
  assert (Hrun1 : w1 = snd (respond (session_started p1 t1 w))).
  { unfold w1. rewrite (POST_dispatch _ _ _ _ _ _ Hd1).
    now rewrite (dispatch_session_started _ _ Ht1). }
  assert (Hguard : forall m, guard m <->
            In m (db_meetings (db w)) /\ startable (Some id) m = true).
  { intros m. unfold guard. split.
    - intros (Hin & Hm & Hs). split; [assumption|].
      unfold startable, Db.eq_str. rewrite Hm, String.eqb_refl.
      destruct (meetings.status m); simpl in *; tauto.
    - intros [Hin Hs]. apply startable_inv in Hs. destruct Hs as [Hm Hs].
      repeat split; try assumption. rewrite Hs. simpl. intuition discriminate. }
  destruct (Db.select (startable (Some id)) (db_meetings (db w)))
    as [|existingMeeting rest] eqn:Hsel.
  - (* the guard rejects the first delivery *)
    assert (Hw1 : w1 = w).
    { rewrite Hrun1, session_started_no_row; rewrite ?Hid1; auto. }
    split; [intros Hch; contradiction|]. split.
    + intros [m Hm]. apply Hguard in Hm. destruct Hm as [Hin Hs].
      apply DbFacts.select_none_iff with (r := m) in Hsel; [|assumption].
      congruence.
    + rewrite Hw1, (POST_dispatch _ _ _ _ _ _ Hd2),
        (dispatch_session_started _ _ Ht2), session_started_no_row;
        rewrite ?Hid2; auto.
  - (* the first delivery goes through *)
    pose proof (DbFacts.select_head _ _ _ _ Hsel) as [Hin Hs].
    pose proof (startable_inv _ _ Hs) as [Hm _].
    assert (Hmeet : db_meetings (db w1) =
              Db.update (set_active t1) (fun m => String.eqb (meetings.id m) id)
                (db_meetings (db w))).
    { rewrite Hrun1, (session_started_row p1 t1 w existingMeeting rest);
        rewrite ?Hid1; auto.
      unfold respond.
      destruct (Db.select _ (db_agents (db w))); cbn [snd db db_meetings with_meetings];
        now rewrite Hm. }
    split; [intros _; exists existingMeeting; apply Hguard; auto|].
    split; [intros _; exact Hmeet|].
    rewrite (POST_dispatch _ _ _ _ _ _ Hd2), (dispatch_session_started _ _ Ht2).
    rewrite session_started_no_row; rewrite ?Hid2; auto.
    rewrite Hmeet. apply started_not_startable.
Qed.

(** The same start event delivered twice for the upcoming meeting [m1]. *)
Lemma session_started_twice_witness :
  (delivers Sample.verifyWebhook Sample.JSON_parse
     (Sample.signed "session_started m1") Sample.started_m1
   /\ type Sample.started_m1 = Some "call.session_started"
   /\ call_custom_meetingId Sample.started_m1 = Some "m1"
   /\ "m1" <> EmptyString)
  /\ POST Sample.verifyWebhook Sample.JSON_parse
       (Sample.signed "session_started m1") 9
       (snd (POST Sample.verifyWebhook Sample.JSON_parse
               (Sample.signed "session_started m1") 7
               (Sample.world (Sample.store upcoming))))
     = (mkResponse (error_json "Meeting not found") 404,
        snd (POST Sample.verifyWebhook Sample.JSON_parse
               (Sample.signed "session_started m1") 7
               (Sample.world (Sample.store upcoming)))).
Proof.
  assert (Hd : delivers Sample.verifyWebhook Sample.JSON_parse
                 (Sample.signed "session_started m1") Sample.started_m1)
    by (repeat split; reflexivity).
  assert (Hne : "m1" <> EmptyString) by discriminate.
  split; [repeat split; try reflexivity; exact Hne|].
  exact (proj2 (proj2 (session_started_twice
                  Sample.verifyWebhook Sample.JSON_parse
                  (Sample.signed "session_started m1")
                  (Sample.signed "session_started m1")
                  Sample.started_m1 Sample.started_m1 "m1" 7 9
                  (Sample.world (Sample.store upcoming))
                  Hd Hd eq_refl eq_refl eq_refl eq_refl Hne))).
Defined.

(** C8, at the failing input: a [call.transcription_ready] delivery for
    the id [m2], which no row has, is answered 400 "Meeting not found "
    where [call.session_started] answers 404 for a missing meeting. *)
Lemma transcription_ready_unknown_meeting_400 :
  POST Sample.verifyWebhook Sample.JSON_parse
    (Sample.signed "transcription_ready m2") 7
    (Sample.world (Sample.store processing))
  = (mkResponse (error_json "Meeting not found ") 400,
     Sample.world (Sample.store processing))
  /\ POST Sample.verifyWebhook Sample.JSON_parse
       (Sample.signed "session_started m1") 7
       (Sample.world (Sample.store processing))
     = (mkResponse (error_json "Meeting not found") 404,
        Sample.world (Sample.store processing)).
Proof. split; reflexivity. Qed.

End WebhookSpec.

(** ** The transcript pipeline *)

Module PipelineFacts.
Import JS GenAI Pipeline.

Lemma or_else_nonempty v d : d <> EmptyString -> or_else v d <> EmptyString.
Proof.
  intros Hd. unfold or_else, truthy.
  destruct v as [s|]; [|assumption].
  destruct (String.eqb s EmptyString) eqn:E; simpl; [assumption|].
  now apply String.eqb_neq.
Qed.

Lemma or_else_cases v d :
  (exists s, v = Some s /\ s <> EmptyString /\ or_else v d = s)
  \/ ((v = None \/ v = Some EmptyString) /\ or_else v d = d).
Proof.
  unfold or_else, truthy. destruct v as [s|]; [|right; auto].
  destruct (String.eqb s EmptyString) eqn:E; simpl.
  - apply String.eqb_eq in E. subst. right; auto.
  - apply String.eqb_neq in E. left. exists s. auto.
Qed.

Lemma In_new_Set x xs : In x (new_Set xs) <-> In x xs.
Proof.
  induction xs as [|y xs IH]; simpl; [tauto|].
  rewrite filter_In, IH. split.
  - intros [H|[H _]]; auto.
  - intros [H|H]; [now left|].
    destruct (String.eqb x y) eqn:E.
    + apply String.eqb_eq in E. now left.
    + right. split; [assumption|reflexivity].
Qed.

Lemma inArray_In col values : inArray col values = true <-> In col values.
Proof.
  unfold inArray. rewrite existsb_exists. split.
  - intros [x [Hx E]]. apply String.eqb_eq in E. now subst.
  - intros H. exists col. split; [assumption|apply String.eqb_refl].
Qed.

Section Find.
Context {A B : Type}.

Lemma find_append (p : A -> bool) (l1 l2 : list A) :
  find p (l1 ++ l2) =
  match find p l1 with
  | Some a => Some a
  | None => find p l2
  end.
Proof.
  induction l1 as [|a l1 IH]; simpl; [reflexivity|].
  now destruct (p a).
Qed.

Lemma find_map (f : A -> B) (p : B -> bool) (l : list A) :
  find p (map f l) = option_map f (find (fun a => p (f a)) l).
Proof.
  induction l as [|a l IH]; simpl; [reflexivity|].
  now destruct (p (f a)).
Qed.

Lemma find_filter (p q : A -> bool) (l : list A) :
  (forall a, p a = true -> q a = true) ->
  find p (filter q l) = find p l.
Proof.
  intros Hpq. induction l as [|a l IH]; simpl; [reflexivity|].
  destruct (q a) eqn:Hq; simpl.
  - now rewrite IH.
  - destruct (p a) eqn:Hp; [|assumption].
    apply Hpq in Hp. congruence.
Qed.

Lemma find_none_iff (p : A -> bool) (l : list A) :
  find p l = None <-> forall a, In a l -> p a = false.
Proof.
  split; [apply find_none|].
  induction l as [|a l IH]; simpl; [reflexivity|].
  intros H. rewrite (H a (or_introl eq_refl)). apply IH.
  intros a' Ha'. apply H. now right.
Qed.
End Find.

Section Job.
Variable StreamTranscriptItem : Type.
Variable speaker_id : StreamTranscriptItem -> string.

Local Abbreviation annotate := (annotate StreamTranscriptItem speaker_id).
Local Abbreviation with_speakers := (with_speakers StreamTranscriptItem speaker_id).
Local Abbreviation add_speakers := (add_speakers StreamTranscriptItem speaker_id).

(** The name an item gets, read off the two lookup results: users first. *)
Lemma annotate_users_then_agents userSpeakers agentSpeakers item :
  annotate (map of_user userSpeakers ++ map of_agent agentSpeakers) item =
  (item,
   match find (fun u => String.eqb (user.id u) (speaker_id item)) userSpeakers with
   | Some u => user.name u
   | None =>
       match find (fun a => String.eqb (agents.id a) (speaker_id item))
                  agentSpeakers with
       | Some a => agents.name a
       | None => "Unknown"
       end
   end).
Proof.
  unfold Pipeline.annotate. rewrite find_append, !find_map. simpl.
  destruct (find _ userSpeakers); simpl; [reflexivity|].
  destruct (find _ agentSpeakers); reflexivity.
Qed.

(** The [inArray] filters of the two lookups keep every row an item of
    the transcript can match. *)
Lemma add_speakers_all_rows transcript d :
  add_speakers transcript d =
  with_speakers transcript (db_user d) (db_agents d).
Proof.
  unfold Pipeline.add_speakers, Pipeline.with_speakers.
  apply map_ext_in. intros item Hitem.
  rewrite !annotate_users_then_agents. unfold Db.select.
  assert (Hin : In (speaker_id item) (new_Set (map speaker_id transcript))).
  { apply In_new_Set, in_map, Hitem. }
  rewrite !find_filter; [reflexivity| |].
  - intros a Ha. apply String.eqb_eq in Ha. apply inArray_In. now rewrite Ha.
  - intros u Hu. apply String.eqb_eq in Hu. apply inArray_In. now rewrite Hu.
Qed.

End Job.
End PipelineFacts.

(** ** Claims on the pipeline *)

Module PipelineSpec.
Import JS GenAI Pipeline PipelineFacts.

(** C7. Whatever the transcript and whatever the two lookups return, step
    "add-speakers" yields one annotated item per transcript item, in
    order, each the item itself with a name: the name of the first user
    with the item's [speaker_id], else of the first agent with it, else
    the literal "Unknown" (exactly when neither lookup has that id).  The
    step is a total function of its inputs, and on the tables of a
    database it names the items as the unfiltered tables would. *)
Theorem every_item_annotated
  (StreamTranscriptItem : Type) (speaker_id : StreamTranscriptItem -> string)
  (transcript : list StreamTranscriptItem)
  (userSpeakers : list user.row) (agentSpeakers : list agents.row) :
  let annotated :=
    with_speakers StreamTranscriptItem speaker_id
      transcript userSpeakers agentSpeakers in
  length annotated = length transcript
  /\ Forall2
       (fun item out =>
          fst out = item
          /\ snd out =
               match find (fun u => String.eqb (user.id u) (speaker_id item))
                          userSpeakers with
               | Some u => user.name u
               | None =>
                   match find (fun a => String.eqb (agents.id a) (speaker_id item))
                              agentSpeakers with
                   | Some a => agents.name a
                   | None => "Unknown"
                   end
               end
          /\ ((exists u, In u userSpeakers /\ user.id u = speaker_id item
                         /\ snd out = user.name u)
              \/ (exists a, In a agentSpeakers /\ agents.id a = speaker_id item
                            /\ snd out = agents.name a)
              \/ ((forall u, In u userSpeakers -> user.id u <> speaker_id item)
                  /\ (forall a, In a agentSpeakers -> agents.id a <> speaker_id item)
                  /\ snd out = "Unknown")))
       transcript annotated
  /\ (forall d,
        add_speakers StreamTranscriptItem speaker_id transcript d =
        with_speakers StreamTranscriptItem speaker_id
          transcript (db_user d) (db_agents d)).
Proof.
  intros annotated. unfold annotated, with_speakers.
  split; [apply length_map|]. split; [|intros d; apply add_speakers_all_rows].
  induction transcript as [|item rest IH]; simpl; constructor; [|exact IH].
  rewrite annotate_users_then_agents. simpl.
  split; [reflexivity|]. split; [reflexivity|].
  destruct (find _ userSpeakers) as [u|] eqn:Hu.
  - apply find_some in Hu. destruct Hu as [Hin E]. apply String.eqb_eq in E.
    left. exists u. auto.
  - destruct (find _ agentSpeakers) as [a|] eqn:Ha.
    + apply find_some in Ha. destruct Ha as [Hin E]. apply String.eqb_eq in E.
      right; left. exists a. auto.
    + right; right. split; [|split; [|reflexivity]].
      * intros u Hin. apply String.eqb_neq.
        exact (proj1 (find_none_iff _ _) Hu u Hin).
      * intros a Hin. apply String.eqb_neq.
        exact (proj1 (find_none_iff _ _) Ha a Hin).
Qed.

Section Job.
Variable StreamTranscriptItem : Type.
Variable speaker_id : StreamTranscriptItem -> string.
Variable fetch_text : option string -> Try string.
Variable JSONL_parse : string -> Try (list StreamTranscriptItem).
Variable JSON_stringify : list (StreamTranscriptItem * string) -> string.
Variable generateContent : GenerateRequest -> Generated.

Local Abbreviation meetingsProcessing :=
  (meetingsProcessing StreamTranscriptItem speaker_id fetch_text JSONL_parse
     JSON_stringify generateContent).

(** C4, as the code has it.  A run that finishes has fetched and parsed
    the transcript and had the model call resolve; the summary it stores
    is the model's text when that is a non-empty string and the literal
    "Summary generation failed" when the text is missing or empty, so it
    is never empty; the rows of the event's meeting then hold that summary
    with status completed.  A run in which any step throws, the model call
    included, returns the database as it was: no summary written, no
    status changed. *)
Theorem summary_persisted_only_after_generation (event : Job) (d : Database) :
  (forall response transcript e,
      fetch_text (transcriptUrl (data event)) = Returns response ->
      JSONL_parse response = Returns transcript ->
      generateContent
        (mkGenerate "gemini-2.0-flash-exp"
           (systemPrompt ++ nl ++ nl ++ "Transcript to summarize:" ++ nl ++
            JSON_stringify
              (add_speakers StreamTranscriptItem speaker_id transcript d))
           7 2048) = rejects e ->
      meetingsProcessing event d =
        (step_failed "generate-summary"
           (Error "Error" "Failed to generate summary with Gemini"), d))
  /\
  match meetingsProcessing event d with
  | (finished, d') =>
      exists response transcript text,
        fetch_text (transcriptUrl (data event)) = Returns response
        /\ JSONL_parse response = Returns transcript
        /\ generateContent
             (mkGenerate "gemini-2.0-flash-exp"
                (systemPrompt ++ nl ++ nl ++ "Transcript to summarize:" ++ nl ++
                 JSON_stringify
                   (add_speakers StreamTranscriptItem speaker_id transcript d))
                7 2048) = resolves text
        /\ or_else text "Summary generation failed" <> EmptyString
        /\ ((exists s, text = Some s /\ s <> EmptyString
                       /\ or_else text "Summary generation failed" = s)
            \/ ((text = None \/ text = Some EmptyString)
                /\ or_else text "Summary generation failed"
                   = "Summary generation failed"))
        /\ d' = save_summary event (or_else text "Summary generation failed") d
        /\ (forall m', In m' (db_meetings d') ->
                       meetings.id m' = meetingId (data event) ->
                       meetings.summary m'
                         = Some (or_else text "Summary generation failed")
                       /\ meetings.status m' = completed)
  | (step_failed step e, d') => d' = d
  end.
Proof.
  split.
  { intros response transcript e Hfetch Hparse Hgen.
    unfold Pipeline.meetingsProcessing, summarizeWithGemini.
    now rewrite Hfetch, Hparse, Hgen. }
  unfold Pipeline.meetingsProcessing.
  destruct (fetch_text _) as [response|e] eqn:Hfetch; [|reflexivity].
  destruct (JSONL_parse response) as [transcript|e] eqn:Hparse; [|reflexivity].
  unfold summarizeWithGemini.
  destruct (generateContent _) as [e|text] eqn:Hgen; [reflexivity|].
  exists response, transcript, text.
  split; [reflexivity|]. split; [assumption|]. split; [assumption|].
  split; [apply or_else_nonempty; discriminate|].
  split; [apply or_else_cases|]. split; [reflexivity|].
  intros m' H Hid. split.
  - unfold save_summary in H. simpl in H.
    apply DbFacts.In_update in H. destruct H as [r [_ ->]].
    destruct (String.eqb (meetings.id r) (meetingId (data event))) eqn:E;
      [reflexivity|].
    apply String.eqb_neq in E. contradiction.
  - unfold save_summary in H. simpl in H.
    apply DbFacts.In_update in H. destruct H as [r [_ ->]].
    destruct (String.eqb (meetings.id r) (meetingId (data event))) eqn:E;
      [reflexivity|].
    apply String.eqb_neq in E. contradiction.
Qed.

End Job.

(** A run whose model call fails: the store is returned as it was. *)
Lemma failed_generation_witness :
  (Sample.fetch_text (transcriptUrl (data Sample.job_m1)) = Returns "three lines"
   /\ Sample.JSONL_parse "three lines" = Returns Sample.transcript
   /\ Sample.generate_fails
        (mkGenerate "gemini-2.0-flash-exp"
           (systemPrompt ++ nl ++ nl ++ "Transcript to summarize:" ++ nl ++
            Sample.JSON_stringify
              (add_speakers Sample.Item Sample.speaker_id Sample.transcript
                 (Sample.store processing)))
           7 2048) = rejects (Error "ApiError" "503 UNAVAILABLE"))
  /\ meetingsProcessing Sample.Item Sample.speaker_id Sample.fetch_text
       Sample.JSONL_parse Sample.JSON_stringify Sample.generate_fails
       Sample.job_m1 (Sample.store processing)
     = (step_failed "generate-summary"
          (Error "Error" "Failed to generate summary with Gemini"),
        Sample.store processing).
Proof.
  split; [repeat split|].
  exact (proj1 (summary_persisted_only_after_generation
                  Sample.Item Sample.speaker_id Sample.fetch_text
                  Sample.JSONL_parse Sample.JSON_stringify Sample.generate_fails
                  Sample.job_m1 (Sample.store processing))
           "three lines" Sample.transcript (Error "ApiError" "503 UNAVAILABLE")
           eq_refl eq_refl eq_refl).
Defined.

(** C4, against the claim as stated: when the model call resolves without
    text, no summary has been generated, yet the run finishes, marks the
    meeting completed and stores the placeholder "Summary generation
    failed" as its summary. *)
Lemma placeholder_summary_persisted :
  Sample.generate_nothing
    (mkGenerate "gemini-2.0-flash-exp"
       (systemPrompt ++ nl ++ nl ++ "Transcript to summarize:" ++ nl ++
        Sample.JSON_stringify
          (add_speakers Sample.Item Sample.speaker_id Sample.transcript
             (Sample.store processing)))
       7 2048) = resolves None
  /\ meetingsProcessing Sample.Item Sample.speaker_id Sample.fetch_text
       Sample.JSONL_parse Sample.JSON_stringify Sample.generate_nothing
       Sample.job_m1 (Sample.store processing)
     = (finished,
        mkDatabase
          [meetings.mk "m1" completed "a1" None None
             (Some "Summary generation failed") None None]
          [Sample.u1] [Sample.a1]).
Proof. split; reflexivity. Qed.

End PipelineSpec.

(** ** The status path *)

Module LifecycleFacts.
Import Webhook WebhookFacts.

Lemma forward_refl s : forward s s = true.
Proof. now destruct s. Qed.

(** A terminal status has no later one on the path. *)
Lemma forward_terminal s s' :
  forward s s' = true -> s = completed \/ s = cancelled -> s' = s.
Proof. destruct s, s'; cbv; intros H [E|E]; congruence. Qed.

Lemma lifecycle_step_same t : Forall2 lifecycle_step t t.
Proof.
  induction t; constructor; [|assumption].
  split; [reflexivity|apply forward_refl].
Qed.

Lemma unique_id (t : list meetings.row) a b :
  NoDup (map meetings.id t) -> In a t -> In b t ->
  meetings.id a = meetings.id b -> a = b.
Proof.
  induction t as [|r t IH]; simpl; [tauto|].
  intros Hnd Ha Hb E. inversion Hnd as [|? ? Hnotin Hnd']; subst.
  destruct Ha as [->|Ha], Hb as [->|Hb]; auto.
  - exfalso. apply Hnotin. rewrite E. now apply in_map.
  - exfalso. apply Hnotin. rewrite <- E. now apply in_map.
Qed.

(** The four updates of the handlers, row by row. *)
Lemma update_lifecycle set where_ (t : list meetings.row) :
  (forall r, In r t -> where_ r = true ->
             meetings.id (set r) = meetings.id r
             /\ forward (meetings.status r) (meetings.status (set r)) = true) ->
  Forall2 lifecycle_step t (Db.update set where_ t).
Proof.
  intros H. apply DbFacts.update_Forall2. intros r Hr.
  destruct (where_ r) eqn:E.
  - apply H; assumption.
  - split; [reflexivity|apply forward_refl].
Qed.

Lemma dispatch_lifecycle payload now w :
  NoDup (map meetings.id (db_meetings (db w))) ->
  Forall2 lifecycle_step (db_meetings (db w))
    (db_meetings (db (snd (respond (dispatch payload now w))))).
Proof.
  intros Hnd.
  destruct (dispatch_cases payload now)
    as [E|[E|[E|[E|[E|E]]]]]; rewrite E; clear E.
  - (* session_started: the started row is the one the guard found *)
    destruct (JS.truthy (call_custom_meetingId payload)) eqn:Ht;
      [|rewrite (session_started_missing_id _ _ _ Ht); apply lifecycle_step_same].
    destruct (Db.select (startable (call_custom_meetingId payload))
                        (db_meetings (db w))) as [|m rest] eqn:Hsel;
      [rewrite (session_started_no_row _ _ _ Ht Hsel); apply lifecycle_step_same|].
    rewrite (session_started_row _ _ _ _ _ Ht Hsel).
    pose proof (DbFacts.select_head _ _ _ _ Hsel) as [Hin Hs].
    destruct (call_custom_meetingId payload) as [mid|]; [|discriminate].
    apply startable_inv in Hs. destruct Hs as [_ Hs].
    assert (Hgoal : Forall2 lifecycle_step (db_meetings (db w))
              (Db.update (set_active now)
                 (fun r => String.eqb (meetings.id r) (meetings.id m))
                 (db_meetings (db w)))).
    { apply update_lifecycle. intros r Hr Hw. apply String.eqb_eq in Hw.
      rewrite (unique_id _ _ _ Hnd Hr Hin Hw), Hs. split; reflexivity. }
    destruct (Db.select _ (db_agents (db w))); exact Hgoal.
  - destruct (session_participant_left_cases payload w) as [E|[mid E]];
      rewrite E; apply lifecycle_step_same.
  - destruct (session_ended_cases payload now w) as [E|E]; rewrite E;
      [apply lifecycle_step_same|].
    apply update_lifecycle. intros r _ Hw.
    apply andb_prop in Hw. destruct Hw as [_ Hw].
    destruct (status_eqb_spec (meetings.status r) active) as [->|];
      [|discriminate].
    split; reflexivity.
  - destruct (Db.select (fun m => Db.eq_str (meetings.id m)
                          (JS.index (JS.split ":" (call_cid payload)) 1))
                        (db_meetings (db w))) as [|m rest] eqn:Hsel.
    + rewrite (transcription_ready_no_row _ _ Hsel). apply lifecycle_step_same.
    + rewrite (transcription_ready_row _ _ _ _ Hsel).
      apply update_lifecycle. intros r _ _.
      split; [reflexivity|apply forward_refl].
  - rewrite recording_ready_run.
    apply update_lifecycle. intros r _ _.
    split; [reflexivity|apply forward_refl].
  - apply lifecycle_step_same.
Qed.

Lemma POST_lifecycle verifyWebhook JSON_parse req now w :
  NoDup (map meetings.id (db_meetings (db w))) ->
  Forall2 lifecycle_step (db_meetings (db w))
    (db_meetings (db (snd (POST verifyWebhook JSON_parse req now w)))).
Proof.
  intros Hnd.
  destruct (POST_cases verifyWebhook JSON_parse req now w)
    as [E|[E|[E|[payload Hd]]]];
    try (rewrite E; apply lifecycle_step_same).
  rewrite (POST_dispatch _ _ _ _ _ _ Hd). now apply dispatch_lifecycle.
Qed.

End LifecycleFacts.

(** ** Claim on the status path *)

Module LifecycleSpec.
Import JS GenAI Webhook Pipeline LifecycleFacts.

(** C5, as the code has it.  On a table whose ids are unique, every
    webhook delivery keeps each row's id and leaves its status where it is
    or moves it forward on [upcoming -> active -> processing -> completed];
    in particular it never changes the status of a completed or cancelled
    meeting.  A run of the pipeline keeps each row's id and either moves
    the status forward in the same sense, or turns a cancelled meeting
    into a completed one: its last step sets completed whatever the status
    was. *)
Theorem status_moves_forward
  (verifyWebhook : string -> string -> bool)
  (JSON_parse : string -> option Payload)
  (req : NextRequest) (now : Z) (w : World)
  (StreamTranscriptItem : Type) (speaker_id : StreamTranscriptItem -> string)
  (fetch_text : option string -> Try string)
  (JSONL_parse : string -> Try (list StreamTranscriptItem))
  (JSON_stringify : list (StreamTranscriptItem * string) -> string)
  (generateContent : GenerateRequest -> Generated)
  (event : Job) (d : Database) :
  (NoDup (map meetings.id (db_meetings (db w))) ->
   Forall2
     (fun m m' =>
        lifecycle_step m m'
        /\ (meetings.status m = completed \/ meetings.status m = cancelled ->
            meetings.status m' = meetings.status m))
     (db_meetings (db w))
     (db_meetings (db (snd (POST verifyWebhook JSON_parse req now w)))))
  /\ Forall2
       (fun m m' =>
          meetings.id m' = meetings.id m
          /\ (forward (meetings.status m) (meetings.status m') = true
              \/ (meetings.status m = cancelled
                  /\ meetings.status m' = completed)))
       (db_meetings d)
       (db_meetings
          (snd (meetingsProcessing StreamTranscriptItem speaker_id fetch_text
                  JSONL_parse JSON_stringify generateContent event d))).
Proof.
  split.
  - intros Hnd.
    apply Forall2_impl with (R1 := lifecycle_step);
      [|now apply POST_lifecycle].
    intros m m' Hstep. split; [assumption|].
    destruct Hstep as [_ Hf]. now apply forward_terminal.
  - assert (Hsame : forall t : list meetings.row,
              Forall2
                (fun m m' =>
                   meetings.id m' = meetings.id m
                   /\ (forward (meetings.status m) (meetings.status m') = true
                       \/ (meetings.status m = cancelled
                           /\ meetings.status m' = completed))) t t).
    { induction t; constructor; [|assumption].
      split; [reflexivity|]. left. apply forward_refl. }
    unfold meetingsProcessing.
    destruct (fetch_text _); [|apply Hsame].
    destruct (JSONL_parse _); [|apply Hsame].
    destruct (summarizeWithGemini _ _); [|apply Hsame].
    unfold save_summary. simpl.
    apply DbFacts.update_Forall2. intros r _.
    destruct (String.eqb (meetings.id r) (meetingId (data event)));
      [|split; [reflexivity|left; apply forward_refl]].
    split; [reflexivity|]. simpl.
    destruct (meetings.status r); auto.
Qed.

(** The start of the upcoming meeting [m1] is a forward step. *)
Lemma status_moves_forward_witness :
  NoDup (map meetings.id (db_meetings (db (Sample.world (Sample.store upcoming)))))
  /\ Forall2
       (fun m m' =>
          lifecycle_step m m'
          /\ (meetings.status m = completed \/ meetings.status m = cancelled ->
              meetings.status m' = meetings.status m))
       (db_meetings (db (Sample.world (Sample.store upcoming))))
       (db_meetings
          (db (snd (POST Sample.verifyWebhook Sample.JSON_parse
                      (Sample.signed "session_started m1") 7
                      (Sample.world (Sample.store upcoming)))))).
Proof.
  assert (Hnd : NoDup (map meetings.id
                         (db_meetings (db (Sample.world (Sample.store upcoming)))))).
  { simpl. constructor; [intros []|constructor]. }
  split; [exact Hnd|].
  exact (proj1 (status_moves_forward
                  Sample.verifyWebhook Sample.JSON_parse
                  (Sample.signed "session_started m1") 7
                  (Sample.world (Sample.store upcoming))
                  Sample.Item Sample.speaker_id Sample.fetch_text
                  Sample.JSONL_parse Sample.JSON_stringify Sample.generate_text
                  Sample.job_m1 (Sample.store upcoming)) Hnd).
Defined.

(** C5, against the claim as stated: a [call.transcription_ready]
    delivery for a cancelled meeting sends the job, and the run of that
    job moves the meeting from cancelled, a terminal status off the path,
    to completed. *)
Lemma cancelled_meeting_completed :
  let w := Sample.world (Sample.store cancelled) in
  let w' := snd (POST Sample.verifyWebhook Sample.JSON_parse
                   (Sample.signed "transcription_ready m1") 7 w) in
  let d' := snd (meetingsProcessing Sample.Item Sample.speaker_id
                   Sample.fetch_text Sample.JSONL_parse Sample.JSON_stringify
                   Sample.generate_text Sample.job_m1 (db w')) in
  sent w' = [Sample.job_m1]
  /\ map meetings.status (db_meetings (db w')) = [cancelled]
  /\ map meetings.status (db_meetings d') = [completed]
  /\ forward cancelled completed = false.
Proof. cbv zeta. repeat split. Qed.

End LifecycleSpec.

(** ** Decimal rendering *)

Module NumeralFacts.
Local Open Scope Z_scope.

Lemma read_digits_acc d acc :
  JS.read_digits (Zpos acc) (NilEmpty.string_of_uint d)
  = Some (Zpos (Pos.of_uint_acc d acc)).
Proof.
  revert acc. induction d; intros acc; cbn [NilEmpty.string_of_uint Pos.of_uint_acc];
    [reflexivity| | | | | | | | | |];
    cbn [JS.read_digits]; unfold JS.digit; simpl nat_of_ascii; cbv iota beta;
    simpl andb; cbv iota; rewrite <- IHd; f_equal;
    match goal with
    | |- context [Z.of_nat ?n] =>
        let k := eval vm_compute in (Z.of_nat n) in change (Z.of_nat n) with k
    end; lia.
Qed.

Lemma read_digits_uint d :
  JS.read_digits 0 (NilEmpty.string_of_uint d) = Some (Z.of_N (Pos.of_uint d)).
Proof.
  induction d; cbn [NilEmpty.string_of_uint Pos.of_uint];
    [reflexivity|exact IHd| | | | | | | | |];
    cbn [JS.read_digits]; unfold JS.digit; simpl nat_of_ascii; cbv iota beta;
    simpl andb; cbv iota; cbn [Z.of_N];
    match goal with
    | |- JS.read_digits ?z _ = _ =>
        let k := eval vm_compute in z in change z with k
    end; apply read_digits_acc.
Qed.

Lemma nzhead_head d : match Decimal.nzhead d with Decimal.D0 _ => False | _ => True end.
Proof. induction d; simpl; auto. Qed.

(** The numeral of a positive number starts with a digit other than 0. *)
Lemma to_uint_head p :
  match Pos.to_uint p with
  | Decimal.Nil | Decimal.D0 _ => False
  | _ => True
  end.
Proof.
  pose proof (DecimalPos.Unsigned.to_of (Pos.to_uint p)) as H.
  rewrite DecimalPos.Unsigned.of_to in H. simpl in H.
  pose proof (DecimalPos.Unsigned.to_uint_nonzero p) as Hz.
  pose proof (nzhead_head (Pos.to_uint p)) as Hh.
  unfold Decimal.unorm in H.
  destruct (Decimal.nzhead (Pos.to_uint p)) eqn:E;
    rewrite H in *; try exact I; [now elim Hz|exact Hh].
Qed.

(** [show_int] writes the canonical decimal numeral of a positive
    integer. *)
Lemma decimal_value_show_int N :
  0 < N -> JS.decimal_value (JS.show_int N) = Some N.
Proof.
  destruct N as [|p|p]; try lia. intros _.
  unfold JS.show_int. cbn [Z.to_int NilZero.string_of_int].
  pose proof (to_uint_head p) as Hh.
  pose proof (read_digits_uint (Pos.to_uint p)) as Hr.
  rewrite DecimalPos.Unsigned.of_to in Hr. cbn [Z.of_N] in Hr.
  destruct (Pos.to_uint p); try contradiction;
    cbn [NilZero.string_of_uint]; exact Hr.
Qed.

Lemma digit_char c z :
  JS.digit c = Some z ->
  forall d, exists d', uint_of_char c (Some d) = Some d'.
Proof.
  intros H d.
  destruct c as [[|] [|] [|] [|] [|] [|] [|] [|]];
    vm_compute in H; try discriminate; eexists; reflexivity.
Qed.

Lemma read_digits_parses s :
  forall acc n, JS.read_digits acc s = Some n ->
  exists d, NilEmpty.uint_of_string s = Some d.
Proof.
  induction s as [|c s IH]; intros acc n H; [now exists Decimal.Nil|].
  cbn [JS.read_digits] in H. destruct (JS.digit c) as [z|] eqn:Ec; [|discriminate].
  destruct (IH _ _ H) as [d Hd].
  cbn [NilEmpty.uint_of_string]. rewrite Hd. exact (digit_char c z Ec d).
Qed.

Lemma string_of_uint_nil d :
  NilEmpty.string_of_uint d = EmptyString -> d = Decimal.Nil.
Proof. now destruct d. Qed.

(** A canonical numeral is the one [show_int] writes for its value: there
    is one numeral per number. *)
Lemma decimal_value_unique s n :
  JS.decimal_value s = Some n -> s = JS.show_int n.
Proof.
  intros H. destruct s as [|c rest]; [discriminate|].
  unfold JS.decimal_value in H.
  destruct (Nat.eqb (nat_of_ascii c) 48 && negb (String.eqb rest EmptyString))
    eqn:Hlead; [discriminate|].
  destruct (read_digits_parses _ _ _ H) as [d Hd].
  pose proof (NilEmpty.sus _ _ Hd) as Hs.
  rewrite <- Hs in H. rewrite read_digits_uint in H. injection H as <-.
  assert (Hnorm : Decimal.unorm d = d /\ d <> Decimal.Nil).
  { destruct d; try (split; [reflexivity|discriminate]).
    - discriminate.
    - cbn [NilEmpty.string_of_uint] in Hs. injection Hs as Hc Hr.
      subst c. simpl in Hlead.
      destruct (String.eqb_spec rest EmptyString) as [E|E]; [|discriminate].
      rewrite E in Hr. apply string_of_uint_nil in Hr. subst d.
      split; [reflexivity|discriminate]. }
  destruct Hnorm as [Hnorm Hnil].
  pose proof (DecimalPos.Unsigned.to_of d) as Hto. rewrite Hnorm in Hto.
  rewrite <- Hs. unfold JS.show_int.
  destruct (Pos.of_uint d) as [|p]; cbn [Z.of_N Z.to_int N.to_uint] in *;
    rewrite Hto; cbn [NilZero.string_of_int];
    destruct d; try reflexivity; now elim Hnil.
Qed.

End NumeralFacts.

(** ** Claim on the voice overlay *)

Module CallActiveSpec.
Import CallActive.
Local Open Scope Z_scope.

Lemma ceil_div_bounds n :
  1000 * (JS.ceil_div n 1000 - 1) < n <= 1000 * JS.ceil_div n 1000.
Proof. unfold JS.ceil_div. Z.div_mod_to_equations. lia. Qed.

(** C9. When fewer than 3000 ms have passed since the last forwarded
    request, [processWithFreeAI] makes no network call (no effect at all),
    leaves [lastRequestTime] as it was and shows "Please wait N
    seconds..." where N is the remaining time in seconds rounded up (at
    least 1), written as its canonical decimal numeral: "3" up to one
    second after a forwarded request, "2" from one second to two, "1"
    from two to three, and for any longer wait the one numeral, digits
    only and without leading zero, whose value is N.  The same holds of the recognizer's
    listener, which forwards through that function. *)
Theorem rate_limited_request_dropped
  (fetch : string -> string -> Fetched) (speechSynthesis_in_window : bool)
  (text : string) (results : list SpeechResult) (now : Z) (st : State) :
  now - lastRequestTime st < MIN_REQUEST_INTERVAL ->
  let remaining := MIN_REQUEST_INTERVAL - (now - lastRequestTime st) in
  let N := JS.ceil_div remaining 1000 in
  processWithFreeAI fetch speechSynthesis_in_window text now st =
    (mkState (lastRequestTime st)
             ("Please wait " ++ JS.show_int N ++ " seconds..."), [])
  /\ (1 <= N /\ 1000 * (N - 1) < remaining <= 1000 * N)
  /\ (1000 <= now - lastRequestTime st < 2000 ->
      aiResponse (fst (processWithFreeAI fetch speechSynthesis_in_window
                         text now st))
      = "Please wait 2 seconds...")
  /\ (snd (onresult fetch speechSynthesis_in_window results now st) = []
      /\ lastRequestTime (fst (onresult fetch speechSynthesis_in_window
                                 results now st))
         = lastRequestTime st)
  /\ (exists digits,
        processWithFreeAI fetch speechSynthesis_in_window text now st =
          (mkState (lastRequestTime st)
                   ("Please wait " ++ digits ++ " seconds..."), [])
        /\ JS.decimal_value digits = Some N)
  /\ (0 <= now - lastRequestTime st < 1000 ->
      aiResponse (fst (processWithFreeAI fetch speechSynthesis_in_window
                         text now st))
      = "Please wait 3 seconds...")
  /\ (2000 <= now - lastRequestTime st < 3000 ->
      aiResponse (fst (processWithFreeAI fetch speechSynthesis_in_window
                         text now st))
      = "Please wait 1 seconds...")
  /\ (forall digits,
        JS.decimal_value digits = Some N ->
        processWithFreeAI fetch speechSynthesis_in_window text now st =
          (mkState (lastRequestTime st)
                   ("Please wait " ++ digits ++ " seconds..."), [])).
Proof.
  intros Hlt remaining N.
  assert (Hrun : processWithFreeAI fetch speechSynthesis_in_window text now st =
            (mkState (lastRequestTime st)
               ("Please wait " ++ JS.show_int N ++ " seconds..."), [])).
  { unfold processWithFreeAI.
    apply Z.ltb_lt in Hlt. now rewrite Hlt. }
  pose proof (ceil_div_bounds remaining) as Hb. fold N in Hb.
  assert (HN : 1 <= N) by (unfold remaining, MIN_REQUEST_INTERVAL in *; lia).
  split; [exact Hrun|]. split; [|split; [|split; [|split; [|split; [|split]]]]].
  - unfold remaining, MIN_REQUEST_INTERVAL in *. lia.
  - intros Hsec. rewrite Hrun. simpl.
    assert (E : N = 2) by (unfold remaining, MIN_REQUEST_INTERVAL in *; lia).
    now rewrite E.
  - unfold onresult. destruct results as [|r rest]; [auto|].
    destruct (isFinal r && _); [|auto].
    unfold processWithFreeAI.
    apply Z.ltb_lt in Hlt. rewrite Hlt. auto.
  - exists (JS.show_int N). split; [exact Hrun|].
    apply NumeralFacts.decimal_value_show_int. lia.
  - intros Hsec. rewrite Hrun. simpl.
    assert (E : N = 3) by (unfold remaining, MIN_REQUEST_INTERVAL in *; lia).
    now rewrite E.
  - intros Hsec. rewrite Hrun. simpl.
    assert (E : N = 1) by (unfold remaining, MIN_REQUEST_INTERVAL in *; lia).
    now rewrite E.
  - intros digits Hd.
    now rewrite (NumeralFacts.decimal_value_unique _ _ Hd).
Qed.

(** An utterance one second after a forwarded request. *)
Lemma rate_limited_request_witness :
  11000 - lastRequestTime (mkState 10000 "Happy to help.") < MIN_REQUEST_INTERVAL
  /\ processWithFreeAI Sample.fetch true "tell me a short joke" 11000
       (mkState 10000 "Happy to help.")
     = (mkState 10000 "Please wait 2 seconds...", []).
Proof.
  assert (H : 11000 - lastRequestTime (mkState 10000 "Happy to help.")
              < MIN_REQUEST_INTERVAL) by reflexivity.
  split; [exact H|].
  exact (proj1 (rate_limited_request_dropped Sample.fetch true
                  "tell me a short joke"
                  [mkResult "tell me a short joke" true] 11000
                  (mkState 10000 "Happy to help.") H)).
Defined.

End CallActiveSpec.

(** ** Claim on the voice endpoint *)

Module ProcessSpeechSpec.
Import JS GenAI ProcessSpeech.
Local Open Scope Z_scope.

(** C10. For a request whose [text] is a non-empty string, when the
    handler reaches the model and the call resolves, the response is 200
    with [success: true] and a non-empty [response]: the model's text when
    that is a non-empty string, the literal "Sorry, I couldn't process
    that." when the text is missing or empty. *)
Theorem resolved_call_answers_200
  (GEMINI_API_KEY : option string)
  (generateContent : GenerateRequest -> Generated)
  (text : string) (result_text : option string) :
  text <> EmptyString ->
  snd (POST GEMINI_API_KEY generateContent (Returns (Some text)))
    = [request_for text] ->
  generateContent (request_for text) = resolves result_text ->
  let aiResponse := or_else result_text "Sorry, I couldn't process that." in
  fst (POST GEMINI_API_KEY generateContent (Returns (Some text)))
    = mkResponse (reply_json aiResponse true) 200
  /\ aiResponse <> EmptyString
  /\ (result_text = None \/ result_text = Some EmptyString ->
      aiResponse = "Sorry, I couldn't process that.")
  /\ (forall s, result_text = Some s -> s <> EmptyString -> aiResponse = s).
Proof.
  intros Hne Hcall Hgen aiResponse.
  assert (Ht : truthy (Some text) = true).
  { simpl. apply negb_true_iff. now apply String.eqb_neq. }
  assert (Hor : the (Some text) = text) by reflexivity.
  split; [|split; [|split]].
  - revert Hcall. unfold POST.
    destruct (truthy GEMINI_API_KEY); cbn [negb]; cbv iota; [|discriminate].
    rewrite Ht. cbn [negb]. cbv iota. rewrite Hor, Hgen. reflexivity.
  - apply PipelineFacts.or_else_nonempty. discriminate.
  - intros [->| ->]; reflexivity.
  - intros s -> Hs. unfold aiResponse, or_else, truthy.
    apply String.eqb_neq in Hs. now rewrite Hs.
Qed.

(** A model call that resolves without text is answered with the fallback. *)
Lemma resolved_call_witness :
  ("tell me a short joke" <> EmptyString
   /\ snd (POST (Some "key") Sample.generate_nothing
             (Returns (Some "tell me a short joke")))
      = [request_for "tell me a short joke"]
   /\ Sample.generate_nothing (request_for "tell me a short joke")
      = resolves None)
  /\ fst (POST (Some "key") Sample.generate_nothing
            (Returns (Some "tell me a short joke")))
     = mkResponse (reply_json "Sorry, I couldn't process that." true) 200.
Proof.
  assert (Hne : "tell me a short joke" <> EmptyString) by discriminate.
  split; [repeat split; exact Hne|].
  exact (proj1 (resolved_call_answers_200 (Some "key") Sample.generate_nothing
                  "tell me a short joke" None Hne eq_refl eq_refl)).
Defined.

End ProcessSpeechSpec.

(* ================================================================== *)
(** * Further properties of the webhook endpoint *)

Module WebhookRuns.
Import Webhook WebhookFacts.
Local Open Scope Z_scope.

Lemma truthy_Some id : id <> EmptyString -> JS.truthy (Some id) = true.
Proof. intros H. simpl. apply negb_true_iff. now apply String.eqb_neq. Qed.

Lemma session_ended_missing_id payload now w :
  JS.truthy (call_custom_meetingId payload) = false ->
  session_ended payload now w =
    (inl (mkResponse (error_json "Missing meetingId") 400), w).
Proof. intros Ht. unfold session_ended. now rewrite Ht. Qed.

Lemma session_ended_run payload now w :
  JS.truthy (call_custom_meetingId payload) = true ->
  session_ended payload now w =
    (inr tt,
     mkWorld
       (with_meetings (db w)
          (Db.update (set_processing now)
             (fun m => Db.eq_str (meetings.id m) (call_custom_meetingId payload)
                       && status_eqb (meetings.status m) active)
             (db_meetings (db w))))
       (sent w) (ended w)).
Proof. intros Ht. unfold session_ended. now rewrite Ht. Qed.

Lemma participant_left_missing_id payload w :
  JS.truthy (JS.index (JS.split ":" (call_cid payload)) 1) = false ->
  session_participant_left payload w =
    (inl (mkResponse (error_json "Missing meetingId ") 400), w).
Proof. intros Ht. unfold session_participant_left. now rewrite Ht. Qed.

Lemma participant_left_run payload w :
  JS.truthy (JS.index (JS.split ":" (call_cid payload)) 1) = true ->
  session_participant_left payload w =
    (inr tt,
     mkWorld (db w) (sent w)
       (ended w ++ [("default",
                     JS.the (JS.index (JS.split ":" (call_cid payload)) 1))])).
Proof. intros Ht. unfold session_participant_left. now rewrite Ht. Qed.

(** A row stays in the table through an update, as itself or rewritten. *)
Lemma In_updated {R} (set : R -> R) (where_ : R -> bool) (t : list R) r :
  In r t -> In (if where_ r then set r else r) (Db.update set where_ t).
Proof.
  intros H. unfold Db.update. apply in_map_iff. exists r. auto.
Qed.

(** The dispatcher on a payload of none of the five kinds. *)
Lemma dispatch_other payload now :
  (forall kind,
      In kind ["call.session_started"; "call.session_participant_left";
               "call.session_ended"; "call.transcription_ready";
               "call.recording_ready"] ->
      type payload <> Some kind) ->
  dispatch payload now = pure tt.
Proof.
  intros H. unfold dispatch, type_is.
  destruct (type payload) as [t|]; [|reflexivity].
  repeat match goal with
         | |- context [String.eqb t ?lit] =>
             destruct (String.eqb_spec t lit) as [->|_];
             [exfalso; apply (H lit); simpl; auto 10|]
         end.
  reflexivity.
Qed.

(** The transcription branch when a row carries the id. *)
Lemma transcription_ready_existing payload w id :
  JS.index (JS.split ":" (call_cid payload)) 1 = Some id ->
  (exists m, In m (db_meetings (db w)) /\ meetings.id m = id) ->
  transcription_ready payload w =
    (inr tt,
     mkWorld
       (with_meetings (db w)
          (Db.update (set_transcriptUrl (call_transcription_url payload))
             (fun m => String.eqb (meetings.id m) id) (db_meetings (db w))))
       (sent w ++ [mkJob "meetings/processing"
                     (mkData id (Some (call_transcription_url payload)))])
       (ended w)).
Proof.
  intros Hid [m [Hin Hm]].
  destruct (Db.select (fun m => Db.eq_str (meetings.id m)
                        (JS.index (JS.split ":" (call_cid payload)) 1))
                      (db_meetings (db w))) as [|r rest] eqn:Hsel.
  - exfalso. apply DbFacts.select_none_iff with (r := m) in Hsel; [|assumption].
    rewrite Hid in Hsel. simpl in Hsel. rewrite Hm, String.eqb_refl in Hsel.
    discriminate.
  - pose proof (DbFacts.select_head _ _ _ _ Hsel) as [_ Hr].
    rewrite (transcription_ready_row _ _ _ _ Hsel).
    rewrite Hid in *. simpl in Hr. apply String.eqb_eq in Hr.
    now rewrite Hr.
Qed.

End WebhookRuns.

Module WebhookExtra.
Import Webhook WebhookFacts WebhookRuns.
Local Open Scope Z_scope.

(** X1. A [call.session_ended] delivery with a meeting id is always
    acknowledged with 200; it moves exactly the rows of that id that are
    active to processing, stamping the end time, and touches nothing else:
    when no row of the id is active (unknown id, or an event out of order)
    the world is returned as it was. *)
Theorem session_ended_closes_active_rows
  (verifyWebhook : string -> string -> bool)
  (JSON_parse : string -> option Payload)
  (req : NextRequest) (payload : Payload) (now : Z) (w : World) (id : string) :
  delivers verifyWebhook JSON_parse req payload ->
  type payload = Some "call.session_ended" ->
  call_custom_meetingId payload = Some id ->
  id <> EmptyString ->
  let r := POST verifyWebhook JSON_parse req now w in
  fst r = acknowledgement
  /\ sent (snd r) = sent w /\ ended (snd r) = ended w
  /\ db_user (db (snd r)) = db_user (db w)
  /\ db_agents (db (snd r)) = db_agents (db w)
  /\ Forall2
       (fun m m' =>
          if String.eqb (meetings.id m) id
             && status_eqb (meetings.status m) active
          then m' = meetings.mk (meetings.id m) processing (meetings.agentId m)
                      (meetings.transcriptUrl m) (meetings.recordingUrl m)
                      (meetings.summary m) (meetings.startedAt m) (Some now)
          else m' = m)
       (db_meetings (db w)) (db_meetings (db (snd r)))
  /\ ((forall m, In m (db_meetings (db w)) -> meetings.id m = id ->
                 meetings.status m <> active) ->
      snd r = w).
Proof.
  intros Hd Ht Hid Hne r. unfold r.
  rewrite (POST_dispatch _ _ _ _ _ _ Hd), (dispatch_session_ended _ _ Ht).
  rewrite session_ended_run by (rewrite Hid; now apply truthy_Some).
  rewrite Hid. unfold respond. cbn [fst snd sent ended db db_user db_agents
                                      db_meetings with_meetings Db.eq_str].
  repeat (split; [reflexivity|]). split.
  - apply DbFacts.update_Forall2. intros m _. cbv beta.
    destruct (_ && _); reflexivity.
  - intros Hnone. rewrite DbFacts.update_none.
    + now rewrite with_meetings_same, world_same.
    + apply DbFacts.select_none_iff. intros m Hin.
      destruct (String.eqb_spec (meetings.id m) id) as [E|_]; [|reflexivity].
      specialize (Hnone m Hin E). simpl.
      destruct (status_eqb_spec (meetings.status m) active); congruence.
Qed.

(** The end of the active sample meeting; the completed [m2] is left alone. *)
Lemma session_ended_witness :
  (delivers Sample.verifyWebhook Fixtures.JSON_parse
     (Sample.signed "session_ended m1") Fixtures.ended_m1
   /\ type Fixtures.ended_m1 = Some "call.session_ended"
   /\ call_custom_meetingId Fixtures.ended_m1 = Some "m1"
   /\ "m1" <> EmptyString)
  /\ fst (POST Sample.verifyWebhook Fixtures.JSON_parse
            (Sample.signed "session_ended m1") 9
            (Sample.world (Fixtures.two_meetings active)))
     = acknowledgement.
Proof.
  assert (Hd : delivers Sample.verifyWebhook Fixtures.JSON_parse
                 (Sample.signed "session_ended m1") Fixtures.ended_m1)
    by (repeat split; reflexivity).
  assert (Hne : "m1" <> EmptyString) by discriminate.
  split; [repeat split; try reflexivity; exact Hne|].
  exact (proj1 (session_ended_closes_active_rows
                  Sample.verifyWebhook Fixtures.JSON_parse
                  (Sample.signed "session_ended m1") Fixtures.ended_m1 9
                  (Sample.world (Fixtures.two_meetings active)) "m1"
                  Hd eq_refl eq_refl Hne)).
Defined.

(** X2. [call.session_ended] is idempotent under duplicate delivery: a
    second delivery for the same meeting id right after the first is
    acknowledged and changes nothing, so the end time of the first stays. *)
Theorem session_ended_twice
  (verifyWebhook : string -> string -> bool)
  (JSON_parse : string -> option Payload)
  (req1 req2 : NextRequest) (p1 p2 : Payload) (id : string)
  (t1 t2 : Z) (w : World) :
  delivers verifyWebhook JSON_parse req1 p1 ->
  delivers verifyWebhook JSON_parse req2 p2 ->
  type p1 = Some "call.session_ended" ->
  type p2 = Some "call.session_ended" ->
  call_custom_meetingId p1 = Some id ->
  call_custom_meetingId p2 = Some id ->
  id <> EmptyString ->
  POST verifyWebhook JSON_parse req2 t2
    (snd (POST verifyWebhook JSON_parse req1 t1 w))
  = (acknowledgement, snd (POST verifyWebhook JSON_parse req1 t1 w)).
Proof.
  intros Hd1 Hd2 Ht1 Ht2 Hid1 Hid2 Hne.
  pose proof (truthy_Some _ Hne) as Htr.
  assert (Hw1 : db_meetings (db (snd (POST verifyWebhook JSON_parse req1 t1 w)))
                = Db.update (set_processing t1)
                    (fun m => Db.eq_str (meetings.id m) (Some id)
                              && status_eqb (meetings.status m) active)
                    (db_meetings (db w))).
  { rewrite (POST_dispatch _ _ _ _ _ _ Hd1), (dispatch_session_ended _ _ Ht1).
    rewrite session_ended_run by now rewrite Hid1.
    now rewrite Hid1. }
  remember (snd (POST verifyWebhook JSON_parse req1 t1 w)) as w1 eqn:Ew1.
  rewrite (POST_dispatch _ _ _ _ _ _ Hd2), (dispatch_session_ended _ _ Ht2).
  rewrite session_ended_run by now rewrite Hid2.
  rewrite Hid2. unfold respond.
  rewrite DbFacts.update_none.
  - now rewrite with_meetings_same, world_same.
  - rewrite Hw1. apply DbFacts.select_none_iff. intros m' Hin.
    apply DbFacts.In_update in Hin. destruct Hin as [m [_ ->]].
    destruct (Db.eq_str (meetings.id m) (Some id)
              && status_eqb (meetings.status m) active) eqn:E.
    + simpl. apply andb_false_r.
    + exact E.
Qed.

(** The end of [m1] delivered twice. *)
Lemma session_ended_twice_witness :
  (delivers Sample.verifyWebhook Fixtures.JSON_parse
     (Sample.signed "session_ended m1") Fixtures.ended_m1
   /\ "m1" <> EmptyString)
  /\ POST Sample.verifyWebhook Fixtures.JSON_parse
       (Sample.signed "session_ended m1") 11
       (snd (POST Sample.verifyWebhook Fixtures.JSON_parse
               (Sample.signed "session_ended m1") 9
               (Sample.world (Sample.store active))))
     = (acknowledgement,
        snd (POST Sample.verifyWebhook Fixtures.JSON_parse
               (Sample.signed "session_ended m1") 9
               (Sample.world (Sample.store active)))).
Proof.
  assert (Hd : delivers Sample.verifyWebhook Fixtures.JSON_parse
                 (Sample.signed "session_ended m1") Fixtures.ended_m1)
    by (repeat split; reflexivity).
  assert (Hne : "m1" <> EmptyString) by discriminate.
  split; [split; [exact Hd|exact Hne]|].
  exact (session_ended_twice Sample.verifyWebhook Fixtures.JSON_parse
           (Sample.signed "session_ended m1") (Sample.signed "session_ended m1")
           Fixtures.ended_m1 Fixtures.ended_m1 "m1" 9 11
           (Sample.world (Sample.store active))
           Hd Hd eq_refl eq_refl eq_refl eq_refl Hne).
Defined.

(** X3. A [call.session_participant_left] delivery never touches the
    database or the job list.  When [call_cid] has a non-empty part after
    its first colon, the delivery is acknowledged and ends exactly one
    call, of type "default" and that id; when it has no colon, or nothing
    between the first colon and the next, it is answered 400 "Missing
    meetingId " and no call is ended. *)
Theorem participant_left_ends_the_call
  (verifyWebhook : string -> string -> bool)
  (JSON_parse : string -> option Payload)
  (req : NextRequest) (payload : Payload) (now : Z) (w : World) :
  delivers verifyWebhook JSON_parse req payload ->
  type payload = Some "call.session_participant_left" ->
  let r := POST verifyWebhook JSON_parse req now w in
  let meetingId := JS.index (JS.split ":" (call_cid payload)) 1 in
  db (snd r) = db w /\ sent (snd r) = sent w
  /\ (forall id, meetingId = Some id -> id <> EmptyString ->
        fst r = acknowledgement
        /\ ended (snd r) = (ended w ++ [("default", id)])%list)
  /\ (meetingId = None \/ meetingId = Some EmptyString ->
      r = (mkResponse (error_json "Missing meetingId ") 400, w)).
Proof.
  intros Hd Ht r meetingId. unfold r.
  rewrite (POST_dispatch _ _ _ _ _ _ Hd), (dispatch_participant_left _ _ Ht).
  destruct (JS.truthy meetingId) eqn:Htr.
  - rewrite (participant_left_run _ _ Htr). fold meetingId.
    split; [reflexivity|]. split; [reflexivity|]. split.
    + intros id Hid _. rewrite Hid. split; reflexivity.
    + intros [E|E]; rewrite E in Htr; discriminate.
  - rewrite (participant_left_missing_id _ _ Htr).
    split; [reflexivity|]. split; [reflexivity|]. split.
    + intros id Hid Hne. rewrite Hid, (truthy_Some _ Hne) in Htr. discriminate.
    + reflexivity.
Qed.

(** A participant leaving the call of [m1]. *)
Lemma participant_left_witness :
  (delivers Sample.verifyWebhook Fixtures.JSON_parse
     (Sample.signed "participant_left m1") Fixtures.left_m1
   /\ type Fixtures.left_m1 = Some "call.session_participant_left"
   /\ JS.index (JS.split ":" (call_cid Fixtures.left_m1)) 1 = Some "m1"
   /\ "m1" <> EmptyString)
  /\ ended (snd (POST Sample.verifyWebhook Fixtures.JSON_parse
                   (Sample.signed "participant_left m1") 9
                   (Sample.world (Sample.store active))))
     = [("default", "m1")].
Proof.
  assert (Hd : delivers Sample.verifyWebhook Fixtures.JSON_parse
                 (Sample.signed "participant_left m1") Fixtures.left_m1)
    by (repeat split; reflexivity).
  assert (Hne : "m1" <> EmptyString) by discriminate.
  split; [repeat split; try reflexivity; exact Hne|].
  exact (proj2 (proj1 (proj2 (proj2 (participant_left_ends_the_call
                  Sample.verifyWebhook Fixtures.JSON_parse
                  (Sample.signed "participant_left m1") Fixtures.left_m1 9
                  (Sample.world (Sample.store active)) Hd eq_refl)))
                  "m1" eq_refl Hne)).
Defined.

(** X4. A [call.recording_ready] delivery is acknowledged with 200
    whether or not a row carries the id after the colon of [call_cid]; it
    stores the recording URL on the rows of that id, leaves every status
    and every other column alone, sends no job and ends no call; with an
    id no row has, the world is returned as it was. *)
Theorem recording_ready_stores_the_url
  (verifyWebhook : string -> string -> bool)
  (JSON_parse : string -> option Payload)
  (req : NextRequest) (payload : Payload) (now : Z) (w : World) :
  delivers verifyWebhook JSON_parse req payload ->
  type payload = Some "call.recording_ready" ->
  let r := POST verifyWebhook JSON_parse req now w in
  let meetingId := JS.index (JS.split ":" (call_cid payload)) 1 in
  fst r = acknowledgement
  /\ sent (snd r) = sent w /\ ended (snd r) = ended w
  /\ db_user (db (snd r)) = db_user (db w)
  /\ db_agents (db (snd r)) = db_agents (db w)
  /\ Forall2
       (fun m m' =>
          if Db.eq_str (meetings.id m) meetingId
          then m' = meetings.mk (meetings.id m) (meetings.status m)
                      (meetings.agentId m) (meetings.transcriptUrl m)
                      (Some (call_recording_url payload)) (meetings.summary m)
                      (meetings.startedAt m) (meetings.endedAt m)
          else m' = m)
       (db_meetings (db w)) (db_meetings (db (snd r)))
  /\ ((forall m, In m (db_meetings (db w)) -> Some (meetings.id m) <> meetingId) ->
      snd r = w).
Proof.
  intros Hd Ht r meetingId. unfold r.
  rewrite (POST_dispatch _ _ _ _ _ _ Hd), (dispatch_recording_ready _ _ Ht).
  rewrite recording_ready_run. fold meetingId. unfold respond.
  cbn [fst snd sent ended db db_user db_agents db_meetings with_meetings].
  repeat (split; [reflexivity|]). split.
  - apply DbFacts.update_Forall2. intros m _. cbv beta.
    destruct (Db.eq_str _ _); reflexivity.
  - intros Hnone. rewrite DbFacts.update_none.
    + now rewrite with_meetings_same, world_same.
    + apply DbFacts.select_none_iff. intros m Hin. specialize (Hnone m Hin).
      unfold Db.eq_str. destruct meetingId as [id|]; [|reflexivity].
      apply String.eqb_neq. congruence.
Qed.

(** The recording of [m1]. *)
Lemma recording_ready_witness :
  (delivers Sample.verifyWebhook Fixtures.JSON_parse
     (Sample.signed "recording_ready m1") Fixtures.recording_m1
   /\ type Fixtures.recording_m1 = Some "call.recording_ready")
  /\ fst (POST Sample.verifyWebhook Fixtures.JSON_parse
            (Sample.signed "recording_ready m1") 9
            (Sample.world (Sample.store processing)))
     = acknowledgement.
Proof.
  assert (Hd : delivers Sample.verifyWebhook Fixtures.JSON_parse
                 (Sample.signed "recording_ready m1") Fixtures.recording_m1)
    by (repeat split; reflexivity).
  split; [split; [exact Hd|reflexivity]|].
  exact (proj1 (recording_ready_stores_the_url
                  Sample.verifyWebhook Fixtures.JSON_parse
                  (Sample.signed "recording_ready m1") Fixtures.recording_m1 9
                  (Sample.world (Sample.store processing)) Hd eq_refl)).
Defined.

(** X5. A delivery whose [type] is missing or is none of the five event
    kinds the dispatcher knows is acknowledged with 200 and changes
    nothing. *)
Theorem unknown_event_ignored
  (verifyWebhook : string -> string -> bool)
  (JSON_parse : string -> option Payload)
  (req : NextRequest) (payload : Payload) (now : Z) (w : World) :
  delivers verifyWebhook JSON_parse req payload ->
  (forall kind,
      In kind ["call.session_started"; "call.session_participant_left";
               "call.session_ended"; "call.transcription_ready";
               "call.recording_ready"] ->
      type payload <> Some kind) ->
  POST verifyWebhook JSON_parse req now w = (acknowledgement, w).
Proof.
  intros Hd Hkind.
  now rewrite (POST_dispatch _ _ _ _ _ _ Hd), (dispatch_other _ _ Hkind).
Qed.

(** A [call.created] event. *)
Lemma unknown_event_witness :
  (delivers Sample.verifyWebhook Fixtures.JSON_parse
     (Sample.signed "created m1") Fixtures.created_m1
   /\ (forall kind,
         In kind ["call.session_started"; "call.session_participant_left";
                  "call.session_ended"; "call.transcription_ready";
                  "call.recording_ready"] ->
         type Fixtures.created_m1 <> Some kind))
  /\ POST Sample.verifyWebhook Fixtures.JSON_parse
       (Sample.signed "created m1") 9 (Sample.world (Sample.store upcoming))
     = (acknowledgement, Sample.world (Sample.store upcoming)).
Proof.
  assert (Hd : delivers Sample.verifyWebhook Fixtures.JSON_parse
                 (Sample.signed "created m1") Fixtures.created_m1)
    by (repeat split; reflexivity).
  assert (Hk : forall kind,
             In kind ["call.session_started"; "call.session_participant_left";
                      "call.session_ended"; "call.transcription_ready";
                      "call.recording_ready"] ->
             type Fixtures.created_m1 <> Some kind).
  { intros kind Hin. simpl in Hin.
    destruct Hin as [<-|[<-|[<-|[<-|[<-|[]]]]]]; discriminate. }
  split; [split; [exact Hd|exact Hk]|].
  exact (unknown_event_ignored Sample.verifyWebhook Fixtures.JSON_parse
           (Sample.signed "created m1") Fixtures.created_m1 9
           (Sample.world (Sample.store upcoming)) Hd Hk).
Defined.

End WebhookExtra.

Module WebhookFrame.
Import Webhook WebhookFacts WebhookRuns Frame.
Local Open Scope Z_scope.

Lemma same_identity_all t : Forall2 same_identity t t.
Proof. induction t; constructor; [repeat split|assumption]. Qed.

(** A world rebuilt from [w] by one in-place update of the meetings that
    keeps the identity columns, plus at most one job and one ended call. *)
Lemma frame_update set where_ jobs calls w :
  (forall m, same_identity m (set m)) ->
  (length jobs <= 1)%nat -> Forall job_ok jobs ->
  (length calls <= 1)%nat -> Forall (fun c => fst c = "default") calls ->
  delivery_frame w
    (mkWorld (with_meetings (db w) (Db.update set where_ (db_meetings (db w))))
             (sent w ++ jobs) (ended w ++ calls)).
Proof.
  intros Hset Hj Hjobs Hc Hcalls. unfold delivery_frame.
  cbn [db sent ended db_user db_agents db_meetings with_meetings].
  split; [reflexivity|]. split; [reflexivity|]. split.
  - apply DbFacts.update_Forall2. intros m _.
    destruct (where_ m); [apply Hset|repeat split].
  - split; [exists jobs|exists calls]; auto.
Qed.

Lemma frame_same w : delivery_frame w w.
Proof.
  unfold delivery_frame. split; [reflexivity|]. split; [reflexivity|].
  split; [apply same_identity_all|].
  split; exists []; rewrite app_nil_r; simpl; auto.
Qed.

Lemma frame_call call w :
  fst call = "default" ->
  delivery_frame w (mkWorld (db w) (sent w) (ended w ++ [call])).
Proof.
  intros H. unfold delivery_frame. cbn [db sent ended].
  split; [reflexivity|]. split; [reflexivity|].
  split; [apply same_identity_all|]. split.
  - exists []. rewrite app_nil_r. simpl. auto.
  - exists [call]. simpl. auto.
Qed.

Lemma frame_rows set where_ w :
  (forall m, same_identity m (set m)) ->
  delivery_frame w
    (mkWorld (with_meetings (db w) (Db.update set where_ (db_meetings (db w))))
             (sent w) (ended w)).
Proof.
  intros Hset.
  pose proof (frame_update set where_ [] [] w Hset) as H.
  rewrite !app_nil_r in H. apply H; simpl; auto.
Qed.

Lemma dispatch_frame payload now w :
  delivery_frame w (snd (respond (dispatch payload now w))).
Proof.
  destruct (dispatch_cases payload now)
    as [E|[E|[E|[E|[E|E]]]]]; rewrite E; clear E.
  - destruct (JS.truthy (call_custom_meetingId payload)) eqn:Ht;
      [|rewrite (session_started_missing_id _ _ _ Ht); apply frame_same].
    destruct (Db.select (startable (call_custom_meetingId payload))
                        (db_meetings (db w))) as [|m rest] eqn:Hsel;
      [rewrite (session_started_no_row _ _ _ Ht Hsel); apply frame_same|].
    rewrite (session_started_row _ _ _ _ _ Ht Hsel).
    destruct (Db.select _ (db_agents (db w)));
      apply frame_rows; intros ?; repeat split.
  - destruct (JS.truthy (JS.index (JS.split ":" (call_cid payload)) 1)) eqn:Ht.
    + rewrite (participant_left_run _ _ Ht). now apply frame_call.
    + rewrite (participant_left_missing_id _ _ Ht). apply frame_same.
  - destruct (session_ended_cases payload now w) as [E|E]; rewrite E;
      [apply frame_same|].
    apply frame_rows; intros ?; repeat split.
  - destruct (Db.select (fun m => Db.eq_str (meetings.id m)
                          (JS.index (JS.split ":" (call_cid payload)) 1))
                        (db_meetings (db w))) as [|m rest] eqn:Hsel.
    + rewrite (transcription_ready_no_row _ _ Hsel). apply frame_same.
    + rewrite (transcription_ready_row _ _ _ _ Hsel). unfold respond, snd.
      rewrite <- (app_nil_r (ended w)).
      apply frame_update; simpl; auto.
      * intros ?; repeat split.
      * constructor; [|constructor]. split; [reflexivity|discriminate].
  - rewrite recording_ready_run.
    apply frame_rows; intros ?; repeat split.
  - apply frame_same.
Qed.

(** The branches other than [call.transcription_ready] send nothing. *)
Lemma sends_nothing payload now w (h : Handler unit) :
  h = session_started payload now \/ h = session_participant_left payload
  \/ h = session_ended payload now \/ h = recording_ready payload
  \/ h = pure tt ->
  sent (snd (respond (h w))) = sent w.
Proof.
  intros [->|[->|[->|[->| ->]]]].
  - destruct (JS.truthy (call_custom_meetingId payload)) eqn:Ht;
      [|now rewrite (session_started_missing_id _ _ _ Ht)].
    destruct (Db.select (startable (call_custom_meetingId payload))
                        (db_meetings (db w))) as [|m rest] eqn:Hsel;
      [now rewrite (session_started_no_row _ _ _ Ht Hsel)|].
    rewrite (session_started_row _ _ _ _ _ Ht Hsel).
    now destruct (Db.select _ (db_agents (db w))).
  - destruct (JS.truthy (JS.index (JS.split ":" (call_cid payload)) 1)) eqn:Ht.
    + now rewrite (participant_left_run _ _ Ht).
    + now rewrite (participant_left_missing_id _ _ Ht).
  - now destruct (session_ended_cases payload now w) as [E|E]; rewrite E.
  - now rewrite recording_ready_run.
  - reflexivity.
Qed.

Lemma type_is_true payload lit :
  type_is payload lit = true -> type payload = Some lit.
Proof.
  unfold type_is. destruct (type payload) as [t|]; [|discriminate].
  intros H. apply String.eqb_eq in H. now subst.
Qed.

End WebhookFrame.

Module WebhookErrors.
Import Webhook WebhookFacts WebhookRuns.
Local Open Scope Z_scope.

(** C2, as the code has it.  For a delivery that reaches the dispatcher:
    a [call.session_started] or [call.session_ended] delivery without a
    meeting id, and a [call.session_participant_left] delivery whose
    [call_cid] holds none, is answered 400 "Missing meetingId" with the
    world as it was; a [call.session_started] delivery for which no row of
    the id passes the status guard is answered 404 "Meeting not found",
    and a [call.transcription_ready] delivery whose id matches no row is
    answered with a client error, both with the world as it was; a
    [call.session_started] delivery whose meeting is found but whose agent
    is not is answered 404 "Agent not found" after the rows of the id have
    become active with the start time, every other column, table, job
    and call being as before; a [call.session_ended] or
    [call.recording_ready] delivery whose meeting is not found is
    acknowledged with 200 and changes nothing.  And whatever the request,
    the response is one of the early errors with the world untouched, that
    "Agent not found", or the acknowledgement 200. *)
Theorem error_paths_and_store
  (verifyWebhook : string -> string -> bool)
  (JSON_parse : string -> option Payload)
  (req : NextRequest) (now : Z) (w : World) :
  let r := POST verifyWebhook JSON_parse req now w in
  let started id (m : meetings.row) :=
    if String.eqb (meetings.id m) id
    then meetings.mk (meetings.id m) active (meetings.agentId m)
           (meetings.transcriptUrl m) (meetings.recordingUrl m)
           (meetings.summary m) (Some now) (meetings.endedAt m)
    else m in
  ((In (fst r) early_errors /\ snd r = w)
   \/ (fst r = agent_not_found
       /\ exists existingMeeting,
            In existingMeeting (db_meetings (db w))
            /\ meetings.status existingMeeting = upcoming
            /\ (forall a, In a (db_agents (db w)) ->
                          agents.id a <> meetings.agentId existingMeeting)
            /\ db_meetings (db (snd r))
               = map (started (meetings.id existingMeeting)) (db_meetings (db w))
            /\ db_user (db (snd r)) = db_user (db w)
            /\ db_agents (db (snd r)) = db_agents (db w)
            /\ sent (snd r) = sent w /\ ended (snd r) = ended w)
   \/ fst r = acknowledgement)
  /\ forall payload,
       delivers verifyWebhook JSON_parse req payload ->
       let cid := JS.index (JS.split ":" (call_cid payload)) 1 in
       (* no meeting id *)
       (type payload = Some "call.session_started"
        \/ type payload = Some "call.session_ended" ->
        JS.truthy (call_custom_meetingId payload) = false ->
        r = (mkResponse (error_json "Missing meetingId") 400, w))
       /\ (type payload = Some "call.session_participant_left" ->
           JS.truthy cid = false ->
           r = (mkResponse (error_json "Missing meetingId ") 400, w))
       (* meeting not found, reported *)
       /\ (type payload = Some "call.session_started" ->
           forall id,
             call_custom_meetingId payload = Some id -> id <> EmptyString ->
             (forall m, In m (db_meetings (db w)) -> meetings.id m = id ->
                        In (meetings.status m)
                           [completed; active; cancelled; processing]) ->
             r = (mkResponse (error_json "Meeting not found") 404, w))
       /\ (type payload = Some "call.transcription_ready" ->
           (forall m, In m (db_meetings (db w)) -> Some (meetings.id m) <> cid) ->
           snd r = w
           /\ 400 <= status (fst r) <= 499
           /\ exists message, json (fst r) = error_json message)
       (* agent not found: reported after the meeting has been started *)
       /\ (type payload = Some "call.session_started" ->
           forall id,
             call_custom_meetingId payload = Some id -> id <> EmptyString ->
             (exists m, In m (db_meetings (db w)) /\ meetings.id m = id
                        /\ meetings.status m = upcoming) ->
             (forall m a, In m (db_meetings (db w)) -> meetings.id m = id ->
                          In a (db_agents (db w)) ->
                          agents.id a <> meetings.agentId m) ->
             fst r = mkResponse (error_json "Agent not found") 404
             /\ db_meetings (db (snd r)) = map (started id) (db_meetings (db w))
             /\ db_user (db (snd r)) = db_user (db w)
             /\ db_agents (db (snd r)) = db_agents (db w)
             /\ sent (snd r) = sent w /\ ended (snd r) = ended w)
       (* meeting not found, acknowledged all the same *)
       /\ (type payload = Some "call.session_ended" ->
           forall id,
             call_custom_meetingId payload = Some id -> id <> EmptyString ->
             (forall m, In m (db_meetings (db w)) -> meetings.id m <> id) ->
             r = (acknowledgement, w))
       /\ (type payload = Some "call.recording_ready" ->
           (forall m, In m (db_meetings (db w)) -> Some (meetings.id m) <> cid) ->
           r = (acknowledgement, w)).
Proof.
  intros r started. split.
  - unfold r.
    destruct (POST_cases verifyWebhook JSON_parse req now w)
      as [E|[E|[E|[payload Hd]]]];
      try (rewrite E; left; split; [simpl; auto 10|reflexivity]).
    rewrite (POST_dispatch _ _ _ _ _ _ Hd).
    destruct (dispatch_classified payload now w)
      as [H|[[Hr [m (Hin & Hst & Hag & Hw)]]|H]];
      [left; exact H| |right; right; exact H].
    right; left. split; [exact Hr|]. exists m.
    split; [exact Hin|]. split; [exact Hst|]. split; [exact Hag|].
    rewrite Hw. repeat split.
  - intros payload Hd cid. unfold r.
    rewrite (POST_dispatch _ _ _ _ _ _ Hd).
    split; [|split; [|split; [|split; [|split; [|split]]]]].
    + intros [Ht|Ht] Hno.
      * now rewrite (dispatch_session_started _ _ Ht),
          (session_started_missing_id _ _ _ Hno).
      * now rewrite (dispatch_session_ended _ _ Ht),
          (session_ended_missing_id _ _ _ Hno).
    + intros Ht Hno.
      now rewrite (dispatch_participant_left _ _ Ht),
        (participant_left_missing_id _ _ Hno).
    + intros Ht id Hid Hne Hnone.
      rewrite (dispatch_session_started _ _ Ht), session_started_no_row;
        [reflexivity|rewrite Hid; now apply truthy_Some|].
      rewrite Hid. apply DbFacts.select_none_iff. intros m Hin.
      destruct (startable (Some id) m) eqn:E; [|reflexivity].
      apply startable_inv in E. destruct E as [Em Es].
      specialize (Hnone m Hin Em). rewrite Es in Hnone. simpl in Hnone.
      intuition discriminate.
    + intros Ht Hnone.
      rewrite (dispatch_transcription_ready _ _ Ht), transcription_ready_no_row.
      * simpl. split; [reflexivity|]. split; [lia|]. eexists. reflexivity.
      * apply DbFacts.select_none_iff. intros m Hin. specialize (Hnone m Hin).
        fold cid. unfold Db.eq_str. destruct cid as [id|]; [|reflexivity].
        apply String.eqb_neq. congruence.
    + intros Ht id Hid Hne [m (Hin & Hm & Hst)] Hnoagent.
      rewrite (dispatch_session_started _ _ Ht).
      destruct (Db.select (startable (call_custom_meetingId payload))
                          (db_meetings (db w))) as [|existing rest] eqn:Hsel.
      { exfalso. rewrite Hid in Hsel.
        apply DbFacts.select_none_iff with (r := m) in Hsel; [|assumption].
        unfold startable, Db.eq_str in Hsel.
        rewrite Hm, Hst, String.eqb_refl in Hsel. discriminate. }
      pose proof (DbFacts.select_head _ _ _ _ Hsel) as [Hine Hs].
      rewrite Hid in Hs. apply startable_inv in Hs. destruct Hs as [He _].
      rewrite (session_started_row payload now w existing rest);
        [|rewrite Hid; now apply truthy_Some|assumption].
      destruct (Db.select _ (db_agents (db w))) as [|a l] eqn:Hag.
      * rewrite He. repeat split.
      * exfalso. pose proof (DbFacts.select_head _ _ _ _ Hag) as [Hina Ha].
        apply String.eqb_eq in Ha.
        exact (Hnoagent existing a Hine He Hina Ha).
    + intros Ht id Hid Hne Hnone.
      rewrite (dispatch_session_ended _ _ Ht), session_ended_run
        by (rewrite Hid; now apply truthy_Some).
      rewrite Hid, DbFacts.update_none.
      * unfold respond. now rewrite with_meetings_same, world_same.
      * apply DbFacts.select_none_iff. intros m Hin.
        specialize (Hnone m Hin). apply String.eqb_neq in Hnone.
        simpl. now rewrite Hnone.
    + intros Ht Hnone.
      rewrite (dispatch_recording_ready _ _ Ht), recording_ready_run.
      rewrite DbFacts.update_none.
      * unfold respond. now rewrite with_meetings_same, world_same.
      * apply DbFacts.select_none_iff. intros m Hin. specialize (Hnone m Hin).
        fold cid. unfold Db.eq_str. destruct cid as [id|]; [|reflexivity].
        apply String.eqb_neq. congruence.
Qed.

(** A start event for the meeting [m1] when it is already processing,
    and an end event for it on a store that does not hold it. *)
Lemma error_paths_witness :
  (delivers Sample.verifyWebhook Sample.JSON_parse
     (Sample.signed "session_started m1") Sample.started_m1
   /\ type Sample.started_m1 = Some "call.session_started"
   /\ call_custom_meetingId Sample.started_m1 = Some "m1"
   /\ "m1" <> EmptyString
   /\ (forall m, In m (db_meetings (db (Sample.world (Sample.store processing)))) ->
                 meetings.id m = "m1" ->
                 In (meetings.status m) [completed; active; cancelled; processing])
   /\ POST Sample.verifyWebhook Sample.JSON_parse
        (Sample.signed "session_started m1") 7
        (Sample.world (Sample.store processing))
      = (mkResponse (error_json "Meeting not found") 404,
         Sample.world (Sample.store processing)))
  /\ (delivers Sample.verifyWebhook Fixtures.JSON_parse
        (Sample.signed "session_ended m1") Fixtures.ended_m1
      /\ type Fixtures.ended_m1 = Some "call.session_ended"
      /\ call_custom_meetingId Fixtures.ended_m1 = Some "m1"
      /\ (forall m, In m (db_meetings (db (Sample.world
                                             (mkDatabase [] [Sample.u1] [Sample.a1])))) ->
                    meetings.id m <> "m1")
      /\ POST Sample.verifyWebhook Fixtures.JSON_parse
           (Sample.signed "session_ended m1") 7
           (Sample.world (mkDatabase [] [Sample.u1] [Sample.a1]))
         = (acknowledgement,
            Sample.world (mkDatabase [] [Sample.u1] [Sample.a1]))).
Proof.
  assert (Hd1 : delivers Sample.verifyWebhook Sample.JSON_parse
                  (Sample.signed "session_started m1") Sample.started_m1)
    by (repeat split; reflexivity).
  assert (Hd2 : delivers Sample.verifyWebhook Fixtures.JSON_parse
                  (Sample.signed "session_ended m1") Fixtures.ended_m1)
    by (repeat split; reflexivity).
  assert (Hne : "m1" <> EmptyString) by discriminate.
  assert (H1 : forall m,
             In m (db_meetings (db (Sample.world (Sample.store processing)))) ->
             meetings.id m = "m1" ->
             In (meetings.status m) [completed; active; cancelled; processing]).
  { intros m [<-|[]] _. simpl. auto. }
  assert (H2 : forall m,
             In m (db_meetings (db (Sample.world
                                      (mkDatabase [] [Sample.u1] [Sample.a1])))) ->
             meetings.id m <> "m1")
    by (intros m []).
  split.
  - split; [exact Hd1|]. split; [reflexivity|]. split; [reflexivity|].
    split; [exact Hne|]. split; [exact H1|].
    exact (proj1 (proj2 (proj2 (proj2 (error_paths_and_store
             Sample.verifyWebhook Sample.JSON_parse
             (Sample.signed "session_started m1") 7
             (Sample.world (Sample.store processing)))
             Sample.started_m1 Hd1)))
             eq_refl "m1" eq_refl Hne H1).
  - split; [exact Hd2|]. split; [reflexivity|]. split; [reflexivity|].
    split; [exact H2|].
    exact (proj1 (proj2 (proj2 (proj2 (proj2 (proj2 (proj2 (error_paths_and_store
             Sample.verifyWebhook Fixtures.JSON_parse
             (Sample.signed "session_ended m1") 7
             (Sample.world (mkDatabase [] [Sample.u1] [Sample.a1])))
             Fixtures.ended_m1 Hd2))))))
             eq_refl "m1" eq_refl Hne H2).
Defined.

(** C2, against the claim as stated.  A [call.session_started] delivery
    for an upcoming meeting whose agent row is missing is answered with
    the client error 404 "Agent not found", and the store is not as it
    was: the meeting is active and carries the start time.  And on a store
    that has no meeting [m1], a [call.session_ended] and a
    [call.recording_ready] delivery for [m1] are not answered with a
    client error but acknowledged with 200. *)
Lemma client_error_paths_counterexample :
  (let w := Sample.world (Sample.store_without_agent upcoming) in
   let r := POST Sample.verifyWebhook Sample.JSON_parse
              (Sample.signed "session_started m1") 7 w in
   fst r = mkResponse (error_json "Agent not found") 404
   /\ db_meetings (db (snd r)) =
        [meetings.mk "m1" active "a1" None None None (Some 7) None]
   /\ db (snd r) <> db w)
  /\ (let w :=
        Sample.world
          (mkDatabase
             [meetings.mk "m2" completed "a1" None None (Some "notes")
                (Some 1) (Some 2)]
             [Sample.u1] [Sample.a1]) in
      (forall m, In m (db_meetings (db w)) -> meetings.id m <> "m1")
      /\ POST Sample.verifyWebhook Fixtures.JSON_parse
           (Sample.signed "session_ended m1") 7 w
         = (mkResponse status_ok 200, w)
      /\ POST Sample.verifyWebhook Fixtures.JSON_parse
           (Sample.signed "recording_ready m1") 7 w
         = (mkResponse status_ok 200, w)).
Proof.
  split.
  - cbv zeta. split; [reflexivity|]. split; [reflexivity|].
    intros H. apply (f_equal db_meetings) in H. vm_compute in H. discriminate.
  - cbv zeta. split; [|split; reflexivity].
    intros m [<-|[]]. discriminate.
Qed.

End WebhookErrors.

Module WebhookInvariants.
Import Webhook WebhookFacts WebhookRuns Frame.
Local Open Scope Z_scope.

(** X6. Whatever the request, a delivery leaves the user and agent tables
    as they were, rewrites meeting rows only in place (same number of
    rows, each keeping its id, its agent and its summary), appends at
    most one job, which is a "meetings/processing" job carrying a
    transcript URL, and ends at most one call, of type "default"; it never
    removes a job or a row. *)
Theorem delivery_keeps_the_frame
  (verifyWebhook : string -> string -> bool)
  (JSON_parse : string -> option Payload)
  (req : NextRequest) (now : Z) (w : World) :
  delivery_frame w (snd (POST verifyWebhook JSON_parse req now w))
  /\ length (db_meetings (db (snd (POST verifyWebhook JSON_parse req now w))))
     = length (db_meetings (db w)).
Proof.
  assert (H : delivery_frame w (snd (POST verifyWebhook JSON_parse req now w))).
  { destruct (POST_cases verifyWebhook JSON_parse req now w)
      as [E|[E|[E|[payload Hd]]]];
      try (rewrite E; apply WebhookFrame.frame_same).
    rewrite (POST_dispatch _ _ _ _ _ _ Hd). apply WebhookFrame.dispatch_frame. }
  split; [exact H|].
  destruct H as (_ & _ & H & _). symmetry. exact (Forall2_length H).
Qed.

(** X7. A job is sent only by an authenticated [call.transcription_ready]
    delivery whose id, the part of [call_cid] after the colon, is the id
    of a row; the job then carries that id and the delivered URL.  No
    other event kind, and no rejected request, ever sends one. *)
Theorem job_only_for_a_stored_transcript
  (verifyWebhook : string -> string -> bool)
  (JSON_parse : string -> option Payload)
  (req : NextRequest) (now : Z) (w : World) :
  sent (snd (POST verifyWebhook JSON_parse req now w)) <> sent w ->
  exists payload id,
    delivers verifyWebhook JSON_parse req payload
    /\ type payload = Some "call.transcription_ready"
    /\ JS.index (JS.split ":" (call_cid payload)) 1 = Some id
    /\ (exists m, In m (db_meetings (db w)) /\ meetings.id m = id)
    /\ sent (snd (POST verifyWebhook JSON_parse req now w))
       = (sent w ++ [mkJob "meetings/processing"
                       (mkData id (Some (call_transcription_url payload)))])%list.
Proof.
  intros Hsent.
  destruct (POST_cases verifyWebhook JSON_parse req now w)
    as [E|[E|[E|[payload Hd]]]];
    try (rewrite E in Hsent; exfalso; now apply Hsent).
  rewrite (POST_dispatch _ _ _ _ _ _ Hd) in *.
  exists payload.
  unfold dispatch in *.
  destruct (type_is payload "call.session_started");
    [exfalso; apply Hsent; apply (WebhookFrame.sends_nothing payload now); auto|].
  destruct (type_is payload "call.session_participant_left");
    [exfalso; apply Hsent; apply (WebhookFrame.sends_nothing payload now); auto|].
  destruct (type_is payload "call.session_ended");
    [exfalso; apply Hsent; apply (WebhookFrame.sends_nothing payload now); auto|].
  destruct (type_is payload "call.transcription_ready") eqn:Ht.
  - apply WebhookFrame.type_is_true in Ht.
    destruct (Db.select (fun m => Db.eq_str (meetings.id m)
                          (JS.index (JS.split ":" (call_cid payload)) 1))
                        (db_meetings (db w))) as [|m rest] eqn:Hsel.
    + exfalso. apply Hsent. now rewrite (transcription_ready_no_row _ _ Hsel).
    + pose proof (DbFacts.select_head _ _ _ _ Hsel) as [Hin Hm].
      destruct (JS.index (JS.split ":" (call_cid payload)) 1) as [id|] eqn:Hid;
        [|discriminate].
      simpl in Hm. apply String.eqb_eq in Hm.
      exists id. split; [assumption|]. split; [assumption|].
      split; [reflexivity|]. split; [exists m; auto|].
      rewrite (transcription_ready_existing payload w id Hid);
        [reflexivity|exists m; auto].
  - destruct (type_is payload "call.recording_ready");
      exfalso; apply Hsent; apply (WebhookFrame.sends_nothing payload now); auto 6.
Qed.

(** The transcript of [m1] arriving. *)
Lemma job_only_witness :
  sent (snd (POST Sample.verifyWebhook Sample.JSON_parse
               (Sample.signed "transcription_ready m1") 7
               (Sample.world (Sample.store processing))))
    <> sent (Sample.world (Sample.store processing))
  /\ exists payload id,
       delivers Sample.verifyWebhook Sample.JSON_parse
         (Sample.signed "transcription_ready m1") payload
       /\ type payload = Some "call.transcription_ready"
       /\ JS.index (JS.split ":" (call_cid payload)) 1 = Some id
       /\ (exists m, In m (db_meetings (db (Sample.world (Sample.store processing))))
                     /\ meetings.id m = id)
       /\ sent (snd (POST Sample.verifyWebhook Sample.JSON_parse
                       (Sample.signed "transcription_ready m1") 7
                       (Sample.world (Sample.store processing))))
          = (sent (Sample.world (Sample.store processing))
             ++ [mkJob "meetings/processing"
                   (mkData id (Some (call_transcription_url payload)))])%list.
Proof.
  assert (H : sent (snd (POST Sample.verifyWebhook Sample.JSON_parse
                           (Sample.signed "transcription_ready m1") 7
                           (Sample.world (Sample.store processing))))
              <> sent (Sample.world (Sample.store processing)))
    by discriminate.
  split; [exact H|].
  exact (job_only_for_a_stored_transcript Sample.verifyWebhook Sample.JSON_parse
           (Sample.signed "transcription_ready m1") 7
           (Sample.world (Sample.store processing)) H).
Defined.

(** X8. Duplicate deliveries of [call.transcription_ready] are not
    suppressed: two deliveries in a row for the id of an existing row send
    two jobs, one per delivery and in that order, and the rows of the id
    end up holding the URL of the second. *)
Theorem transcription_ready_twice_sends_two_jobs
  (verifyWebhook : string -> string -> bool)
  (JSON_parse : string -> option Payload)
  (req1 req2 : NextRequest) (p1 p2 : Payload) (id : string)
  (t1 t2 : Z) (w : World) :
  delivers verifyWebhook JSON_parse req1 p1 ->
  delivers verifyWebhook JSON_parse req2 p2 ->
  type p1 = Some "call.transcription_ready" ->
  type p2 = Some "call.transcription_ready" ->
  JS.index (JS.split ":" (call_cid p1)) 1 = Some id ->
  JS.index (JS.split ":" (call_cid p2)) 1 = Some id ->
  (exists m, In m (db_meetings (db w)) /\ meetings.id m = id) ->
  let w2 := snd (POST verifyWebhook JSON_parse req2 t2
                   (snd (POST verifyWebhook JSON_parse req1 t1 w))) in
  sent w2 =
    (sent w ++ [mkJob "meetings/processing"
                  (mkData id (Some (call_transcription_url p1)));
                mkJob "meetings/processing"
                  (mkData id (Some (call_transcription_url p2)))])%list
  /\ (forall m', In m' (db_meetings (db w2)) -> meetings.id m' = id ->
                 meetings.transcriptUrl m' = Some (call_transcription_url p2)).
Proof.
  intros Hd1 Hd2 Ht1 Ht2 Hid1 Hid2 [m [Hin Hm]] w2.
  assert (E1 : snd (POST verifyWebhook JSON_parse req1 t1 w) =
               mkWorld
                 (with_meetings (db w)
                    (Db.update (set_transcriptUrl (call_transcription_url p1))
                       (fun m => String.eqb (meetings.id m) id)
                       (db_meetings (db w))))
                 (sent w ++ [mkJob "meetings/processing"
                               (mkData id (Some (call_transcription_url p1)))])
                 (ended w)).
  { rewrite (POST_dispatch _ _ _ _ _ _ Hd1), (dispatch_transcription_ready _ _ Ht1).
    now rewrite (transcription_ready_existing p1 w id Hid1) by (exists m; auto). }
  assert (E2 : w2 =
               mkWorld
                 (with_meetings (db (snd (POST verifyWebhook JSON_parse req1 t1 w)))
                    (Db.update (set_transcriptUrl (call_transcription_url p2))
                       (fun m => String.eqb (meetings.id m) id)
                       (db_meetings (db (snd (POST verifyWebhook JSON_parse req1 t1 w))))))
                 (sent (snd (POST verifyWebhook JSON_parse req1 t1 w))
                  ++ [mkJob "meetings/processing"
                        (mkData id (Some (call_transcription_url p2)))])
                 (ended (snd (POST verifyWebhook JSON_parse req1 t1 w)))).
  { unfold w2.
    rewrite (POST_dispatch _ _ _ _ _ _ Hd2), (dispatch_transcription_ready _ _ Ht2).
    rewrite (transcription_ready_existing p2 _ id Hid2); [reflexivity|].
    rewrite E1. cbn [db db_meetings with_meetings].
    exists (set_transcriptUrl (call_transcription_url p1) m).
    split; [|exact Hm].
    pose proof (In_updated (set_transcriptUrl (call_transcription_url p1))
                  (fun m => String.eqb (meetings.id m) id) _ m Hin) as H.
    cbv beta in H. now rewrite Hm, String.eqb_refl in H. }
  rewrite E2, E1. cbn [sent db db_meetings with_meetings].
  split; [now rewrite <- app_assoc|].
  intros m' Hin' Hid'.
  apply DbFacts.In_update in Hin'. destruct Hin' as [r1 [_ ->]].
  destruct (String.eqb (meetings.id r1) id) eqn:E; [reflexivity|].
  apply String.eqb_neq in E. contradiction.
Qed.

(** The transcript of [m1] delivered twice. *)
Lemma transcription_ready_twice_witness :
  (delivers Sample.verifyWebhook Sample.JSON_parse
     (Sample.signed "transcription_ready m1") Sample.transcription_m1
   /\ (exists m, In m (db_meetings (db (Sample.world (Sample.store processing))))
                 /\ meetings.id m = "m1"))
  /\ length (sent (snd (POST Sample.verifyWebhook Sample.JSON_parse
                          (Sample.signed "transcription_ready m1") 8
                          (snd (POST Sample.verifyWebhook Sample.JSON_parse
                                  (Sample.signed "transcription_ready m1") 7
                                  (Sample.world (Sample.store processing)))))))
     = 2%nat.
Proof.
  assert (Hd : delivers Sample.verifyWebhook Sample.JSON_parse
                 (Sample.signed "transcription_ready m1") Sample.transcription_m1)
    by (repeat split; reflexivity).
  assert (Hm : exists m, In m (db_meetings (db (Sample.world (Sample.store processing))))
                         /\ meetings.id m = "m1")
    by (exists (Sample.m1 processing); split; [left|]; reflexivity).
  split; [split; [exact Hd|exact Hm]|].
  exact (f_equal (@length Job)
           (proj1 (transcription_ready_twice_sends_two_jobs
                     Sample.verifyWebhook Sample.JSON_parse
                     (Sample.signed "transcription_ready m1")
                     (Sample.signed "transcription_ready m1")
                     Sample.transcription_m1 Sample.transcription_m1 "m1" 7 8
                     (Sample.world (Sample.store processing))
                     Hd Hd eq_refl eq_refl eq_refl eq_refl Hm))).
Defined.

(** X9. The checks in front of the dispatcher run in a fixed order and
    change nothing.  A header that is present but empty counts as missing:
    the request is answered 400 without the signature being verified.
    With both headers set, a body the decoder rejects is answered 401 when
    the signature does not verify, as any other body, and 400 "Invalid
    JSON " only when it does. *)
Theorem checks_before_dispatch
  (verifyWebhook verifyWebhook' : string -> string -> bool)
  (JSON_parse JSON_parse' : string -> option Payload)
  (req : NextRequest) (now : Z) (w : World) :
  (x_signature req = Some EmptyString \/ x_api_key req = Some EmptyString ->
   POST verifyWebhook JSON_parse req now w =
     (mkResponse (error_json "Missing signature or API key") 400, w)
   /\ POST verifyWebhook' JSON_parse' req now w =
      POST verifyWebhook JSON_parse req now w)
  /\ (forall signature,
        x_signature req = Some signature -> signature <> EmptyString ->
        JS.truthy (x_api_key req) = true ->
        JSON_parse (text req) = None ->
        POST verifyWebhook JSON_parse req now w =
          (if verifyWebhook (text req) signature
           then mkResponse (error_json "Invalid JSON ") 400
           else mkResponse (error_json "Invalid signature") 401, w)).
Proof.
  split.
  - intros H.
    assert (Ht : JS.truthy (x_signature req) = false
                 \/ JS.truthy (x_api_key req) = false)
      by (destruct H as [H|H]; rewrite H; auto).
    now rewrite !POST_missing_credentials.
  - intros signature Hs Hne Hk Hp.
    assert (Ht : JS.truthy (x_signature req) = true)
      by (rewrite Hs; now apply truthy_Some).
    destruct (verifyWebhook (text req) signature) eqn:Hv.
    + apply POST_invalid_json; [|assumption].
      repeat split; try assumption. now rewrite Hs.
    + apply POST_invalid_signature; try assumption. now rewrite Hs.
Qed.

(** An empty signature header, and a malformed body correctly signed. *)
Lemma checks_before_dispatch_witness :
  (x_signature (mkRequest (Some EmptyString) (Some "key") "session_started m1")
     = Some EmptyString
   /\ POST Sample.verifyWebhook Sample.JSON_parse
        (mkRequest (Some EmptyString) (Some "key") "session_started m1") 7
        (Sample.world (Sample.store upcoming))
      = (mkResponse (error_json "Missing signature or API key") 400,
         Sample.world (Sample.store upcoming)))
  /\ (Sample.JSON_parse "{" = None
      /\ POST Sample.verifyWebhook Sample.JSON_parse (Sample.signed "{") 7
           (Sample.world (Sample.store upcoming))
         = (mkResponse (error_json "Invalid JSON ") 400,
            Sample.world (Sample.store upcoming))).
Proof.
  split; split; [reflexivity| |reflexivity| ].
  - apply (proj1 (checks_before_dispatch
                    Sample.verifyWebhook Sample.verifyWebhook
                    Sample.JSON_parse Sample.JSON_parse
                    (mkRequest (Some EmptyString) (Some "key") "session_started m1")
                    7 (Sample.world (Sample.store upcoming)))).
    left. reflexivity.
  - apply (proj2 (checks_before_dispatch
                    Sample.verifyWebhook Sample.verifyWebhook
                    Sample.JSON_parse Sample.JSON_parse
                    (Sample.signed "{") 7
                    (Sample.world (Sample.store upcoming))) "signed");
      [reflexivity | discriminate | reflexivity | reflexivity].
Defined.

End WebhookInvariants.

(* ================================================================== *)
(** * Further properties of the string helpers *)

Module JSFacts.

Lemma split_nonempty c s : JS.split c s <> [].
Proof.
  destruct s as [|c' s]; simpl; [discriminate|].
  destruct (Ascii.eqb c' c); [discriminate|].
  destruct (JS.split c s); discriminate.
Qed.

Lemma split_without c s : occurrences c s = 0%nat -> JS.split c s = [s].
Proof.
  induction s as [|c' s IH]; simpl; [reflexivity|].
  destruct (Ascii.eqb c' c); [discriminate|].
  intros H. now rewrite (IH H).
Qed.

Lemma split_at_first c t rest :
  occurrences c t = 0%nat ->
  JS.split c (t ++ String c rest) = t :: JS.split c rest.
Proof.
  induction t as [|c' t IH]; simpl.
  - intros _. now rewrite Ascii.eqb_refl.
  - destruct (Ascii.eqb c' c); [discriminate|].
    intros H. now rewrite (IH H).
Qed.

Lemma split_length c s : length (JS.split c s) = S (occurrences c s).
Proof.
  induction s as [|c' s IH]; simpl; [reflexivity|].
  destruct (Ascii.eqb c' c); simpl; [now rewrite IH|].
  destruct (JS.split c s) eqn:E; simpl in *; [discriminate|assumption].
Qed.

Lemma prefix_iff n h :
  String.prefix n h = true <-> exists post, h = n ++ post.
Proof.
  revert h. induction n as [|c n IH]; intros h.
  - split; [intros _; now exists h|]. intros _. now destruct h.
  - destruct h as [|c' h]; simpl.
    + split; [discriminate|intros [? ?]; discriminate].
    + destruct (ascii_dec c c') as [->|Hne].
      * rewrite IH. split; intros [post E]; exists post; congruence.
      * split; [discriminate|]. intros [post E]. congruence.
Qed.

(** [includes] is the substring test. *)
Lemma includes_iff n h :
  JS.includes n h = true <-> exists pre post, h = pre ++ n ++ post.
Proof.
  induction h as [|c h IH]; cbn [JS.includes].
  - rewrite orb_false_r, prefix_iff. split.
    + intros [post E]. now exists EmptyString, post.
    + intros [pre [post E]]. destruct pre; [now exists post|discriminate].
  - rewrite orb_true_iff, prefix_iff, IH. split.
    + intros [[post E]|[pre [post E]]].
      * now exists EmptyString, post.
      * exists (String c pre), post. simpl. now rewrite E.
    + intros [pre [post E]]. destruct pre as [|c' pre]; simpl in E.
      * left. now exists post.
      * right. exists pre, post. congruence.
Qed.

End JSFacts.

Module CallCidExtra.

(** X10. The meeting id the handlers read off [call_cid] with
    [split(":")[1]] is the text between the first colon and the next one
    (or the end): for a [call_cid] made of a call type and an id without
    colons it is that id, whatever follows a further colon is dropped, and
    a [call_cid] without any colon yields no id at all. *)
Theorem meeting_id_of_call_cid (callType id more : string) :
  occurrences ":" callType = 0%nat ->
  occurrences ":" id = 0%nat ->
  JS.index (JS.split ":" (callType ++ ":" ++ id)) 1 = Some id
  /\ JS.index (JS.split ":" (callType ++ ":" ++ id ++ ":" ++ more)) 1 = Some id
  /\ JS.index (JS.split ":" callType) 1 = None.
Proof.
  intros Ht Hid. split; [|split].
  - change (callType ++ ":" ++ id) with (callType ++ String ":" id).
    now rewrite (JSFacts.split_at_first _ _ _ Ht), (JSFacts.split_without _ _ Hid).
  - change (callType ++ ":" ++ id ++ ":" ++ more)
      with (callType ++ String ":" (id ++ String ":" more)).
    now rewrite (JSFacts.split_at_first _ _ _ Ht), (JSFacts.split_at_first _ _ _ Hid).
  - now rewrite (JSFacts.split_without _ _ Ht).
Qed.

(** The [call_cid] of the sample deliveries. *)
Lemma meeting_id_of_call_cid_witness :
  (occurrences ":" "default" = 0%nat /\ occurrences ":" "m1" = 0%nat)
  /\ JS.index (JS.split ":" ("default" ++ ":" ++ "m1")) 1 = Some "m1".
Proof.
  split; [split; reflexivity|].
  exact (proj1 (meeting_id_of_call_cid "default" "m1" "x" eq_refl eq_refl)).
Defined.

End CallCidExtra.

(* ================================================================== *)
(** * Further properties of the voice overlay *)

Module CallActiveFacts.
Import CallActive VoiceSession.
Local Open Scope Z_scope.

Section Component.
Variable fetch : string -> string -> Fetched.
Variable speechSynthesis_in_window : bool.

Local Abbreviation processWithFreeAI :=
  (processWithFreeAI fetch speechSynthesis_in_window).
Local Abbreviation onresult := (onresult fetch speechSynthesis_in_window).

Lemma process_dropped text now st :
  now - lastRequestTime st < MIN_REQUEST_INTERVAL ->
  lastRequestTime (fst (processWithFreeAI text now st)) = lastRequestTime st
  /\ snd (processWithFreeAI text now st) = [].
Proof.
  intros H. unfold CallActive.processWithFreeAI.
  apply Z.ltb_lt in H. now rewrite H.
Qed.

Lemma process_forwarded text now st :
  MIN_REQUEST_INTERVAL <= now - lastRequestTime st ->
  lastRequestTime (fst (processWithFreeAI text now st)) = now
  /\ exists tail,
       snd (processWithFreeAI text now st)
         = fetch_post "/api/ai/process-speech" text :: tail
       /\ (tail = []
           \/ (tail = [speak (aiResponse (fst (processWithFreeAI text now st)))]
               /\ speechSynthesis_in_window = true
               /\ exists status body,
                    fetch "/api/ai/process-speech" text
                      = fetch_resolves status (Some body)
                    /\ ok status = true
                    /\ aiResponse (fst (processWithFreeAI text now st))
                       = response body)).
Proof.
  intros H. unfold CallActive.processWithFreeAI.
  apply Z.ltb_ge in H. rewrite H.
  destruct (fetch _ _) as [|status [body|]] eqn:Ef;
    try (split; [reflexivity|]; exists []; auto).
  destruct (ok status) eqn:Eok; simpl.
  - destruct speechSynthesis_in_window eqn:Es; simpl.
    + split; [reflexivity|]. eexists. split; [reflexivity|].
      right. split; [reflexivity|]. split; [reflexivity|].
      exists status, body. auto.
    + split; [reflexivity|]. exists []. auto.
  - destruct (_ || _); simpl; split; try reflexivity; exists []; auto.
Qed.

(** What an event does to the time stamp, and whether it posts. *)
Lemma process_posts text now st :
  (posts (snd (processWithFreeAI text now st)) = false
   /\ lastRequestTime (fst (processWithFreeAI text now st)) = lastRequestTime st)
  \/ (posts (snd (processWithFreeAI text now st)) = true
      /\ lastRequestTime (fst (processWithFreeAI text now st)) = now
      /\ MIN_REQUEST_INTERVAL <= now - lastRequestTime st).
Proof.
  destruct (Z.lt_ge_cases (now - lastRequestTime st) MIN_REQUEST_INTERVAL) as [H|H].
  - left. destruct (process_dropped text now st H) as [E1 E2].
    now rewrite E2.
  - right. destruct (process_forwarded text now st H) as [E1 [tail [E2 _]]].
    rewrite E2. auto.
Qed.

Lemma onresult_posts results now st :
  (posts (snd (onresult results now st)) = false
   /\ lastRequestTime (fst (onresult results now st)) = lastRequestTime st)
  \/ (posts (snd (onresult results now st)) = true
      /\ lastRequestTime (fst (onresult results now st)) = now
      /\ MIN_REQUEST_INTERVAL <= now - lastRequestTime st).
Proof.
  unfold CallActive.onresult. destruct results as [|first rest]; [now left|].
  destruct (isFinal first && _); [apply process_posts|now left].
Qed.

End Component.
End CallActiveFacts.

Module CallActiveExtra.
Import CallActive VoiceSession CallActiveFacts.
Local Open Scope Z_scope.

(** X11. Once 3000 ms have passed since the last forwarded request,
    [processWithFreeAI] posts the text to "/api/ai/process-speech" exactly
    once, as its first effect, and advances the time stamp to now whatever
    the endpoint answers, so a failed request uses up the window too.  It
    speaks only when the response is ok and the browser has speech
    synthesis, and then speaks exactly the reply it displays; an error
    message is never spoken. *)
Theorem forwarded_request_posts_once
  (fetch : string -> string -> Fetched) (speechSynthesis_in_window : bool)
  (text : string) (now : Z) (st : State) :
  MIN_REQUEST_INTERVAL <= now - lastRequestTime st ->
  let r := processWithFreeAI fetch speechSynthesis_in_window text now st in
  lastRequestTime (fst r) = now
  /\ exists tail,
       snd r = fetch_post "/api/ai/process-speech" text :: tail
       /\ posts tail = false
       /\ (tail = []
           \/ (tail = [speak (aiResponse (fst r))]
               /\ speechSynthesis_in_window = true
               /\ exists status body,
                    fetch "/api/ai/process-speech" text
                      = fetch_resolves status (Some body)
                    /\ ok status = true
                    /\ aiResponse (fst r) = response body)).
Proof.
  intros H r. unfold r.
  destruct (process_forwarded fetch speechSynthesis_in_window text now st H)
    as [E1 [tail [E2 E3]]].
  split; [exact E1|]. exists tail. split; [exact E2|]. split; [|exact E3].
  destruct E3 as [->|[-> _]]; reflexivity.
Qed.

(** The sample utterance four seconds after the last request. *)
Lemma forwarded_request_witness :
  MIN_REQUEST_INTERVAL
    <= 14000 - lastRequestTime (mkState 10000 "Please wait 2 seconds...")
  /\ lastRequestTime
       (fst (processWithFreeAI Sample.fetch true "tell me a short joke" 14000
               (mkState 10000 "Please wait 2 seconds...")))
     = 14000.
Proof.
  assert (H : MIN_REQUEST_INTERVAL
              <= 14000 - lastRequestTime (mkState 10000 "Please wait 2 seconds..."))
    by discriminate.
  split; [exact H|].
  exact (proj1 (forwarded_request_posts_once Sample.fetch true
                  "tell me a short joke" 14000
                  (mkState 10000 "Please wait 2 seconds...") H)).
Defined.

(** X12. Over a whole listening session, whatever the events and the
    times they arrive at, the requests that reach the endpoint are at
    least 3000 ms apart: each forwarded request comes 3000 ms or more
    after the one before it, the first one counted from the initial time
    stamp. *)
Theorem forwarded_requests_are_spaced
  (fetch : string -> string -> Fetched) (speechSynthesis_in_window : bool)
  (events : list (Z * list SpeechResult)) (st : State) :
  spaced (lastRequestTime st)
    (forwarded_times (fst (listen fetch speechSynthesis_in_window events st))).
Proof.
  revert st. induction events as [|[now results] later IH]; intros st;
    [exact I|].
  cbn [listen].
  pose proof (onresult_posts fetch speechSynthesis_in_window results now st) as H.
  destruct (onresult fetch speechSynthesis_in_window results now st)
    as [st' effects].
  specialize (IH st').
  destruct (listen fetch speechSynthesis_in_window later st') as [log final].
  cbn [fst snd] in *. unfold forwarded_times in *. cbn [filter snd].
  destruct H as [[Hp Hl]|[Hp [Hl Hgap]]]; rewrite Hp.
  - now rewrite <- Hl.
  - cbn [map fst spaced]. split; [exact Hgap|]. now rewrite <- Hl.
Qed.

(** X13. The listener forwards an utterance exactly when the first result
    is final and the trimmed transcript holds at least two spaces: the
    "more than 2 words" test counts the pieces between single spaces,
    after [trim] has removed the white space and line terminators, of one
    byte or more, at both ends.  What it forwards is the untrimmed
    transcript of all results joined. *)
Theorem listener_forwards_on_two_spaces
  (fetch : string -> string -> Fetched) (speechSynthesis_in_window : bool)
  (first : SpeechResult) (rest : list SpeechResult) (now : Z) (st : State) :
  let joined := String.concat EmptyString (map transcript (first :: rest)) in
  (isFinal first = true ->
   (2 <= occurrences " " (JS.trim joined))%nat ->
   onresult fetch speechSynthesis_in_window (first :: rest) now st
   = processWithFreeAI fetch speechSynthesis_in_window joined now st)
  /\ (isFinal first = false \/ (occurrences " " (JS.trim joined) < 2)%nat ->
      onresult fetch speechSynthesis_in_window (first :: rest) now st = (st, [])).
Proof.
  intros joined. unfold onresult. fold joined.
  rewrite JSFacts.split_length. split.
  - intros Hf Hn. rewrite Hf. cbn [andb].
    match goal with
    | |- context [2 <? ?x] => destruct (Z.ltb_spec 2 x); [reflexivity|lia]
    end.
  - intros [Hf|Hn]; [now rewrite Hf|].
    match goal with
    | |- context [2 <? ?x] => destruct (Z.ltb_spec 2 x); [lia|]
    end.
    now rewrite andb_false_r.
Qed.

(** A five-word utterance, final. *)
Lemma listener_forwards_witness :
  (isFinal (mkResult "tell me a short joke" true) = true
   /\ (2 <= occurrences " "
              (JS.trim (String.concat EmptyString
                          (map transcript [mkResult "tell me a short joke" true]))))%nat)
  /\ onresult Sample.fetch true [mkResult "tell me a short joke" true] 14000
       (mkState 10000 "Happy to help.")
     = processWithFreeAI Sample.fetch true
         (String.concat EmptyString
            (map transcript [mkResult "tell me a short joke" true]))
         14000 (mkState 10000 "Happy to help.").
Proof.
  assert (Hn : (2 <= occurrences " "
                      (JS.trim (String.concat EmptyString
                                  (map transcript
                                     [mkResult "tell me a short joke" true]))))%nat)
    by (vm_compute; lia).
  split; [split; [reflexivity|exact Hn]|].
  exact (proj1 (listener_forwards_on_two_spaces Sample.fetch true
                  (mkResult "tell me a short joke" true) [] 14000
                  (mkState 10000 "Happy to help.")) eq_refl Hn).
Defined.

(** White space [trim] strips beyond the one-byte codes: an utterance of
    two words followed by a space and U+00A0 is trimmed to the two words
    and is not forwarded, and a leading U+FEFF or a trailing U+2028 does
    not count as a word either. *)
Example listener_trims_unicode_space :
  JS.trim ("hello there "
           ++ String (ascii_of_nat 194) (String (ascii_of_nat 160) EmptyString))
  = "hello there"
  /\ onresult Sample.fetch true
       [mkResult ("hello there "
                  ++ String (ascii_of_nat 194)
                       (String (ascii_of_nat 160) EmptyString)) true]
       14000 (mkState 10000 "Happy to help.")
     = (mkState 10000 "Happy to help.", [])
  /\ JS.trim (String (ascii_of_nat 239) (String (ascii_of_nat 187)
                (String (ascii_of_nat 191) " hello there "))
             ++ String (ascii_of_nat 226) (String (ascii_of_nat 128)
                  (String (ascii_of_nat 168) EmptyString)))
     = "hello there".
Proof. repeat split. Qed.

(** X14. With a recognizer, each click on the assistant button flips the
    listening flag and calls [start] or [stop] accordingly, so over any
    number of clicks the two calls alternate and the flag ends flipped
    exactly when the number is odd; without a recognizer every click only
    alerts: the flag stays and the recognizer is never called. *)
Theorem clicks_alternate (n : nat) (isAIListening : bool) :
  clicks n true isAIListening
  = (if Nat.even n then isAIListening else negb isAIListening,
     alternating n isAIListening)
  /\ clicks n false isAIListening
     = (isAIListening,
        repeat (alert "Speech recognition not supported in your browser") n).
Proof.
  split.
  - revert isAIListening. induction n as [|n IH]; intros l; [reflexivity|].
    cbn [clicks alternating]. unfold toggleAIAssistant. cbn [negb].
    destruct l; rewrite IH; cbn [app negb];
      rewrite Nat.even_succ, <- Nat.negb_even; destruct (Nat.even n); reflexivity.
  - induction n as [|n IH]; [reflexivity|].
    cbn [clicks repeat]. unfold toggleAIAssistant. cbn [negb].
    now rewrite IH.
Qed.

End CallActiveExtra.

(* ================================================================== *)
(** * Further properties of the voice endpoint *)

Module ProcessSpeechFacts.
Import JS GenAI ProcessSpeech.
Local Open Scope Z_scope.

Section Endpoint.
Variable GEMINI_API_KEY : option string.
Variable generateContent : GenerateRequest -> Generated.

Local Abbreviation POST := (POST GEMINI_API_KEY generateContent).

Lemma POST_unconfigured req_json :
  truthy GEMINI_API_KEY = false ->
  POST req_json =
    (mkResponse
       (error_json
          "AI service not configured. Please set GEMINI_API_KEY in environment variables."
          None) 500, []).
Proof. intros H. unfold ProcessSpeech.POST. now rewrite H. Qed.

Lemma POST_thrown e :
  truthy GEMINI_API_KEY = true -> POST (Throws e) = (on_error e, []).
Proof. intros H. unfold ProcessSpeech.POST. now rewrite H. Qed.

Lemma POST_no_text text :
  truthy GEMINI_API_KEY = true -> truthy text = false ->
  POST (Returns text) = (mkResponse (error_json "No text provided" None) 400, []).
Proof. intros H Ht. unfold ProcessSpeech.POST. now rewrite H, Ht. Qed.

Lemma POST_called text :
  truthy GEMINI_API_KEY = true -> truthy text = true ->
  POST (Returns text) =
    (match generateContent (request_for (the text)) with
     | rejects e => on_error e
     | resolves result_text =>
         mkResponse
           (reply_json (or_else result_text "Sorry, I couldn't process that.") true)
           200
     end, [request_for (the text)]).
Proof.
  intros H Ht. unfold ProcessSpeech.POST. rewrite H, Ht. cbn [negb].
  now destruct (generateContent _).
Qed.

Lemma on_error_status e :
  status (on_error e) =
    if includes "quota" (String_ e) || includes "RESOURCE_EXHAUSTED" (String_ e)
    then 429 else 500.
Proof. unfold on_error. now destruct (_ || _). Qed.

End Endpoint.
End ProcessSpeechFacts.

Module ProcessSpeechExtra.
Import JS GenAI ProcessSpeech ProcessSpeechFacts.
Local Open Scope Z_scope.

(** X15. Whatever the request, the voice endpoint answers 200, 400, 429
    or 500 and calls the model at most once.  It calls the model exactly
    when the API key is set and the body holds a non-empty text; the key
    is checked first, so without it the answer is the 500 configuration
    error even for an unreadable body; and a 200 is only ever answered
    after a model call that resolved. *)
Theorem speech_endpoint_outcomes
  (GEMINI_API_KEY : option string)
  (generateContent : GenerateRequest -> Generated)
  (req_json : Try (option string)) :
  let r := POST GEMINI_API_KEY generateContent req_json in
  In (status (fst r)) [200; 400; 429; 500]
  /\ (length (snd r) <= 1)%nat
  /\ (snd r <> [] <->
      truthy GEMINI_API_KEY = true
      /\ exists text, req_json = Returns (Some text) /\ text <> EmptyString)
  /\ (truthy GEMINI_API_KEY = false ->
      r = (mkResponse
             (error_json
                "AI service not configured. Please set GEMINI_API_KEY in environment variables."
                None) 500, []))
  /\ (status (fst r) = 200 ->
      exists text result_text,
        req_json = Returns (Some text)
        /\ generateContent (request_for text) = resolves result_text
        /\ fst r = mkResponse
                     (reply_json
                        (or_else result_text "Sorry, I couldn't process that.")
                        true) 200).
Proof.
  intros r. unfold r.
  destruct (truthy GEMINI_API_KEY) eqn:Hk.
  2:{ rewrite (POST_unconfigured _ _ _ Hk). simpl.
      repeat split; auto 6; try lia; try discriminate; try tauto. }
  destruct req_json as [text|e].
  - destruct (truthy text) eqn:Ht.
    + rewrite (POST_called _ _ _ Hk Ht).
      assert (Htext : exists s, text = Some s /\ s <> EmptyString).
      { destruct text as [s|]; [|discriminate]. exists s. split; [reflexivity|].
        simpl in Ht. apply negb_true_iff in Ht. now apply String.eqb_neq. }
      destruct Htext as [s [-> Hs]]. cbn [the fst snd length].
      split.
      { destruct (generateContent _); [rewrite on_error_status;
          destruct (_ || _)|]; simpl; auto 6. }
      split; [lia|]. split.
      { split; [|discriminate]. intros _. split; [reflexivity|].
        exists s. auto. }
      split; [discriminate|].
      destruct (generateContent (request_for s)) as [e|t] eqn:Hg.
      * rewrite on_error_status. destruct (_ || _); discriminate.
      * intros _. exists s, t. auto.
    + rewrite (POST_no_text _ _ _ Hk Ht). simpl.
      split; [auto|]. split; [lia|]. split.
      { split; [intros H; now elim H|].
        intros [_ [s [E Hs]]]. inversion E; subst.
        rewrite (WebhookRuns.truthy_Some _ Hs) in Ht. discriminate. }
      split; discriminate.
  - rewrite (POST_thrown _ _ _ Hk). cbn [fst snd length].
    split; [rewrite on_error_status; destruct (_ || _); simpl; auto 6|].
    split; [lia|]. split.
    { split; [intros H; now elim H|]. intros [_ [s [E _]]]. discriminate. }
    split; [discriminate|].
    rewrite on_error_status. destruct (_ || _); discriminate.
Qed.

(** X16. Any exception caught by the handler, whether thrown by the model
    call or already by reading the request body, is answered 429 "Quota
    limit reached" exactly when its text contains "quota" or
    "RESOURCE_EXHAUSTED" as a substring, and otherwise 500 "Failed to
    process with AI" with the error's message as details. *)
Theorem quota_errors_answer_429
  (GEMINI_API_KEY : option string)
  (generateContent : GenerateRequest -> Generated)
  (req_json : Try (option string)) (e : Thrown) :
  truthy GEMINI_API_KEY = true ->
  (req_json = Throws e
   \/ exists text, req_json = Returns (Some text) /\ text <> EmptyString
                   /\ generateContent (request_for text) = rejects e) ->
  let resp := fst (POST GEMINI_API_KEY generateContent req_json) in
  (status resp = 429 <->
   (exists pre post, String_ e = pre ++ "quota" ++ post)
   \/ (exists pre post, String_ e = pre ++ "RESOURCE_EXHAUSTED" ++ post))
  /\ ((status resp = 429
       /\ exists message,
            json resp = error_json message (Some "Quota limit reached"))
      \/ resp = mkResponse
                  (error_json "Failed to process with AI"
                              (Some (message_or_String e))) 500).
Proof.
  intros Hk Hsrc resp.
  assert (E : resp = on_error e).
  { unfold resp. destruct Hsrc as [->|[text [-> [Hne Hg]]]].
    - now rewrite (POST_thrown _ _ _ Hk).
    - rewrite (POST_called _ _ _ Hk (WebhookRuns.truthy_Some _ Hne)).
      cbn [the]. now rewrite Hg. }
  rewrite E, on_error_status. unfold on_error. cbv zeta.
  rewrite <- !JSFacts.includes_iff, <- orb_true_iff.
  destruct (includes "quota" (String_ e)
            || includes "RESOURCE_EXHAUSTED" (String_ e)).
  - split; [split; reflexivity|].
    left. split; [reflexivity|]. eexists. reflexivity.
  - split; [split; discriminate|]. now right.
Qed.

(** A quota error of the model. *)
Lemma quota_errors_witness :
  (truthy (Some "key") = true
   /\ (fun _ => rejects (Error "ApiError" "429 RESOURCE_EXHAUSTED"))
        (request_for "tell me a short joke")
      = rejects (Error "ApiError" "429 RESOURCE_EXHAUSTED"))
  /\ (status (fst (POST (Some "key")
                     (fun _ => rejects (Error "ApiError" "429 RESOURCE_EXHAUSTED"))
                     (Returns (Some "tell me a short joke")))) = 429 <->
      (exists pre post,
          String_ (Error "ApiError" "429 RESOURCE_EXHAUSTED")
          = pre ++ "quota" ++ post)
      \/ (exists pre post,
             String_ (Error "ApiError" "429 RESOURCE_EXHAUSTED")
             = pre ++ "RESOURCE_EXHAUSTED" ++ post)).
Proof.
  split; [split; reflexivity|].
  refine (proj1 (quota_errors_answer_429 (Some "key")
                   (fun _ => rejects (Error "ApiError" "429 RESOURCE_EXHAUSTED"))
                   (Returns (Some "tell me a short joke"))
                   (Error "ApiError" "429 RESOURCE_EXHAUSTED") eq_refl _)).
  right. exists "tell me a short joke".
  split; [reflexivity|]. split; [discriminate|reflexivity].
Defined.

End ProcessSpeechExtra.

(* ================================================================== *)
(** * The overlay in front of the endpoint *)

Module VoiceLoopExtra.
Import JS GenAI CallActive VoiceSession.
Local Open Scope Z_scope.

(** X17. What the user sees after a forwarded, non-empty utterance, with
    the overlay wired to the voice endpoint: without the API key, the
    configuration error; when the model resolves, its text, or the
    fallback sentence when it has none; when the model call fails with a
    quota error, the quota notice; on any other failure, "Error: "
    followed by the error's message, or by "Failed to process with AI"
    when the message is empty. *)
Theorem overlay_shows_the_endpoint_outcome
  (GEMINI_API_KEY : option string)
  (generateContent : GenerateRequest -> Generated)
  (speechSynthesis_in_window : bool)
  (text : string) (now : Z) (st : State) :
  text <> EmptyString ->
  MIN_REQUEST_INTERVAL <= now - lastRequestTime st ->
  aiResponse
    (fst (processWithFreeAI (endpoint GEMINI_API_KEY generateContent)
            speechSynthesis_in_window text now st))
  = if negb (truthy GEMINI_API_KEY) then
      "Error: AI service not configured. Please set GEMINI_API_KEY in environment variables."
    else
      match generateContent (ProcessSpeech.request_for text) with
      | resolves result_text =>
          or_else result_text "Sorry, I couldn't process that."
      | rejects e =>
          if includes "quota" (String_ e)
             || includes "RESOURCE_EXHAUSTED" (String_ e)
          then "Quota limit reached. Please wait a moment before trying again."
          else "Error: " ++
               (if String.eqb (message_or_String e) EmptyString
                then "Failed to process with AI"
                else message_or_String e)
      end.
Proof.
  intros Hne Hgap. unfold processWithFreeAI.
  apply Z.ltb_ge in Hgap. rewrite Hgap. unfold endpoint.
  destruct (truthy GEMINI_API_KEY) eqn:Hk; cbn [negb].
  - rewrite (ProcessSpeechFacts.POST_called _ _ _ Hk (WebhookRuns.truthy_Some _ Hne)).
    cbn [the fst].
    destruct (generateContent (ProcessSpeech.request_for text)) as [e|t].
    + unfold ProcessSpeech.on_error. cbv zeta.
      destruct (includes "quota" (String_ e)
                || includes "RESOURCE_EXHAUSTED" (String_ e)).
      * reflexivity.
      * cbn [ProcessSpeech.status ProcessSpeech.json].
        change (ok 500) with false. cbn [negb]. change (500 =? 429) with false.
        unfold error_includes_quota. cbn [error details orb].
        change (includes "quota" "Failed to process with AI") with false.
        cbv iota. cbn [fst aiResponse truthy the].
        destruct (String.eqb (message_or_String e) EmptyString); reflexivity.
    + reflexivity.
  - rewrite (ProcessSpeechFacts.POST_unconfigured _ _ _ Hk). reflexivity.
Qed.

(** The sample utterance when the model has no text to give. *)
Lemma overlay_endpoint_witness :
  ("tell me a short joke" <> EmptyString
   /\ MIN_REQUEST_INTERVAL <= 14000 - lastRequestTime (mkState 10000 EmptyString))
  /\ aiResponse
       (fst (processWithFreeAI (endpoint (Some "key") Sample.generate_nothing)
               true "tell me a short joke" 14000 (mkState 10000 EmptyString)))
     = "Sorry, I couldn't process that.".
Proof.
  assert (Hne : "tell me a short joke" <> EmptyString) by discriminate.
  assert (Hgap : MIN_REQUEST_INTERVAL
                 <= 14000 - lastRequestTime (mkState 10000 EmptyString))
    by discriminate.
  split; [split; [exact Hne|exact Hgap]|].
  exact (overlay_shows_the_endpoint_outcome (Some "key") Sample.generate_nothing
           true "tell me a short joke" 14000 (mkState 10000 EmptyString)
           Hne Hgap).
Defined.

End VoiceLoopExtra.

(* ================================================================== *)
(** * Further properties of the pipeline *)

Module PipelineRuns.
Import JS GenAI Pipeline.

Lemma update_idempotent {R} (f : R -> R) (p : R -> bool) (t : list R) :
  (forall r, p r = true -> p (f r) = true /\ f (f r) = f r) ->
  Db.update f p (Db.update f p t) = Db.update f p t.
Proof.
  intros H. unfold Db.update. rewrite map_map. apply map_ext_in.
  intros r _. destruct (p r) eqn:E; [|now rewrite E].
  destruct (H r E) as [-> ->]. reflexivity.
Qed.

Lemma save_summary_again event summary d :
  save_summary event summary (save_summary event summary d)
  = save_summary event summary d.
Proof.
  unfold save_summary. cbn [db_meetings with_meetings db_user db_agents].
  unfold with_meetings. f_equal.
  apply update_idempotent. intros r E. split; [exact E|reflexivity].
Qed.

End PipelineRuns.

Module PipelineExtra.
Import JS GenAI Pipeline PipelineFacts PipelineRuns.

(** X18. [[...new Set(ids)]] as the speaker lookup uses it: the result
    has no duplicates, holds exactly the values of the input, and is no
    longer than it. *)
Theorem speaker_ids_are_distinct (ids : list string) :
  NoDup (new_Set ids)
  /\ (forall id, In id (new_Set ids) <-> In id ids)
  /\ length (new_Set ids) <= length ids.
Proof.
  split; [|split; [intros id; apply In_new_Set|]].
  - induction ids as [|x ids IH]; simpl; constructor.
    + rewrite filter_In. intros [_ H]. now rewrite String.eqb_refl in H.
    + now apply NoDup_filter.
  - induction ids as [|x ids IH]; simpl; [lia|].
    apply le_n_S. etransitivity; [apply filter_length_le|exact IH].
Qed.

Section Job.
Variable StreamTranscriptItem : Type.
Variable speaker_id : StreamTranscriptItem -> string.
Variable fetch_text : option string -> Try string.
Variable JSONL_parse : string -> Try (list StreamTranscriptItem).
Variable JSON_stringify : list (StreamTranscriptItem * string) -> string.
Variable generateContent : GenerateRequest -> Generated.

Local Abbreviation meetingsProcessing :=
  (meetingsProcessing StreamTranscriptItem speaker_id fetch_text JSONL_parse
     JSON_stringify generateContent).

(** X19. Running the job again on the database it produced, with the same
    answers from the services, ends the same way and leaves the database
    as the first run left it: the last step is an idempotent overwrite
    and the steps before it read only the user and agent tables, which no
    run changes. *)
Theorem rerun_changes_nothing (event : Job) (d : Database) :
  meetingsProcessing event (snd (meetingsProcessing event d))
  = meetingsProcessing event d.
Proof.
  unfold Pipeline.meetingsProcessing.
  destruct (fetch_text _) as [response|e]; [|reflexivity].
  destruct (JSONL_parse response) as [transcript|e]; [|reflexivity].
  destruct (summarizeWithGemini generateContent
              (JSON_stringify
                 (add_speakers StreamTranscriptItem speaker_id transcript d)))
    as [summary|e] eqn:Hs;
    [|cbn [snd]; now rewrite Hs].
  cbn [snd].
  change (add_speakers StreamTranscriptItem speaker_id transcript
            (save_summary event summary d))
    with (add_speakers StreamTranscriptItem speaker_id transcript d).
  rewrite Hs. now rewrite save_summary_again.
Qed.

(** X20. A run writes nothing but the status and the summary of the rows
    whose id is the event's meeting id: the user and agent tables, every
    other row, and every other column of the rows it writes stay as they
    were.  It never adds a row: when no row has that id, the database is
    returned unchanged, even by a run that finishes. *)
Theorem run_writes_only_its_meeting (event : Job) (d : Database) :
  let d' := snd (meetingsProcessing event d) in
  db_user d' = db_user d
  /\ db_agents d' = db_agents d
  /\ Forall2
       (fun m m' =>
          meetings.id m' = meetings.id m
          /\ meetings.agentId m' = meetings.agentId m
          /\ meetings.transcriptUrl m' = meetings.transcriptUrl m
          /\ meetings.recordingUrl m' = meetings.recordingUrl m
          /\ meetings.startedAt m' = meetings.startedAt m
          /\ meetings.endedAt m' = meetings.endedAt m
          /\ (meetings.id m <> meetingId (data event) -> m' = m))
       (db_meetings d) (db_meetings d')
  /\ ((forall m, In m (db_meetings d) -> meetings.id m <> meetingId (data event)) ->
      d' = d).
Proof.
  assert (Hsame : forall t : list meetings.row,
            Forall2
              (fun m m' =>
                 meetings.id m' = meetings.id m
                 /\ meetings.agentId m' = meetings.agentId m
                 /\ meetings.transcriptUrl m' = meetings.transcriptUrl m
                 /\ meetings.recordingUrl m' = meetings.recordingUrl m
                 /\ meetings.startedAt m' = meetings.startedAt m
                 /\ meetings.endedAt m' = meetings.endedAt m
                 /\ (meetings.id m <> meetingId (data event) -> m' = m)) t t).
  { induction t; constructor; [repeat split|assumption]. }
  intros d'. unfold d', Pipeline.meetingsProcessing.
  destruct (fetch_text _); [|cbn [snd]; auto].
  destruct (JSONL_parse _); [|cbn [snd]; auto].
  destruct (summarizeWithGemini _ _); [|cbn [snd]; auto].
  cbn [snd]. unfold save_summary.
  cbn [db_user db_agents db_meetings with_meetings].
  split; [reflexivity|]. split; [reflexivity|]. split.
  - apply DbFacts.update_Forall2. intros r _.
    destruct (String.eqb_spec (meetings.id r) (meetingId (data event))) as [E|E];
      repeat split; try reflexivity.
    intros Hne. contradiction.
  - intros Hnone. rewrite DbFacts.update_none; [now destruct d|].
    apply DbFacts.select_none_iff. intros r Hin.
    apply String.eqb_neq. now apply Hnone.
Qed.

(** X21. A failing step ends the run there, with the name of the step and
    the error as thrown, and writes nothing: when the fetch fails, neither
    the parser nor the model is consulted, and when a line of the
    transcript does not parse, the model is not; the outcome is the same
    whatever those later services would have answered. *)
Theorem failing_step_ends_the_run
  (JSONL_parse' : string -> Try (list StreamTranscriptItem))
  (JSON_stringify' : list (StreamTranscriptItem * string) -> string)
  (generateContent' : GenerateRequest -> Generated)
  (event : Job) (d : Database) :
  (forall e,
      fetch_text (transcriptUrl (data event)) = Throws e ->
      meetingsProcessing event d = (step_failed "fetch-transcript" e, d)
      /\ Pipeline.meetingsProcessing StreamTranscriptItem speaker_id fetch_text
           JSONL_parse' JSON_stringify' generateContent' event d
         = meetingsProcessing event d)
  /\ (forall response e,
        fetch_text (transcriptUrl (data event)) = Returns response ->
        JSONL_parse response = Throws e ->
        meetingsProcessing event d = (step_failed "parse-transcript" e, d)
        /\ Pipeline.meetingsProcessing StreamTranscriptItem speaker_id fetch_text
             JSONL_parse JSON_stringify' generateContent' event d
           = meetingsProcessing event d).
Proof.
  unfold Pipeline.meetingsProcessing. split.
  - intros e Hf. now rewrite Hf.
  - intros response e Hf Hp. now rewrite Hf, Hp.
Qed.

End Job.

(** A job without a transcript URL: the fetch fails and the run stops. *)
Lemma failing_step_witness :
  Sample.fetch_text (transcriptUrl (data (mkJob "meetings/processing"
                                            (mkData "m1" None))))
    = Throws (Error "TypeError" "Failed to parse URL")
  /\ meetingsProcessing Sample.Item Sample.speaker_id Sample.fetch_text
       Sample.JSONL_parse Sample.JSON_stringify Sample.generate_text
       (mkJob "meetings/processing" (mkData "m1" None))
       (Sample.store processing)
     = (step_failed "fetch-transcript" (Error "TypeError" "Failed to parse URL"),
        Sample.store processing).
Proof.
  split; [reflexivity|].
  exact (proj1 (proj1 (failing_step_ends_the_run
                  Sample.Item Sample.speaker_id Sample.fetch_text
                  Sample.JSONL_parse Sample.JSON_stringify Sample.generate_text
                  Sample.JSONL_parse Sample.JSON_stringify Sample.generate_fails
                  (mkJob "meetings/processing" (mkData "m1" None))
                  (Sample.store processing))
                (Error "TypeError" "Failed to parse URL") eq_refl)).
Defined.

End PipelineExtra.

(* ================================================================== *)
(** * A meeting from start to summary *)

Module LifecycleExtra.
Import JS GenAI Webhook WebhookFacts WebhookRuns Pipeline.
Local Open Scope Z_scope.

Lemma has_id_iff (t : list meetings.row) id :
  (exists m, In m t /\ meetings.id m = id) <-> In id (map meetings.id t).
Proof.
  rewrite in_map_iff. split; intros [m [H1 H2]]; exists m; auto.
Qed.

Lemma update_keeps_ids set where_ (t : list meetings.row) :
  (forall m, meetings.id (set m) = meetings.id m) ->
  map meetings.id (Db.update set where_ t) = map meetings.id t.
Proof.
  intros H. unfold Db.update. rewrite map_map. apply map_ext.
  intros m. now destruct (where_ m).
Qed.

(** X22. The whole life of a meeting.  For an upcoming meeting, the start
    event at [t1], the end event at [t2] and the transcript event, each
    delivered once and in that order, followed by a run of the job the
    last one sent in which the fetch, the parser and the model all answer,
    leave exactly one job sent and every row of that meeting completed,
    with start time [t1], end time [t2], the delivered transcript URL and
    the generated summary; all other rows are as they were at the
    beginning.  The agent lookup of the start event plays no part. *)
Theorem meeting_from_start_to_summary
  (verifyWebhook : string -> string -> bool)
  (JSON_parse : string -> option Payload)
  (StreamTranscriptItem : Type) (speaker_id : StreamTranscriptItem -> string)
  (fetch_text : option string -> Try string)
  (JSONL_parse : string -> Try (list StreamTranscriptItem))
  (JSON_stringify : list (StreamTranscriptItem * string) -> string)
  (generateContent : GenerateRequest -> Generated)
  (req1 req2 req3 : NextRequest) (p1 p2 p3 : Payload) (id : string)
  (t1 t2 t3 : Z) (w : World)
  (response : string) (transcript : list StreamTranscriptItem)
  (text : option string) :
  delivers verifyWebhook JSON_parse req1 p1 ->
  delivers verifyWebhook JSON_parse req2 p2 ->
  delivers verifyWebhook JSON_parse req3 p3 ->
  type p1 = Some "call.session_started" ->
  type p2 = Some "call.session_ended" ->
  type p3 = Some "call.transcription_ready" ->
  call_custom_meetingId p1 = Some id ->
  call_custom_meetingId p2 = Some id ->
  JS.index (JS.split ":" (call_cid p3)) 1 = Some id ->
  id <> EmptyString ->
  (exists m, In m (db_meetings (db w))
             /\ meetings.id m = id /\ meetings.status m = upcoming) ->
  fetch_text (Some (call_transcription_url p3)) = Returns response ->
  JSONL_parse response = Returns transcript ->
  generateContent
    (mkGenerate "gemini-2.0-flash-exp"
       (systemPrompt ++ nl ++ nl ++ "Transcript to summarize:" ++ nl ++
        JSON_stringify
          (add_speakers StreamTranscriptItem speaker_id transcript (db w)))
       7 2048) = resolves text ->
  let w1 := snd (POST verifyWebhook JSON_parse req1 t1 w) in
  let w2 := snd (POST verifyWebhook JSON_parse req2 t2 w1) in
  let w3 := snd (POST verifyWebhook JSON_parse req3 t3 w2) in
  let job := mkJob "meetings/processing"
               (mkData id (Some (call_transcription_url p3))) in
  sent w3 = (sent w ++ [job])%list
  /\ meetingsProcessing StreamTranscriptItem speaker_id fetch_text JSONL_parse
       JSON_stringify generateContent job (db w3)
     = (finished,
        with_meetings (db w)
          (map (fun m =>
                  if String.eqb (meetings.id m) id
                  then meetings.mk id completed (meetings.agentId m)
                         (Some (call_transcription_url p3))
                         (meetings.recordingUrl m)
                         (Some (or_else text "Summary generation failed"))
                         (Some t1) (Some t2)
                  else m)
               (db_meetings (db w)))).
Proof.
  intros Hd1 Hd2 Hd3 Ht1 Ht2 Ht3 Hid1 Hid2 Hid3 Hne [m [Hin [Hm Hst]]]
         Hfetch Hparse Hgen w1 w2 w3 job.
  pose proof (truthy_Some _ Hne) as Htr.
  (* the start event *)
  assert (E1 : w1 =
            mkWorld
              (with_meetings (db w)
                 (Db.update (set_active t1)
                    (fun r => String.eqb (meetings.id r) id)
                    (db_meetings (db w))))
              (sent w) (ended w)).
  { unfold w1.
    rewrite (POST_dispatch _ _ _ _ _ _ Hd1), (dispatch_session_started _ _ Ht1).
    destruct (Db.select (startable (call_custom_meetingId p1))
                        (db_meetings (db w))) as [|existing rest] eqn:Hsel.
    - exfalso. rewrite Hid1 in Hsel.
      apply DbFacts.select_none_iff with (r := m) in Hsel; [|assumption].
      unfold startable, Db.eq_str in Hsel.
      rewrite Hm, Hst, String.eqb_refl in Hsel. discriminate.
    - pose proof (DbFacts.select_head _ _ _ _ Hsel) as [_ Hs].
      rewrite Hid1 in Hs. apply startable_inv in Hs. destruct Hs as [He _].
      rewrite (session_started_row p1 t1 w existing rest);
        [|now rewrite Hid1|assumption].
      rewrite He. unfold respond.
      now destruct (Db.select _ (db_agents (db w))). }
  (* the end event *)
  assert (E2 : w2 =
            mkWorld
              (with_meetings (db w1)
                 (Db.update (set_processing t2)
                    (fun r => Db.eq_str (meetings.id r) (Some id)
                              && status_eqb (meetings.status r) active)
                    (db_meetings (db w1))))
              (sent w1) (ended w1)).
  { unfold w2.
    rewrite (POST_dispatch _ _ _ _ _ _ Hd2), (dispatch_session_ended _ _ Ht2).
    rewrite session_ended_run by now rewrite Hid2.
    now rewrite Hid2. }
  (* the transcript event *)
  assert (Hrow : exists r, In r (db_meetings (db w2)) /\ meetings.id r = id).
  { apply has_id_iff. rewrite E2. cbn [db db_meetings with_meetings].
    rewrite update_keeps_ids by reflexivity.
    rewrite E1. cbn [db db_meetings with_meetings].
    rewrite update_keeps_ids by reflexivity.
    apply has_id_iff. exists m. auto. }
  assert (E3 : w3 =
            mkWorld
              (with_meetings (db w2)
                 (Db.update (set_transcriptUrl (call_transcription_url p3))
                    (fun r => String.eqb (meetings.id r) id)
                    (db_meetings (db w2))))
              (sent w2 ++ [job]) (ended w2)).
  { unfold w3.
    rewrite (POST_dispatch _ _ _ _ _ _ Hd3), (dispatch_transcription_ready _ _ Ht3).
    now rewrite (transcription_ready_existing p3 w2 id Hid3 Hrow). }
  split.
  - rewrite E3. cbn [sent]. rewrite E2. cbn [sent]. now rewrite E1.
  - unfold meetingsProcessing, job. cbn [data transcriptUrl meetingId].
    rewrite Hfetch, Hparse.
    assert (Hsp : add_speakers StreamTranscriptItem speaker_id transcript (db w3)
                  = add_speakers StreamTranscriptItem speaker_id transcript (db w)).
    { rewrite E3. cbn [db]. rewrite E2. cbn [db]. rewrite E1. reflexivity. }
    rewrite Hsp. unfold summarizeWithGemini. rewrite Hgen.
    f_equal. unfold save_summary. cbn [data meetingId].
    rewrite E3. cbn [db db_meetings with_meetings].
    rewrite E2. cbn [db db_meetings with_meetings db_user db_agents].
    rewrite E1. cbn [db db_meetings with_meetings db_user db_agents].
    unfold with_meetings. f_equal.
    unfold Db.update. rewrite !map_map. apply map_ext.
    intros [rid rstatus ragent rtranscript rrecording rsummary rstart rend].
    cbn [meetings.id meetings.status set_active].
    destruct (String.eqb_spec rid id) as [->|Hneq].
    + cbn. rewrite String.eqb_refl. cbn. rewrite ?String.eqb_refl. reflexivity.
    + cbn. apply String.eqb_neq in Hneq. rewrite Hneq. cbn.
      rewrite ?Hneq. cbn. rewrite ?Hneq. reflexivity.
Qed.

(** The sample meeting [m1], upcoming, taken through its three events. *)
Lemma meeting_from_start_to_summary_witness :
  (delivers Sample.verifyWebhook Fixtures.JSON_parse
     (Sample.signed "session_started m1") Sample.started_m1
   /\ delivers Sample.verifyWebhook Fixtures.JSON_parse
        (Sample.signed "session_ended m1") Fixtures.ended_m1
   /\ delivers Sample.verifyWebhook Fixtures.JSON_parse
        (Sample.signed "transcription_ready m1") Sample.transcription_m1
   /\ "m1" <> EmptyString
   /\ (exists m, In m (db_meetings (db (Sample.world (Sample.store upcoming))))
                 /\ meetings.id m = "m1" /\ meetings.status m = upcoming))
  /\ meetingsProcessing Sample.Item Sample.speaker_id Sample.fetch_text
       Sample.JSONL_parse Sample.JSON_stringify Sample.generate_text
       Sample.job_m1
       (db (snd (POST Sample.verifyWebhook Fixtures.JSON_parse
                   (Sample.signed "transcription_ready m1") 30
                   (snd (POST Sample.verifyWebhook Fixtures.JSON_parse
                           (Sample.signed "session_ended m1") 20
                           (snd (POST Sample.verifyWebhook Fixtures.JSON_parse
                                   (Sample.signed "session_started m1") 10
                                   (Sample.world (Sample.store upcoming)))))))))
     = (finished,
        mkDatabase
          [meetings.mk "m1" completed "a1" (Some "https://x/t.jsonl") None
             (Some "### Overview") (Some 10) (Some 20)]
          [Sample.u1] [Sample.a1]).
Proof.
  assert (Hd1 : delivers Sample.verifyWebhook Fixtures.JSON_parse
                  (Sample.signed "session_started m1") Sample.started_m1)
    by (repeat split; reflexivity).
  assert (Hd2 : delivers Sample.verifyWebhook Fixtures.JSON_parse
                  (Sample.signed "session_ended m1") Fixtures.ended_m1)
    by (repeat split; reflexivity).
  assert (Hd3 : delivers Sample.verifyWebhook Fixtures.JSON_parse
                  (Sample.signed "transcription_ready m1") Sample.transcription_m1)
    by (repeat split; reflexivity).
  assert (Hne : "m1" <> EmptyString) by discriminate.
  assert (Hm : exists m,
             In m (db_meetings (db (Sample.world (Sample.store upcoming))))
             /\ meetings.id m = "m1" /\ meetings.status m = upcoming)
    by (exists (Sample.m1 upcoming); split; [left|split]; reflexivity).
  split; [repeat split; try assumption; try reflexivity|].
  exact (proj2 (meeting_from_start_to_summary
                  Sample.verifyWebhook Fixtures.JSON_parse
                  Sample.Item Sample.speaker_id Sample.fetch_text
                  Sample.JSONL_parse Sample.JSON_stringify Sample.generate_text
                  (Sample.signed "session_started m1")
                  (Sample.signed "session_ended m1")
                  (Sample.signed "transcription_ready m1")
                  Sample.started_m1 Fixtures.ended_m1 Sample.transcription_m1
                  "m1" 10 20 30 (Sample.world (Sample.store upcoming))
                  "three lines" Sample.transcript (Some "### Overview")
                  Hd1 Hd2 Hd3 eq_refl eq_refl eq_refl eq_refl eq_refl eq_refl
                  Hne Hm eq_refl eq_refl eq_refl)).
Defined.

End LifecycleExtra.
